(** * aci-pong: the ephemeral probe-job orchestrator and its measurement job

    A shallow embedding of [src/app/aci-pong.py] and [src/measure/measure.py].

    Conventions of the embedding.
    - A Python [str] is a Rocq [string]; its characters stand for the code
      points U+0000..U+00FF.
    - A Python [float] is an IEEE 754 binary64 value, a [spec_float] of the
      standard library used at precision 53 and maximal exponent 1024.
    - The text [str] gives for a float is that of [float.__repr__]: the
      shortest decimal that reads back as the same value, see [float_repr].
    - Exceptions are values of [exn]; every one of them is an instance of
      Python's [Exception], so [except Exception] catches all of them.
    - The outside world (Azure, the file system, the random generator) is an
      abstract state with operations, see [AciPong.Platform].
    - The wall clock counts whole time units. It advances by the argument of
      [time.sleep] and by the duration of each call to the backend, which
      the backend chooses and which is never negative. *)

From Stdlib Require Import ZArith NArith List Ascii String Bool Lia SpecFloat.
From stdpp Require Import base option list strings pretty gmap.

Local Open Scope string_scope.
Local Open Scope list_scope.
Local Open Scope Z_scope.

(** ** Python values shared by the two programs *)

(** Classes of the exceptions that occur. [LibraryError] stands for any
    exception class of a third-party library (the Azure SDK, requests),
    [OSError] for a failing [open]. *)
Inductive exn_class :=
  | ValueError
  | AttributeError
  | IndexError
  | UnboundLocalError
  | OSError
  | LibraryError (class_name : string).

Record exn := Exception { exn_type : exn_class; exn_str : string }.

(** Outcome of running a piece of Python: a value, a raised exception, or
    [OutOfFuel] when the bounded unrolling of a [while] loop was too short. *)
Inductive result (A : Type) :=
  | Ok (a : A)
  | Raise (e : exn)
  | OutOfFuel.
Arguments Ok {A} a.
Arguments Raise {A} e.
Arguments OutOfFuel {A}.

(** A binary64 value. *)
Definition float64 := spec_float.
Definition prec64 : Z := 53.
Definition emax64 : Z := 1024.

(** *** [str.isspace], [str.strip], [str.splitlines], [str.lower] *)

Definition ord (c : ascii) : Z := Z.of_N (N_of_ascii c).

Definition chr (n : Z) : ascii := ascii_of_N (Z.to_N n).

(** White space of [str.strip] below U+0100: TAB..CR, FS..US, SPACE, NEL, NBSP. *)
Definition isspace (c : ascii) : bool :=
  ((9 <=? ord c) && (ord c <=? 13)) || ((28 <=? ord c) && (ord c <=? 32))
  || (ord c =? 133) || (ord c =? 160).

Fixpoint lstrip (s : string) : string :=
  match s with
  | String c rest => if isspace c then lstrip rest else s
  | EmptyString => EmptyString
  end.

Fixpoint rstrip (s : string) : string :=
  match s with
  | String c rest =>
      match rstrip rest with
      | EmptyString => if isspace c then EmptyString else String c EmptyString
      | kept => String c kept
      end
  | EmptyString => EmptyString
  end.

Definition strip (s : string) : string := rstrip (lstrip s).

(** Line boundaries of [str.splitlines] below U+0100: LF, VT, FF, CR, FS,
    GS, RS, NEL; CR LF counts as one boundary. *)
Definition is_linebreak (c : ascii) : bool :=
  ((10 <=? ord c) && (ord c <=? 13)) || ((28 <=? ord c) && (ord c <=? 30))
  || (ord c =? 133).

Fixpoint splitlines (s : string) : list string :=
  match s with
  | EmptyString => []
  | String c rest =>
      if is_linebreak c then
        match rest with
        | String c' rest' =>
            if (ord c =? 13) && (ord c' =? 10)
            then EmptyString :: splitlines rest'
            else EmptyString :: splitlines rest
        | EmptyString => [EmptyString]
        end
      else
        match splitlines rest with
        | [] => [String c EmptyString]
        | line :: lines => String c line :: lines
        end
  end.

(** [str.lower] below U+0100: A..Z and the capital letters U+00C0..U+00DE
    except the multiplication sign U+00D7. *)
Definition lower_char (c : ascii) : ascii :=
  if ((65 <=? ord c) && (ord c <=? 90))
     || ((192 <=? ord c) && (ord c <=? 222) && negb (ord c =? 215))
  then chr (ord c + 32) else c.

Fixpoint lower (s : string) : string :=
  match s with
  | String c rest => String (lower_char c) (lower rest)
  | EmptyString => EmptyString
  end.

(** *** [float(str)]

    The grammar of the language reference:
<<
    floatvalue  ::= [sign] (floatnumber | "inf" | "infinity" | "nan")
    floatnumber ::= number [exponent]
    number      ::= [digitpart] "." digitpart | digitpart ["."]
    exponent    ::= ("e" | "E") [sign] digitpart
    digitpart   ::= digit (["_"] digit)*
>>
    around which white space is dropped; "inf", "infinity" and "nan" are
    matched without regard to ASCII case. *)

Definition digit_of (c : ascii) : option Z :=
  if (48 <=? ord c) && (ord c <=? 57) then Some (ord c - 48) else None.

(** [(["_"] digit)*]: the digits read and what follows them. *)
Fixpoint digits_tail (s : string) : list Z * string :=
  match s with
  | String c rest =>
      match digit_of c with
      | Some d => let (ds, r) := digits_tail rest in (d :: ds, r)
      | None =>
          match rest with
          | String c' rest' =>
              match digit_of c' with
              | Some d =>
                  if ord c =? 95
                  then let (ds, r) := digits_tail rest' in (d :: ds, r)
                  else ([], s)
              | None => ([], s)
              end
          | EmptyString => ([], s)
          end
      end
  | EmptyString => ([], s)
  end.

Definition digitpart (s : string) : option (list Z * string) :=
  match s with
  | String c rest =>
      match digit_of c with
      | Some d => let (ds, r) := digits_tail rest in Some (d :: ds, r)
      | None => None
      end
  | EmptyString => None
  end.

(** Integer digits, fraction digits and the rest of the text. *)
Definition number (s : string) : option (list Z * list Z * string) :=
  match digitpart s with
  | Some (ip, String c r) =>
      if ord c =? 46 then
        match digitpart r with
        | Some (fp, r') => Some (ip, fp, r')
        | None => Some (ip, [], r)
        end
      else Some (ip, [], String c r)
  | Some (ip, EmptyString) => Some (ip, [], EmptyString)
  | None =>
      match s with
      | String c r =>
          if ord c =? 46 then
            match digitpart r with
            | Some (fp, r') => Some ([], fp, r')
            | None => None
            end
          else None
      | EmptyString => None
      end
  end.

Definition sign (s : string) : bool * string :=
  match s with
  | String c r =>
      if ord c =? 43 then (false, r)
      else if ord c =? 45 then (true, r)
      else (false, s)
  | EmptyString => (false, s)
  end.

Definition decimal_value (ds : list Z) : Z :=
  fold_left (fun acc d => 10 * acc + d) ds 0.

Definition exponent (s : string) : option (Z * string) :=
  match s with
  | String c r =>
      if (ord c =? 101) || (ord c =? 69) then
        let (neg, r1) := sign r in
        match digitpart r1 with
        | Some (ds, r2) =>
            Some (if neg then - decimal_value ds else decimal_value ds, r2)
        | None => None
        end
      else None
  | EmptyString => None
  end.

(** The binary64 nearest to [(-1)^neg * m * 10^e], ties to even. *)
Definition binary64_of_decimal (neg : bool) (m e : Z) : float64 :=
  match m with
  | Zpos p =>
      if 0 <=? e
      then binary_round prec64 emax64 neg (p * Z.to_pos (10 ^ e)) 0
      else SFdiv prec64 emax64 (S754_finite neg p 0)
                 (S754_finite false (Z.to_pos (10 ^ (- e))) 0)
  | _ => S754_zero neg
  end.

(** [float(s)]: [None] stands for the [ValueError] that [float] raises. *)
Definition float (s : string) : option float64 :=
  let (neg, body) := sign (strip s) in
  if (lower body =? "inf")%string || (lower body =? "infinity")%string
  then Some (S754_infinity neg)
  else if (lower body =? "nan")%string then Some S754_nan
  else
    match number body with
    | Some (ip, fp, r) =>
        let m := decimal_value (ip ++ fp) in
        let scale := - Z.of_nat (length fp) in
        match r with
        | EmptyString => Some (binary64_of_decimal neg m scale)
        | _ =>
            match exponent r with
            | Some (e, EmptyString) => Some (binary64_of_decimal neg m (e + scale))
            | _ => None
            end
        end
    | None => None
    end.

(** The float of a Python [int]. *)
Definition float_of_int (z : Z) : float64 := binary_normalize prec64 emax64 z 0 false.

(** A line that [float] rejects once its white space is trimmed. *)
Definition unparsable (line : string) : Prop := float (strip line) = None.

(** A text without any line boundary. *)
Fixpoint single_line (s : string) : bool :=
  match s with
  | String c rest => negb (is_linebreak c) && single_line rest
  | EmptyString => true
  end.

(** A text that is its own [strip]. *)
Definition trimmed (s : string) : Prop := strip s = s.

(** *** [str(float)]

    [float.__repr__], which [str] and [print] use: the shortest run of
    decimal digits that [float] reads back as the same value (the nearest
    to the value when several of that length do), written in positional
    notation with at least one digit on each side of the point when the
    decimal point position lies in -3..16 and in exponent notation
    otherwise. *)

Definition is_decimal_digit (c : ascii) : bool := (48 <=? ord c) && (ord c <=? 57).

Definition digit_char (d : Z) : ascii := chr (48 + d mod 10).

(** The decimal digits of [n], the most significant first. *)
Fixpoint decimal_digits_go (fuel : nat) (n : Z) (acc : list Z) : list Z :=
  match fuel with
  | O => n :: acc
  | S fuel' =>
      if n <? 10 then n :: acc
      else decimal_digits_go fuel' (n / 10) (n mod 10 :: acc)
  end.

Definition decimal_digits (n : Z) : list Z :=
  decimal_digits_go (Z.to_nat (Z.log2 n)) n [].

Fixpoint drop_trailing_zeros (ds : list Z) : list Z :=
  match ds with
  | d :: rest =>
      match drop_trailing_zeros rest with
      | [] => if d =? 0 then [] else [d]
      | kept => d :: kept
      end
  | [] => []
  end.

(** [10^k <= num / den], for positive [num] and [den]. *)
Definition pow10_le (k num den : Z) : bool :=
  if 0 <=? k then 10 ^ k * den <=? num else den <=? num * 10 ^ (- k).

(** The greatest [k] at most [start] with [10^k <= num / den]. *)
Fixpoint decimal_exponent_from (fuel : nat) (start num den : Z) : Z :=
  match fuel with
  | O => start
  | S fuel' =>
      if pow10_le start num den then start
      else decimal_exponent_from fuel' (start - 1) num den
  end.

(** The magnitude of a binary64 value lies between 10^-324 and 10^309. *)
Definition decimal_exponent (num den : Z) : Z :=
  decimal_exponent_from 640 309 num den.

(** [float] reads [c * 10^s] back as the value of mantissa [m] and exponent [e]. *)
Definition round_trips (m : positive) (e c s : Z) : bool :=
  match binary64_of_decimal false c s with
  | S754_finite _ m' e' => (m' =? m)%positive && (e' =? e)
  | _ => false
  end.

(** The shortest decimal [c * 10^s] with at least [n] digits that reads
    back as [num / den], the value of mantissa [m] and exponent [e]; [k] is
    the decimal exponent of the value. Seventeen digits always suffice. *)
Fixpoint shortest_from (fuel : nat) (n : Z) (m : positive) (e num den k : Z)
  : Z * Z :=
  let s := k - n + 1 in
  let a := if 0 <=? s then num else num * 10 ^ (- s) in
  let b := if 0 <=? s then den * 10 ^ s else den in
  let lo := a / b in
  let twice := 2 * (a mod b) in
  let nearest :=
    if twice <? b then lo
    else if b <? twice then lo + 1
    else if Z.even lo then lo else lo + 1 in
  match fuel with
  | O => (nearest, s)
  | S fuel' =>
      let lo_ok := round_trips m e lo s in
      let hi_ok := round_trips m e (lo + 1) s in
      if lo_ok && hi_ok then (nearest, s)
      else if lo_ok then (lo, s)
      else if hi_ok then (lo + 1, s)
      else shortest_from fuel' (n + 1) m e num den k
  end.

(** The digits of the shortest decimal of the value of mantissa [m] and
    exponent [e], and the position of its decimal point: the value reads
    [0.d1d2...dn * 10^decpt]. *)
Definition shortest_digits (m : positive) (e : Z) : list Z * Z :=
  let num := Zpos m * 2 ^ Z.max e 0 in
  let den := 2 ^ Z.max (- e) 0 in
  let '(c, s) := shortest_from 16 1 m e num den (decimal_exponent num den) in
  let all := decimal_digits c in
  (match drop_trailing_zeros all with [] => [0] | kept => kept end,
   Z.of_nat (length all) + s).

Definition zeros (n : Z) : list Z := repeat 0 (Z.to_nat n).

(** The digits before and after the point in positional notation. *)
Definition fixed_parts (ds : list Z) (decpt : Z) : list Z * list Z :=
  if decpt <=? 0 then ([0], zeros (- decpt) ++ ds)
  else if decpt <? Z.of_nat (length ds)
  then (firstn (Z.to_nat decpt) ds, skipn (Z.to_nat decpt) ds)
  else (ds ++ zeros (decpt - Z.of_nat (length ds)), [0]).

Definition render_fixed (ds : list Z) (decpt : Z) : list ascii :=
  let (ip, fp) := fixed_parts ds decpt in
  map digit_char ip ++ "."%char :: map digit_char fp.

(** Exponent notation: the exponent has a sign and at least two digits. *)
Definition render_exponent (ds : list Z) (decpt : Z) : list ascii :=
  let x := decpt - 1 in
  let xs := decimal_digits (Z.abs x) in
  map digit_char (firstn 1 ds)
  ++ match skipn 1 ds with
     | [] => []
     | rest => "."%char :: map digit_char rest
     end
  ++ "e"%char :: (if x <? 0 then "-"%char else "+"%char)
  :: map digit_char (match xs with [_] => 0 :: xs | _ => xs end).

(** The values that [float_repr] writes in positional notation. *)
Definition positional (x : float64) : bool :=
  match x with
  | S754_zero _ => true
  | S754_finite _ m e =>
      let decpt := snd (shortest_digits m e) in
      negb ((decpt <=? -4) || (16 <? decpt))
  | _ => false
  end.

Definition float_repr (x : float64) : string :=
  match x with
  | S754_nan => "nan"
  | S754_infinity s => if s then "-inf" else "inf"
  | S754_zero s => if s then "-0.0" else "0.0"
  | S754_finite s m e =>
      let (ds, decpt) := shortest_digits m e in
      string_of_list_ascii
        ((if s then ["-"%char] else [])
         ++ (if (decpt <=? -4) || (16 <? decpt)
             then render_exponent ds decpt
             else render_fixed ds decpt))
  end.

(** A plain decimal number: an optional minus sign, digits, a point,
    digits. *)
Fixpoint leading_digits (l : list ascii) : list ascii * list ascii :=
  match l with
  | c :: rest =>
      if is_decimal_digit c
      then let (ds, r) := leading_digits rest in (c :: ds, r)
      else ([], l)
  | [] => ([], [])
  end.

Definition plain_decimal (s : string) : bool :=
  let l := list_ascii_of_string s in
  let body :=
    match l with
    | c :: rest => if ord c =? 45 then rest else l
    | [] => l
    end in
  match leading_digits body with
  | (_ :: _, point :: fp) =>
      (ord point =? 46)
      && match leading_digits fp with
         | (_ :: _, []) => true
         | _ => false
         end
  | _ => false
  end.

(** What a call into a library gives back: a value or an exception. *)
Variant reply (A : Type) :=
  | Returns (a : A)
  | Raises (e : exn).
Arguments Returns {A} a.
Arguments Raises {A} e.

(** ** src/measure/measure.py *)

Module Measure.

(** [requests.Response], as far as the script looks at it. *)
Record Response := { status_code : Z; reason : string }.

(** What [parser.parse_args()] does with the command line: it returns the
    namespace holding [--url], or leaves the process through [SystemExit]
    after writing a usage or help text. *)
Variant parsed :=
  | Namespace (url : string)
  | SystemExit (code : Z) (out err : list string).

(** The host of the job: its monotonic clock, the network behind
    [requests.get], the [argparse] library and the text [str] gives for a
    float. [N] is the state of the host. *)
Class Host (N : Type) := {
  monotonic : N -> float64 * N;
  requests_get : string -> Z -> N -> reply Response * N;
  parse_args : list string -> parsed;
  float_str : float64 -> string
}.

(** The process: the host, the lines printed on each stream, and the calls
    of [requests.get] made so far with their [timeout]. *)
Record Process (N : Type) := {
  host : N;
  stdout : list string;
  stderr : list string;
  gets : list (string * Z)
}.
Arguments host {N} _.
Arguments stdout {N} _.
Arguments stderr {N} _.
Arguments gets {N} _.

(** [Response.raise_for_status]: an [HTTPError] for 4xx and 5xx. *)
Definition raise_for_status (url : string) (r : Response) : reply unit :=
  if (400 <=? status_code r) && (status_code r <? 500) then
    Raises (Exception (LibraryError "HTTPError")
              (pretty (status_code r) +:+ " Client Error: " +:+ reason r
               +:+ " for url: " +:+ url))
  else if (500 <=? status_code r) && (status_code r <? 600) then
    Raises (Exception (LibraryError "HTTPError")
              (pretty (status_code r) +:+ " Server Error: " +:+ reason r
               +:+ " for url: " +:+ url))
  else Returns tt.

Section Script.
Context {N : Type} `{Host N}.

(** Lines 12-26. [None] is Python's [None]. *)
Definition measure_response_time (url : string) (p : Process N)
  : option float64 * Process N :=
  let (start_time, h1) := monotonic (host p) in
  let (response, h2) := requests_get url 30 h1 in
  let requested := gets p ++ [(url, 30)] in
  let failed (e : exn) :=
    (None, {| host := h2; stdout := stdout p;
              stderr := stderr p ++ ["Error: " +:+ exn_str e];
              gets := requested |}) in
  match response with
  | Returns r =>
      match raise_for_status url r with
      | Returns _ =>
          let (end_time, h3) := monotonic h2 in
          let elapsed_time_ms :=
            SFmul prec64 emax64 (SFsub prec64 emax64 end_time start_time)
                  (float_of_int 1000) in
          (Some elapsed_time_ms,
           {| host := h3; stdout := stdout p; stderr := stderr p;
              gets := requested |})
      | Raises e => failed e
      end
  | Raises e => failed e
  end.

(** Lines 28-38: the exit status of the process and its final state. *)
Definition main (argv : list string) (p : Process N) : Z * Process N :=
  match parse_args argv with
  | Namespace url =>
      let (elapsed_ms, p1) := measure_response_time url p in
      match elapsed_ms with
      | Some x =>
          (0, {| host := host p1; stdout := stdout p1 ++ [float_str x];
                 stderr := stderr p1; gets := gets p1 |})
      | None => (1, p1)
      end
  | SystemExit code out err =>
      (code, {| host := host p; stdout := stdout p ++ out;
                stderr := stderr p ++ err; gets := gets p |})
  end.
End Script.

(** A host for examples: the clock advances by a quarter of a second at
    each reading, the network answers every request with the status
    [status], and the command line is read as [argparse] reads
    [--url VALUE]. *)
Definition steady_host (status : Z) : Host nat :=
  {| monotonic := fun n => (SFdiv prec64 emax64 (float_of_int (Z.of_nat n))
                                  (float_of_int 4), S n);
     requests_get := fun url timeout n =>
       (Returns {| status_code := status; reason := "" |}, n);
     parse_args := fun argv =>
       match argv with
       | [flag; value] =>
           if (flag =? "--url")%string then Namespace value
           else SystemExit 2 [] ["usage: measure.py [-h] --url URL"]
       | _ => SystemExit 2 [] ["usage: measure.py [-h] --url URL"]
       end;
     float_str := fun x => "<float>" |}.

Definition fresh : Process nat :=
  {| host := O; stdout := []; stderr := []; gets := [] |}.

(** The text of a stream: [print] ends each of its lines with a newline. *)
Fixpoint stream_text (lines : list string) : string :=
  match lines with
  | [] => EmptyString
  | line :: rest => line +:+ String (chr 10) (stream_text rest)
  end.

(** The steady host with the text [str] gives for 250.0, the elapsed time
    between its first two readings of the clock. *)
Definition plain_host (status : Z) : Host nat :=
  {| monotonic := @monotonic nat (steady_host status);
     requests_get := @requests_get nat (steady_host status);
     parse_args := @parse_args nat (steady_host status);
     float_str := fun x => "250.0" |}.

(** A host whose [str] is Python's: the clock advances by [1 / rate]
    seconds at each reading, the network and the command line are those of
    the steady host. *)
Definition repr_host (status rate : Z) : Host nat :=
  {| monotonic := fun n => (SFdiv prec64 emax64 (float_of_int (Z.of_nat n))
                                  (float_of_int rate), S n);
     requests_get := @requests_get nat (steady_host status);
     parse_args := @parse_args nat (steady_host status);
     float_str := float_repr |}.

End Measure.

(** ** src/app/aci-pong.py *)

Module AciPong.

(** *** Module-level configuration, lines 46-79 *)

(** The module's global names after its import. *)
Record Globals := {
  AZURE_SUBSCRIPTION_ID : string;
  AZURE_RESOURCE_GROUP : string;
  MEASURE_IMAGE : string;
  WEBPAGES_CONFIG_PATH : string;
  MEASUREMENT_INTERVAL : Z;
  ACR_TIMEOUT : Z
}.

Definition AZURE_REGIONS : list string :=
  ["eastus"; "westus"; "centralus"; "northeurope"; "westeurope";
   "southeastasia"; "eastasia"].

(** [os.environ.get(key, fallback)]. *)
Definition environ_get (environ : gmap string string) (key fallback : string)
  : string :=
  match environ !! key with
  | Some v => v
  | None => fallback
  end.

(** Executing the module's top level in the environment [environ]. *)
Definition module_init (environ : gmap string string) : result Globals :=
  let loaded (id : string) :=
    {| AZURE_SUBSCRIPTION_ID := id;
       AZURE_RESOURCE_GROUP :=
         environ_get environ "AZURE_RESOURCE_GROUP" "my-resource-group";
       MEASURE_IMAGE :=
         environ_get environ "MEASURE_IMAGE"
                     "myregistry.azurecr.io/webpage-measure:latest";
       WEBPAGES_CONFIG_PATH :=
         environ_get environ "WEBPAGES_CONFIG_PATH" "/etc/webpages/webpages.txt";
       MEASUREMENT_INTERVAL := 15;
       ACR_TIMEOUT := 180 |} in
  let missing :=
    Raise (Exception ValueError
             "AZURE_SUBSCRIPTION_ID environment variable is not set") in
  match environ !! "AZURE_SUBSCRIPTION_ID" with
  | Some id => if (id =? "")%string then missing else Ok (loaded id)
  | None => missing
  end.

(** A setting is an input of the environment when two environments in
    which the module loads give it different values. *)
Definition environment_input {X : Type} (setting : Globals -> X) : Prop :=
  exists (e1 e2 : gmap string string) (g1 g2 : Globals),
    module_init e1 = Ok g1 /\ module_init e2 = Ok g2 /\ setting g1 <> setting g2.

(** *** The models of the Azure SDK the script builds and reads *)

Record ContainerState := { state : option string }.

Record InstanceView := { current_state : option ContainerState }.

Record ResourceRequests := { memory_in_gb : float64; cpu : float64 }.

Record ResourceRequirements := { requests : ResourceRequests }.

Record Container := {
  name : string;
  image : string;
  command : list string;
  resources : ResourceRequirements;
  instance_view : option InstanceView
}.

Variant OperatingSystemTypes := linux | windows.

Variant ContainerGroupRestartPolicy := always | on_failure | never.

Record ContainerGroup := {
  location : string;
  containers : list Container;
  os_type : OperatingSystemTypes;
  restart_policy : ContainerGroupRestartPolicy
}.

Record Logs := { content : option string }.

(** *** The outside world *)

(** The calls that reach the job backend. *)
Variant Call :=
  | CreateOrUpdate (resource_group group_name : string) (group : ContainerGroup)
  | Get (resource_group group_name : string)
  | ListLogs (resource_group group_name container_name : string)
  | Delete (resource_group group_name : string).

Definition is_create (c : Call) : bool :=
  match c with CreateOrUpdate _ _ _ => true | _ => false end.

Definition is_get (c : Call) : bool :=
  match c with Get _ _ => true | _ => false end.

Definition is_list_logs (c : Call) : bool :=
  match c with ListLogs _ _ _ => true | _ => false end.

Definition is_delete (c : Call) : bool :=
  match c with Delete _ _ => true | _ => false end.

(** The answer of the backend to one call: the time the call took, what
    it gave back, and the backend afterwards. *)
Record Reply (B A : Type) := {
  elapsed : N;
  answer : reply A;
  after : B
}.
Arguments elapsed {B A} _.
Arguments answer {B A} _.
Arguments after {B A} _.

(** Everything outside the script, with [B] its state:
    - [begin_create_or_update] is
      [client.container_groups.begin_create_or_update(..).result()],
      the submission together with the wait for its acknowledgement;
    - [container_groups_get], [list_logs] and [begin_delete] are the
      client's methods of these names;
    - [uuid4_hex] is [uuid.uuid4().hex], [random_below n] the index below
      [n] that [random.choice] draws for a sequence of length [n],
      [open_readlines path] is [open(path, "r")] followed by
      [f.readlines()];
    - [isoformat t] is the text of the instant [t] in UTC, and [float_str]
      the text [str] gives for a float. *)
Class Platform (B : Type) := {
  begin_create_or_update : string -> string -> ContainerGroup -> B -> Reply B unit;
  container_groups_get : string -> string -> B -> Reply B ContainerGroup;
  list_logs : string -> string -> string -> B -> Reply B Logs;
  begin_delete : string -> string -> B -> Reply B unit;
  uuid4_hex : B -> string * B;
  random_below : nat -> B -> nat * B;
  open_readlines : string -> B -> reply (list string);
  isoformat : Z -> string;
  float_str : float64 -> string
}.

Variant level := DEBUG | INFO | ERROR.

(** The state of a run:
    - [platform], the outside world;
    - [clock], what [time.time()] returns, in time units;
    - [calls], the calls issued to the backend, oldest first, each with the
      instant it was issued at;
    - [gauge], the samples of [webpage_response_time], one value for each
      triple of labels (target, region, timestamp);
    - [log], the records the logger emitted;
    - [container_group_name], the local variable of this name in the frame
      of [run_measurement_cycle], [None] while it is unbound. *)
Record State (B : Type) := {
  platform : B;
  clock : Z;
  calls : list (Z * Call);
  gauge : gmap (string * string * string) float64;
  log : list (level * string);
  container_group_name : option string
}.
Arguments platform {B} _.
Arguments clock {B} _.
Arguments calls {B} _.
Arguments gauge {B} _.
Arguments log {B} _.
Arguments container_group_name {B} _.

(** *** The names imported from [datetime] *)

(** The objects the expression of line 213 can reach. *)
Variant object :=
  | datetime_module
  | datetime_class
  | datetime_UTC
  | datetime_now
  | datetime_other (attr : string).

(** Names defined by the class [datetime.datetime]. *)
Definition datetime_class_attributes : list string :=
  ["now"; "utcnow"; "today"; "fromtimestamp"; "utcfromtimestamp";
   "fromisoformat"; "fromordinal"; "strptime"; "combine"; "min"; "max";
   "resolution"; "year"; "month"; "day"; "hour"; "minute"; "second";
   "microsecond"; "tzinfo"; "fold"; "date"; "time"; "timetz"; "replace";
   "astimezone"; "utcoffset"; "dst"; "tzname"; "timetuple"; "utctimetuple";
   "toordinal"; "timestamp"; "weekday"; "isoweekday"; "isocalendar";
   "isoformat"; "ctime"; "strftime"].

Definition member (x : string) (l : list string) : bool :=
  existsb (String.eqb x) l.

Definition getattr (o : object) (attr : string) : reply object :=
  match o with
  | datetime_module =>
      if (attr =? "datetime")%string then Returns datetime_class
      else if (attr =? "UTC")%string then Returns datetime_UTC
      else if member attr ["date"; "time"; "timedelta"; "timezone"; "tzinfo";
                           "MINYEAR"; "MAXYEAR"]
      then Returns (datetime_other attr)
      else Raises (Exception AttributeError
                     ("module 'datetime' has no attribute '" +:+ attr +:+ "'"))
  | datetime_class =>
      if (attr =? "now")%string then Returns datetime_now
      else if member attr datetime_class_attributes
      then Returns (datetime_other attr)
      else Raises (Exception AttributeError
                     ("type object 'datetime.datetime' has no attribute '"
                      +:+ attr +:+ "'"))
  | _ =>
      Raises (Exception AttributeError ("object has no attribute '" +:+ attr +:+ "'"))
  end.

(** Line 15, [from datetime import datetime]: the global name [datetime]
    is bound to the class, not to the module. *)
Definition global_datetime : object := datetime_class.

(** The exception of lines 225 and 227 when the local variable is unbound. *)
Definition unbound_container_group_name : exn :=
  Exception UnboundLocalError
    "cannot access local variable 'container_group_name' where it is not associated with a value".

Section Orchestrator.
Context {B : Type} `{Platform B}.

(** Computations of the script: state passing with exceptions. *)
Definition M (A : Type) : Type := State B -> result A * State B.

#[global] Instance M_ret : MRet M := fun A (a : A) w => (Ok a, w).

#[global] Instance M_bind : MBind M :=
  fun A C (k : A -> M C) (m : M A) w =>
    match m w with
    | (Ok a, w') => k a w'
    | (Raise e, w') => (Raise e, w')
    | (OutOfFuel, w') => (OutOfFuel, w')
    end.

Definition raise {A : Type} (e : exn) : M A := fun w => (Raise e, w).

Definition lift {A : Type} (r : reply A) : M A :=
  match r with
  | Returns a => mret a
  | Raises e => raise e
  end.

(** [try: body except Exception as e: handler e]. *)
Definition try_except {A : Type} (body : M A) (handler : exn -> M A) : M A :=
  fun w =>
    match body w with
    | (Raise e, w') => handler e w'
    | done => done
    end.

(** [try: body finally: cleanup]: the cleanup runs however the body
    ends, and an exception of the cleanup replaces the body's outcome. *)
Definition try_finally {A : Type} (body : M A) (cleanup : M unit) : M A :=
  fun w =>
    match body w with
    | (OutOfFuel, w') => (OutOfFuel, w')
    | (r, w') =>
        match cleanup w' with
        | (Ok _, w'') => (r, w'')
        | (Raise e, w'') => (Raise e, w'')
        | (OutOfFuel, w'') => (OutOfFuel, w'')
        end
    end.

(** [logging.basicConfig(level=logging.WARNING)], line 38: records
    below WARNING are dropped. *)
Definition enabled (l : level) : bool :=
  match l with ERROR => true | _ => false end.

Definition logger (l : level) (msg : string) : M unit := fun w =>
  (Ok tt,
   {| platform := platform w; clock := clock w; calls := calls w;
      gauge := gauge w;
      log := if enabled l then log w ++ [(l, msg)] else log w;
      container_group_name := container_group_name w |}).

(** [time.time()] and [time.sleep(d)]. *)
Definition time_time : M Z := fun w => (Ok (clock w), w).

Definition time_sleep (d : Z) : M unit := fun w =>
  (Ok tt,
   {| platform := platform w; clock := clock w + d; calls := calls w;
      gauge := gauge w; log := log w;
      container_group_name := container_group_name w |}).

(** One call to the backend: it is recorded, takes its time, and
    returns or raises. *)
Definition invoke {A : Type} (c : Call) (op : B -> Reply B A) : M A := fun w =>
  let r := op (platform w) in
  (match answer r with Returns a => Ok a | Raises e => Raise e end,
   {| platform := after r; clock := clock w + Z.of_N (elapsed r);
      calls := calls w ++ [(clock w, c)];
      gauge := gauge w; log := log w;
      container_group_name := container_group_name w |}).

(** A step of the platform that is not a backend call. *)
Definition draw {A : Type} (op : B -> A * B) : M A := fun w =>
  let (a, b) := op (platform w) in
  (Ok a,
   {| platform := b; clock := clock w; calls := calls w;
      gauge := gauge w; log := log w;
      container_group_name := container_group_name w |}).

(** [random.choice(seq)]. *)
Definition random_choice (seq : list string) : M string :=
  match seq with
  | [] => raise (Exception IndexError "Cannot choose from an empty sequence")
  | first :: _ =>
      i ← draw (random_below (length seq));
      mret (nth (i mod length seq)%nat seq first)
  end.

(** Binding and reading the local variable [container_group_name]. *)
Definition store_container_group_name (v : string) : M unit := fun w =>
  (Ok tt,
   {| platform := platform w; clock := clock w; calls := calls w;
      gauge := gauge w; log := log w;
      container_group_name := Some v |}).

Definition load_container_group_name : M string := fun w =>
  match container_group_name w with
  | Some v => (Ok v, w)
  | None => (Raise unbound_container_group_name, w)
  end.

(** A fresh frame: no local variable is bound. *)
Definition enter_frame : M unit := fun w =>
  (Ok tt,
   {| platform := platform w; clock := clock w; calls := calls w;
      gauge := gauge w; log := log w;
      container_group_name := None |}).

(** [webpage_response_time.labels(target=.., region=.., timestamp=..).set(v)]. *)
Definition gauge_set (target region timestamp : string) (v : float64) : M unit :=
  fun w =>
    (Ok tt,
     {| platform := platform w; clock := clock w; calls := calls w;
        gauge := <[(target, region, timestamp) := v]> (gauge w);
        log := log w;
        container_group_name := container_group_name w |}).

(** Lines 85-93. *)
Definition read_webpages (config_path : string) : M (list string) := fun w =>
  match open_readlines config_path (platform w) with
  | Returns lines =>
      (Ok (map strip (List.filter (fun line => negb (strip line =? "")%string) lines)),
       w)
  | Raises e =>
      (logger ERROR ("Error reading " +:+ config_path +:+ ": " +:+ exn_str e);;
       mret []) w
  end.

(** Lines 95-128. *)
Definition create_container_group (g : Globals) (region url : string) : M string :=
  hex ← draw uuid4_hex;
  let group_name := "measure-" +:+ substring 0 8 hex in
  let container_name := "measure" in
  let command := ["python"; "/app/measure.py"; "--url"; url] in
  let container_resource_requests :=
    {| memory_in_gb := S754_finite false 4503599627370496 (-53);
       cpu := S754_finite false 4503599627370496 (-53) |} in
  let container_resources := {| requests := container_resource_requests |} in
  let container :=
    {| name := container_name; image := MEASURE_IMAGE g; command := command;
       resources := container_resources; instance_view := None |} in
  let group :=
    {| location := region; containers := [container]; os_type := linux;
       restart_policy := never |} in
  logger INFO ("Creating container group " +:+ group_name +:+ " in region "
               +:+ region +:+ " for URL " +:+ url);;
  invoke (CreateOrUpdate (AZURE_RESOURCE_GROUP g) group_name group)
         (begin_create_or_update (AZURE_RESOURCE_GROUP g) group_name group);;
  mret group_name.

(** Line 138, the conditional expression that reads the state of the
    first container. *)
Definition container_state_of (cg : ContainerGroup) : reply string :=
  match containers cg with
  | [] => Raises (Exception IndexError "list index out of range")
  | c :: _ =>
      match instance_view c with
      | Some view =>
          match current_state view with
          | Some cs =>
              match state cs with
              | Some s => Returns (lower s)
              | None =>
                  Raises (Exception AttributeError
                            "'NoneType' object has no attribute 'lower'")
              end
          | None =>
              Raises (Exception AttributeError
                        "'NoneType' object has no attribute 'state'")
          end
      | None => Returns ""
      end
  end.

(** [container_state in ("terminated", "exited")]. *)
Definition terminal (container_state : string) : bool :=
  (container_state =? "terminated")%string || (container_state =? "exited")%string.

(** Lines 136-143, the [while] loop, unrolled at most [fuel] times. *)
Fixpoint wait_loop (fuel : nat) (g : Globals) (start_time : Z)
  (group_name : string) (w : State B) {struct fuel} : result bool * State B :=
  if clock w - start_time <? ACR_TIMEOUT g then
    match fuel with
    | O => (OutOfFuel, w)
    | S fuel' =>
        (cg ← invoke (Get (AZURE_RESOURCE_GROUP g) group_name)
                     (container_groups_get (AZURE_RESOURCE_GROUP g) group_name);
         container_state ← lift (container_state_of cg);
         logger DEBUG ("Container " +:+ group_name +:+ " state: "
                       +:+ container_state);;
         if terminal container_state then mret true
         else (time_sleep 5;; wait_loop fuel' g start_time group_name)) w
    end
  else (Ok false, w).

(** An unrolling that is never too short: each turn of the loop sleeps 5
    time units, so the loop turns at most [ACR_TIMEOUT] times. *)
Definition poll_fuel (g : Globals) : nat := S (Z.to_nat (ACR_TIMEOUT g)).

(** Lines 130-143. *)
Definition wait_for_container_completion (g : Globals) (group_name : string)
  : M bool :=
  start_time ← time_time;
  wait_loop (poll_fuel g) g start_time group_name.

(** Lines 145-150. *)
Definition get_container_logs (g : Globals) (group_name : string)
  : M (option string) :=
  logs ← invoke (ListLogs (AZURE_RESOURCE_GROUP g) group_name "measure")
                (list_logs (AZURE_RESOURCE_GROUP g) group_name "measure");
  mret (content logs).

(** Lines 152-160. *)
Definition delete_container_group (g : Globals) (group_name : string) : M unit :=
  try_except
    (invoke (Delete (AZURE_RESOURCE_GROUP g) group_name)
            (begin_delete (AZURE_RESOURCE_GROUP g) group_name);;
     logger INFO ("Deleted container group " +:+ group_name))
    (fun e =>
       logger ERROR ("Error deleting container group " +:+ group_name +:+ ": "
                     +:+ exn_str e)).

(** Lines 170-175, the [for] loop over the lines. *)
Fixpoint first_float (lines : list string) : option float64 :=
  match lines with
  | [] => None
  | line :: rest =>
      match float (strip line) with
      | Some value => Some value
      | None => first_float rest
      end
  end.

(** Lines 162-178. [log_content] is [None] when the backend gave no
    text; [None.splitlines()] raises and the outer handler logs it. *)
Definition parse_response_time (log_content : option string) : M (option float64) :=
  match log_content with
  | Some text => mret (first_float (splitlines text))
  | None =>
      logger ERROR ("Error parsing log content: "
                    +:+ "'NoneType' object has no attribute 'splitlines'");;
      mret None
  end.

(** Line 213, [datetime.datetime.now(datetime.UTC).isoformat()]. *)
Definition utc_timestamp : M string :=
  cls ← lift (getattr global_datetime "datetime");
  now ← lift (getattr cls "now");
  utc ← lift (getattr global_datetime "UTC");
  match now, utc with
  | datetime_now, datetime_UTC => fun w => (Ok (isoformat (clock w)), w)
  | _, _ => raise (Exception (LibraryError "TypeError") "object is not callable")
  end.

(** Lines 201-218, the [try] block. The [continue] of line 207 ends the
    block; the [finally] clause runs next and nothing follows it in the
    body of the loop. *)
Definition try_clause (g : Globals) (region url : string) : M unit :=
  group_name ← create_container_group g region url;
  store_container_group_name group_name;;
  completed ← wait_for_container_completion g group_name;
  if negb completed then
    logger ERROR ("Timeout waiting for container group " +:+ group_name
                  +:+ " to finish.")
  else
    log_content ← get_container_logs g group_name;
    response_time_ms ← parse_response_time log_content;
    match response_time_ms with
    | Some value =>
        timestamp ← utc_timestamp;
        logger INFO ("Measured " +:+ float_str value +:+ "ms for " +:+ url
                     +:+ " from " +:+ region);;
        gauge_set url region timestamp value
    | None =>
        logger ERROR ("Could not parse response time for " +:+ url
                      +:+ " in container group " +:+ group_name)
    end.

(** Lines 220-221, [except Exception as exc]. *)
Definition except_clause (region url : string) (exc : exn) : M unit :=
  logger ERROR ("Error running measurement for " +:+ url +:+ " from region "
                +:+ region +:+ ": " +:+ exn_str exc).

(** Lines 222-227, the [finally] clause. Both the call of line 225 and
    the message of line 227 read the local variable. *)
Definition finally_clause (g : Globals) : M unit :=
  try_except
    (group_name ← load_container_group_name;
     delete_container_group g group_name)
    (fun cleanup_error =>
       group_name ← load_container_group_name;
       logger ERROR ("Cleanup error for container group " +:+ group_name
                     +:+ ": " +:+ exn_str cleanup_error)).

(** Lines 199-227, the body of the [for] loop. *)
Definition for_body (g : Globals) (url : string) : M unit :=
  region ← random_choice AZURE_REGIONS;
  try_finally
    (try_except (try_clause g region url) (except_clause region url))
    (finally_clause g).

(** Line 198, [for url in webpages]. *)
Fixpoint for_webpages (g : Globals) (webpages : list string) : M unit :=
  match webpages with
  | [] => mret tt
  | url :: rest => for_body g url;; for_webpages g rest
  end.

(** Lines 184-227. Building the credential and the client (lines 195
    and 196) makes no call to the backend and is left out. *)
Definition run_measurement_cycle (g : Globals) : M unit :=
  enter_frame;;
  webpages ← read_webpages (WEBPAGES_CONFIG_PATH g);
  match webpages with
  | [] => logger ERROR "No webpages defined to monitor."
  | _ => for_webpages g webpages
  end.

(** Lines 240-244, the first [cycles] turns of [while True]. The metrics
    server of line 235 serves the gauge and does not change the state. *)
Fixpoint main_loop (cycles : nat) (g : Globals) : M unit :=
  match cycles with
  | O => mret tt
  | S n =>
      logger INFO "Starting new measurement cycle";;
      run_measurement_cycle g;;
      logger INFO ("Measurement cycle completed. Sleeping for "
                   +:+ pretty (MEASUREMENT_INTERVAL g) +:+ " seconds.");;
      time_sleep (MEASUREMENT_INTERVAL g);;
      main_loop n g
  end.

(** The state in which the process starts on the platform [b]. *)
Definition boot (b : B) : State B :=
  {| platform := b; clock := 0; calls := []; gauge := ∅; log := [];
     container_group_name := None |}.

(** What the successive polls of one wait see. The wait only calls
    [container_groups_get], so the backend state before poll [k], the
    instant poll [k] is issued at when the earlier polls saw no terminal
    state, and the state poll [k] reads depend on the backend alone. *)
Definition poll (g : Globals) (group_name : string) (b : B)
  : Reply B ContainerGroup :=
  container_groups_get (AZURE_RESOURCE_GROUP g) group_name b.

Fixpoint poll_backend (g : Globals) (group_name : string) (k : nat) (b : B) : B :=
  match k with
  | O => b
  | S k' => poll_backend g group_name k' (after (poll g group_name b))
  end.

Fixpoint poll_instant (g : Globals) (group_name : string) (k : nat) (t : Z) (b : B)
  : Z :=
  match k with
  | O => t
  | S k' =>
      poll_instant g group_name k'
        (t + Z.of_N (elapsed (poll g group_name b)) + 5)
        (after (poll g group_name b))
  end.

Definition observed (g : Globals) (group_name : string) (k : nat) (b : B)
  : reply string :=
  match answer (poll g group_name (poll_backend g group_name k b)) with
  | Returns cg => container_state_of cg
  | Raises e => Raises e
  end.

(** The entries poll 0 to poll [n - 1] leave in [calls]. *)
Definition poll_calls (g : Globals) (group_name : string) (n : nat) (t : Z) (b : B)
  : list (Z * Call) :=
  map (fun k => (poll_instant g group_name k t b,
                 Get (AZURE_RESOURCE_GROUP g) group_name))
      (seq 0 n).

(** What [delete_container_group] adds to the log on the backend [b]:
    nothing when the backend accepts the deletion, the message of line 160
    when it raises. *)
Definition deletion_log (g : Globals) (group_name : string) (b : B)
  : list (level * string) :=
  match answer (begin_delete (AZURE_RESOURCE_GROUP g) group_name b) with
  | Returns _ => []
  | Raises e =>
      [(ERROR, "Error deleting container group " +:+ group_name +:+ ": "
               +:+ exn_str e)]
  end.

End Orchestrator.

(** What reading the target file gives holds no target: the file cannot be
    read, or each of its lines is blank. *)
Definition targetless (file : reply (list string)) : Prop :=
  match file with
  | Returns lines => Forall (fun line => strip line = "") lines
  | Raises _ => True
  end.

(** A call that neither creates nor deletes a job. *)
Definition reads_job (c : Z * Call) : Prop :=
  is_create (snd c) = false /\ is_delete (snd c) = false.

(** Counting the calls of one kind in a trace. *)
Definition count (kind : Call -> bool) (trace : list (Z * Call)) : nat :=
  length (List.filter (fun c => kind (snd c)) trace).

(** The names of the groups the trace asks to delete, oldest first. *)
Definition deleted (trace : list (Z * Call)) : list string :=
  flat_map (fun c => match snd c with Delete _ n => [n] | _ => [] end) trace.

(** *** A scripted backend *)

Variant step := submit | polling | fetch_log | deletion.

(** The script of a scenario, with the jobs told apart by their target:
    - [webpages_file], what reading the target file gives;
    - [failure url s], the exception the backend raises at step [s] of the
      job probing [url], if any;
    - [view url k], the state the [k]-th poll of that job reports
      ([None]: no instance view yet);
    - [output url], the log of that job;
    - [latency], the time every backend call takes. *)
Record Script := {
  webpages_file : reply (list string);
  failure : string -> step -> option exn;
  view : string -> nat -> option string;
  output : string -> option string;
  latency : N
}.

(** The scripted backend: the number of names drawn so far, the target
    and the number of polls of each job it holds. *)
Record Mock := {
  drawn : nat;
  target_of : gmap string string;
  polls_of : gmap string nat
}.

Definition not_found {A : Type} (b : Mock) (latency : N) : Reply Mock A :=
  {| elapsed := latency;
     answer := Raises (Exception (LibraryError "ResourceNotFoundError")
                         "The container group could not be found.");
     after := b |}.

Definition mock_create (sc : Script) (rg group_name : string) (group : ContainerGroup)
  (b : Mock) : Reply Mock unit :=
  let url :=
    match containers group with
    | c :: _ => nth 3 (command c) ""
    | [] => ""
    end in
  match failure sc url submit with
  | Some e => {| elapsed := latency sc; answer := Raises e; after := b |}
  | None =>
      {| elapsed := latency sc; answer := Returns tt;
         after := {| drawn := drawn b;
                     target_of := <[group_name := url]> (target_of b);
                     polls_of := <[group_name := O]> (polls_of b) |} |}
  end.

Definition mock_get (sc : Script) (rg group_name : string) (b : Mock)
  : Reply Mock ContainerGroup :=
  match target_of b !! group_name, polls_of b !! group_name with
  | Some url, Some k =>
      let b' := {| drawn := drawn b; target_of := target_of b;
                   polls_of := <[group_name := S k]> (polls_of b) |} in
      match failure sc url polling with
      | Some e => {| elapsed := latency sc; answer := Raises e; after := b' |}
      | None =>
          let seen :=
            match view sc url (S k) with
            | Some s =>
                Some {| current_state := Some {| state := Some s |} |}
            | None => None
            end in
          {| elapsed := latency sc;
             answer :=
               Returns
                 {| location := "";
                    containers :=
                      [{| name := "measure"; image := "";
                          command := ["python"; "/app/measure.py"; "--url"; url];
                          resources :=
                            {| requests :=
                                {| memory_in_gb := S754_finite false 4503599627370496 (-53);
                                   cpu := S754_finite false 4503599627370496 (-53) |} |};
                          instance_view := seen |}];
                    os_type := linux; restart_policy := never |};
             after := b' |}
      end
  | _, _ => not_found b (latency sc)
  end.

Definition mock_list_logs (sc : Script) (rg group_name container_name : string)
  (b : Mock) : Reply Mock Logs :=
  match target_of b !! group_name with
  | Some url =>
      match failure sc url fetch_log with
      | Some e => {| elapsed := latency sc; answer := Raises e; after := b |}
      | None =>
          {| elapsed := latency sc;
             answer := Returns {| content := output sc url |}; after := b |}
      end
  | None => not_found b (latency sc)
  end.

Definition mock_delete (sc : Script) (rg group_name : string) (b : Mock)
  : Reply Mock unit :=
  let b' := {| drawn := drawn b; target_of := delete group_name (target_of b);
               polls_of := delete group_name (polls_of b) |} in
  match target_of b !! group_name with
  | Some url =>
      match failure sc url deletion with
      | Some e => {| elapsed := latency sc; answer := Raises e; after := b |}
      | None => {| elapsed := latency sc; answer := Returns tt; after := b' |}
      end
  | None => {| elapsed := latency sc; answer := Returns tt; after := b |}
  end.

(** The [n]-th name drawn is [n] written with eight digits. *)
Definition mock_uuid4_hex (b : Mock) : string * Mock :=
  (substring (String.length (pretty (drawn b))) 8 "00000000" +:+ pretty (drawn b)
   +:+ "000000000000000000000000",
   {| drawn := S (drawn b); target_of := target_of b; polls_of := polls_of b |}).

Definition mock (sc : Script) : Platform Mock :=
  {| begin_create_or_update := mock_create sc;
     container_groups_get := mock_get sc;
     list_logs := mock_list_logs sc;
     begin_delete := mock_delete sc;
     uuid4_hex := mock_uuid4_hex;
     random_below := fun n b => (drawn b, b);
     open_readlines := fun path b => webpages_file sc;
     isoformat := fun t => pretty t;
     float_str := fun x => "<float>" |}.

Definition cold : Mock := {| drawn := O; target_of := ∅; polls_of := ∅ |}.

Definition backend_error : exn :=
  Exception (LibraryError "HttpResponseError") "Service unavailable".

Definition no_failure (url : string) (s : step) : option exn := None.

Definition fails_at (target : string) (at_step : step) (url : string) (s : step)
  : option exn :=
  if (url =? target)%string
  then match at_step, s with
       | submit, submit | polling, polling | fetch_log, fetch_log
       | deletion, deletion => Some backend_error
       | _, _ => None
       end
  else None.

Definition two_targets : reply (list string) :=
  Returns ["https://a.example
"; "https://b.example
"].

Definition terminated_at (n : nat) (url : string) (k : nat) : option string :=
  Some (if (k <? n)%nat then "Running" else "Terminated").

(** The end-to-end scenario of the specification: two targets, both jobs
    Terminated at their second poll, logs [42.0] and a warning followed by
    [58.3]. *)
Definition end_to_end : Script :=
  {| webpages_file := two_targets;
     failure := no_failure;
     view := terminated_at 2;
     output := fun url =>
       if (url =? "https://a.example")%string then Some "42.0"
       else Some "memory warning
58.3";
     latency := 1 |}.

(** The same scenario with the backend failing at one step of one target. *)
Definition failing (target : string) (at_step : step) : Script :=
  {| webpages_file := two_targets;
     failure := fails_at target at_step;
     view := terminated_at 2;
     output := output end_to_end;
     latency := 1 |}.

(** The scenario without a readable target file, and the one whose target
    file holds blank lines only. *)
Definition unreadable_file : Script :=
  {| webpages_file :=
       Raises (Exception OSError
                 "[Errno 2] No such file or directory: '/etc/webpages/webpages.txt'");
     failure := no_failure;
     view := terminated_at 2;
     output := output end_to_end;
     latency := 1 |}.

Definition blank_file : Script :=
  {| webpages_file := Returns ["
"; "   
"];
     failure := no_failure;
     view := terminated_at 2;
     output := output end_to_end;
     latency := 1 |}.

(** A scenario whose target file holds a blank line between its targets,
    white space before one of them, and one target twice. *)
Definition spaced_file : Script :=
  {| webpages_file := Returns ["  https://b.example
"; "
"; "https://a.example
"; "https://b.example"];
     failure := no_failure;
     view := terminated_at 2;
     output := output end_to_end;
     latency := 1 |}.

(** A scenario in which no job ever shows an instance view. *)
Definition never_viewed : Script :=
  {| webpages_file := two_targets;
     failure := no_failure;
     view := fun _ _ => None;
     output := output end_to_end;
     latency := 1 |}.

(** A backend whose answers never change and take no time: it accepts
    every submission, shows [seen] as the state of the first container at
    every poll ([None]: no instance view), and gives [text] as log. *)
Definition constant_group (seen : option string) : ContainerGroup :=
  {| location := "eastus";
     containers :=
       [{| name := "measure"; image := ""; command := [];
           resources :=
             {| requests :=
                 {| memory_in_gb := S754_finite false 4503599627370496 (-53);
                    cpu := S754_finite false 4503599627370496 (-53) |} |};
           instance_view :=
             match seen with
             | Some s => Some {| current_state := Some {| state := Some s |} |}
             | None => None
             end |}];
     os_type := linux; restart_policy := never |}.

Definition constant_backend (seen text : option string) : Platform unit :=
  {| begin_create_or_update := fun rg group_name group b =>
       {| elapsed := 0; answer := Returns tt; after := b |};
     container_groups_get := fun rg group_name b =>
       {| elapsed := 0; answer := Returns (constant_group seen); after := b |};
     list_logs := fun rg group_name container_name b =>
       {| elapsed := 0; answer := Returns {| content := text |}; after := b |};
     begin_delete := fun rg group_name b =>
       {| elapsed := 0; answer := Returns tt; after := b |};
     uuid4_hex := fun b => ("00000000000000000000000000000000", b);
     random_below := fun n b => (O, b);
     open_readlines := fun path b => Returns ["https://a.example"];
     isoformat := fun t => pretty t;
     float_str := fun x => "<float>" |}.

(** The environment of the scenarios. *)
Definition scenario_environ : gmap string string :=
  {[ "AZURE_SUBSCRIPTION_ID" := "00000000-0000-0000-0000-000000000000" ]}.

Definition scenario_globals : Globals :=
  {| AZURE_SUBSCRIPTION_ID := "00000000-0000-0000-0000-000000000000";
     AZURE_RESOURCE_GROUP := "my-resource-group";
     MEASURE_IMAGE := "myregistry.azurecr.io/webpage-measure:latest";
     WEBPAGES_CONFIG_PATH := "/etc/webpages/webpages.txt";
     MEASUREMENT_INTERVAL := 15;
     ACR_TIMEOUT := 180 |}.

(** One cycle of the script [sc] from a cold start. *)
Definition cycle (sc : Script) : result unit * State Mock :=
  @run_measurement_cycle Mock (mock sc) scenario_globals (boot cold).

End AciPong.

(** * Properties *)

Import AciPong.

(** ** Python's [float] and [str.splitlines] on sample texts *)

Example float_examples :
  float "123.45" = Some (S754_finite false 8687021468732621 (-46))
  /\ float " 42.0 " = Some (S754_finite false 5910974510923776 (-47))
  /\ float "1e3" = float "1_000." /\ float "-.5e1" = float "-5"
  /\ float "0.1" = Some (S754_finite false 7205759403792794 (-56))
  /\ float "1e400" = Some (S754_infinity false)
  /\ float "-Infinity" = Some (S754_infinity true) /\ float "NaN" = Some S754_nan
  /\ float "" = None /\ float "1e" = None /\ float "1__0" = None
  /\ float "_1" = None /\ float "1_" = None /\ float "." = None
  /\ float "connecting..." = None /\ float "0x10" = None /\ float "1 2" = None.
Proof. vm_compute. repeat split. Qed.

Example splitlines_examples :
  splitlines "a
b" = ["a"; "b"] /\ splitlines "" = [] /\ splitlines "a
" = ["a"].
Proof. vm_compute. repeat split. Qed.

(** ** The parser of the job's log *)

Lemma first_float_none (lines : list string) :
  first_float lines = None <-> Forall unparsable lines.
Proof.
  unfold unparsable. induction lines as [|line rest IH]; simpl.
  - split; [constructor | reflexivity].
  - destruct (float (strip line)) as [v|] eqn:E.
    + split; [discriminate | intros F; inversion F; congruence].
    + rewrite IH. split; [intros F; constructor; assumption | intros F; inversion F; assumption].
Qed.

Lemma first_float_some (lines : list string) (v : float64) :
  first_float lines = Some v <->
  exists before line after,
    lines = before ++ line :: after /\ Forall unparsable before
    /\ float (strip line) = Some v.
Proof.
  unfold unparsable. induction lines as [|l rest IH]; simpl.
  - split; [discriminate|]. intros (before & line & after & E & _).
    destruct before; discriminate.
  - destruct (float (strip l)) as [x|] eqn:E.
    + split.
      * intros [= ->]. exists [], l, rest. repeat split; [constructor | assumption].
      * intros (before & line & after & Eq & Fa & Fl).
        destruct before as [|b before]; simpl in Eq; injection Eq as -> ->.
        -- congruence.
        -- inversion Fa; congruence.
    + rewrite IH. split.
      * intros (before & line & after & -> & Fa & Fl).
        exists (l :: before), line, after. repeat split; [constructor|]; assumption.
      * intros (before & line & after & Eq & Fa & Fl).
        destruct before as [|b before]; simpl in Eq; injection Eq as -> ->.
        -- congruence.
        -- exists before, line, after. inversion Fa. repeat split; assumption.
Qed.

Section Parser.
Context {B : Type}.

(** C4. For every text, [parse_response_time] returns, without raising and
    without another effect, the float of the first line of the text that
    parses as a float once its white space is trimmed, whatever the lines
    before and after it are, and absent exactly when no line parses. The
    three sample texts give 123.45 (8687021468732621 * 2^-46, the binary64
    nearest to it), absent and absent. *)
Theorem parse_response_time_first_float_line (text : string) (w : State B) :
  (exists r : option float64,
      parse_response_time (Some text) w = (Ok r, w)
      /\ (forall v, r = Some v <->
                    exists before line after,
                      splitlines text = before ++ line :: after
                      /\ Forall unparsable before
                      /\ float (strip line) = Some v)
      /\ (r = None <-> Forall unparsable (splitlines text)))
  /\ parse_response_time (Some "connecting...
123.45
extra
") w = (Ok (Some (S754_finite false 8687021468732621 (-46))), w)
  /\ float "123.45" = Some (S754_finite false 8687021468732621 (-46))
  /\ parse_response_time (Some "error: refused
") w = (Ok None, w)
  /\ parse_response_time (Some "") w = (Ok None, w).
Proof.
split.
- exists (first_float (splitlines text)). split; [reflexivity|]. split.
  + intros v. apply first_float_some.
  + apply first_float_none.
- repeat split; vm_compute; reflexivity.
Qed.
End Parser.

(** ** The configuration read at start-up *)

Lemma module_init_loaded (environ : gmap string string) (g : Globals) :
  module_init environ = Ok g ->
  exists id, environ !! "AZURE_SUBSCRIPTION_ID" = Some id /\ id <> ""
    /\ g = {| AZURE_SUBSCRIPTION_ID := id;
              AZURE_RESOURCE_GROUP :=
                environ_get environ "AZURE_RESOURCE_GROUP" "my-resource-group";
              MEASURE_IMAGE :=
                environ_get environ "MEASURE_IMAGE"
                            "myregistry.azurecr.io/webpage-measure:latest";
              WEBPAGES_CONFIG_PATH :=
                environ_get environ "WEBPAGES_CONFIG_PATH" "/etc/webpages/webpages.txt";
              MEASUREMENT_INTERVAL := 15;
              ACR_TIMEOUT := 180 |}.
Proof.
  unfold module_init. destruct (environ !! "AZURE_SUBSCRIPTION_ID") as [id|]; [|discriminate].
  destruct (String.eqb_spec id ""); [discriminate|].
  intros [= <-]. exists id. repeat split. assumption.
Qed.

(** C6, as stated, fails: the cycle interval and the per-job timeout are
    not inputs of the environment, no environment changes them. *)
Lemma interval_and_timeout_are_not_environment_inputs :
  ~ environment_input MEASUREMENT_INTERVAL /\ ~ environment_input ACR_TIMEOUT.
Proof.
  split; intros (e1 & e2 & g1 & g2 & L1 & L2 & D); apply D;
    apply module_init_loaded in L1 as (? & _ & _ & ->);
    apply module_init_loaded in L2 as (? & _ & _ & ->); reflexivity.
Qed.

(** C6, amended. Without the subscription identifier in the environment the
    module raises [ValueError] and does not load. When it loads, the resource
    group, the image and the path of the target file are the values of their
    environment variables, or their defaults when these are absent; the
    three are inputs of the environment. The cycle interval is 15 and the
    per-job timeout 180 in every environment. *)
Theorem configuration_at_startup :
  (forall environ,
      environ !! "AZURE_SUBSCRIPTION_ID" = None ->
      module_init environ
      = Raise (Exception ValueError
                 "AZURE_SUBSCRIPTION_ID environment variable is not set"))
  /\ (forall environ g,
         module_init environ = Ok g ->
         AZURE_RESOURCE_GROUP g
         = default "my-resource-group" (environ !! "AZURE_RESOURCE_GROUP")
         /\ MEASURE_IMAGE g
            = default "myregistry.azurecr.io/webpage-measure:latest"
                      (environ !! "MEASURE_IMAGE")
         /\ WEBPAGES_CONFIG_PATH g
            = default "/etc/webpages/webpages.txt" (environ !! "WEBPAGES_CONFIG_PATH")
         /\ MEASUREMENT_INTERVAL g = 15
         /\ ACR_TIMEOUT g = 180)
  /\ environment_input AZURE_RESOURCE_GROUP
  /\ environment_input MEASURE_IMAGE
  /\ environment_input WEBPAGES_CONFIG_PATH.
Proof.
  split; [|split].
  - intros environ E. unfold module_init. rewrite E. reflexivity.
  - intros environ g L. apply module_init_loaded in L as (id & _ & _ & ->).
    unfold environ_get; simpl.
    destruct (environ !! "AZURE_RESOURCE_GROUP"), (environ !! "MEASURE_IMAGE"),
      (environ !! "WEBPAGES_CONFIG_PATH"); repeat split.
  - repeat split.
    + exists scenario_environ, (<["AZURE_RESOURCE_GROUP" := "probes"]> scenario_environ).
      eexists; eexists. split; [vm_compute; reflexivity|].
      split; [vm_compute; reflexivity|]. discriminate.
    + exists scenario_environ, (<["MEASURE_IMAGE" := "probe:1"]> scenario_environ).
      eexists; eexists. split; [vm_compute; reflexivity|].
      split; [vm_compute; reflexivity|]. discriminate.
    + exists scenario_environ, (<["WEBPAGES_CONFIG_PATH" := "/tmp/w.txt"]> scenario_environ).
      eexists; eexists. split; [vm_compute; reflexivity|].
      split; [vm_compute; reflexivity|]. discriminate.
Qed.

(** C6, amended, on the environment of the scenarios, with and without its
    subscription identifier. *)
Lemma configuration_at_startup_witness :
  module_init scenario_environ = Ok scenario_globals
  /\ module_init (delete "AZURE_SUBSCRIPTION_ID" scenario_environ)
     = Raise (Exception ValueError
                "AZURE_SUBSCRIPTION_ID environment variable is not set")
  /\ MEASUREMENT_INTERVAL scenario_globals = 15
  /\ ACR_TIMEOUT scenario_globals = 180.
Proof.
  split; [vm_compute; reflexivity|]. split.
  - apply (proj1 configuration_at_startup). vm_compute. reflexivity.
  - apply (proj1 (proj2 configuration_at_startup) scenario_environ).
    vm_compute. reflexivity.
Defined.

(** ** The text of a float *)

Lemma digit_char_is_digit (d : Z) : is_decimal_digit (digit_char d) = true.
Proof.
  unfold digit_char.
  pose proof (Z.mod_pos_bound d 10 ltac:(lia)) as Hr.
  assert (d mod 10 = 0 \/ d mod 10 = 1 \/ d mod 10 = 2 \/ d mod 10 = 3
          \/ d mod 10 = 4 \/ d mod 10 = 5 \/ d mod 10 = 6 \/ d mod 10 = 7
          \/ d mod 10 = 8 \/ d mod 10 = 9) as Hcases by lia.
  repeat (destruct Hcases as [-> | Hcases]; [reflexivity |]).
  rewrite Hcases. reflexivity.
Qed.

Lemma decimal_digit_not_linebreak (c : ascii) :
  is_decimal_digit c = true -> is_linebreak c = false.
Proof.
  unfold is_decimal_digit, is_linebreak. intros Hc.
  apply andb_true_iff in Hc as [Hlo Hhi].
  apply Z.leb_le in Hlo. apply Z.leb_le in Hhi.
  replace (ord c <=? 13) with false by (symmetry; apply Z.leb_gt; lia).
  replace (28 <=? ord c) with true by (symmetry; apply Z.leb_le; lia).
  replace (ord c <=? 30) with false by (symmetry; apply Z.leb_gt; lia).
  replace (ord c =? 133) with false by (symmetry; apply Z.eqb_neq; lia).
  rewrite andb_false_r. reflexivity.
Qed.

Lemma single_line_chars (l : list ascii) :
  forallb (fun c => negb (is_linebreak c)) l = true ->
  single_line (string_of_list_ascii l) = true.
Proof.
  induction l as [| c l IH]; simpl; [reflexivity |].
  intros Hl. apply andb_true_iff in Hl as [Hc Hl].
  rewrite Hc. simpl. exact (IH Hl).
Qed.

Lemma digits_no_linebreak (ds : list Z) :
  forallb (fun c => negb (is_linebreak c)) (map digit_char ds) = true.
Proof.
  induction ds as [| d ds IH]; simpl; [reflexivity |].
  rewrite (decimal_digit_not_linebreak _ (digit_char_is_digit d)). exact IH.
Qed.

Lemma render_fixed_no_linebreak (ds : list Z) (decpt : Z) :
  forallb (fun c => negb (is_linebreak c)) (render_fixed ds decpt) = true.
Proof.
  unfold render_fixed. destruct (fixed_parts ds decpt) as [ip fp].
  rewrite forallb_app. simpl. rewrite !digits_no_linebreak. reflexivity.
Qed.

Lemma render_exponent_no_linebreak (ds : list Z) (decpt : Z) :
  forallb (fun c => negb (is_linebreak c)) (render_exponent ds decpt) = true.
Proof.
  unfold render_exponent. rewrite !forallb_app. rewrite digits_no_linebreak.
  simpl. apply andb_true_iff. split.
  - destruct (skipn 1 ds) as [| d rest] eqn:Hrest; [reflexivity |].
    change (forallb (fun c => negb (is_linebreak c))
              ("."%char :: map digit_char (d :: rest)) = true).
    simpl forallb at 1.
    change (negb (is_linebreak ".")) with true.
    exact (digits_no_linebreak (d :: rest)).
  - change (negb (is_linebreak "e")) with true. simpl.
    apply andb_true_iff. split.
    + destruct (decpt - 1 <? 0); reflexivity.
    + apply digits_no_linebreak.
Qed.

(** Whatever the value, [str] gives a text without a line boundary. *)
Lemma float_repr_single_line (x : float64) : single_line (float_repr x) = true.
Proof.
  destruct x as [s | s | | s m e].
  - destruct s; reflexivity.
  - destruct s; reflexivity.
  - reflexivity.
  - unfold float_repr.
    destruct (shortest_digits m e) as [ds decpt].
    apply single_line_chars. rewrite forallb_app. apply andb_true_iff. split.
    + destruct s; reflexivity.
    + destruct ((decpt <=? -4) || (16 <? decpt)).
      * apply render_exponent_no_linebreak.
      * apply render_fixed_no_linebreak.
Qed.

Lemma leading_digits_run (ds : list Z) (rest : list ascii) :
  match rest with
  | c :: _ => is_decimal_digit c = false
  | [] => True
  end ->
  leading_digits (map digit_char ds ++ rest) = (map digit_char ds, rest).
Proof.
  intros Hrest. induction ds as [| d ds IH]; simpl.
  - destruct rest as [| c rest]; [reflexivity |].
    simpl. rewrite Hrest. reflexivity.
  - rewrite digit_char_is_digit, IH. reflexivity.
Qed.

Lemma plain_decimal_parts (negative : bool) (ip fp : list Z) :
  ip <> [] -> fp <> [] ->
  plain_decimal
    (string_of_list_ascii
       ((if negative then ["-"%char] else [])
        ++ map digit_char ip ++ "."%char :: map digit_char fp)) = true.
Proof.
  intros Hip Hfp. unfold plain_decimal.
  rewrite list_ascii_of_string_of_list_ascii.
  assert (leading_digits (map digit_char ip ++ "."%char :: map digit_char fp)
          = (map digit_char ip, "."%char :: map digit_char fp)) as Hrun
    by (apply leading_digits_run; reflexivity).
  assert (leading_digits (map digit_char fp) = (map digit_char fp, [])) as Hfrac.
  { rewrite <- (app_nil_r (map digit_char fp)) at 1.
    apply leading_digits_run. exact I. }
  assert (match
            leading_digits (map digit_char ip ++ "."%char :: map digit_char fp)
          with
          | (_ :: _, point :: fp0) =>
              (ord point =? 46)
              && match leading_digits fp0 with
                 | (_ :: _, []) => true
                 | _ => false
                 end
          | _ => false
          end = true) as Hbody.
  { rewrite Hrun. destruct ip as [| i ip]; [congruence |]. simpl map.
    change (ord "." =? 46) with true. rewrite Hfrac.
    destruct fp as [| f fp]; [congruence |]. reflexivity. }
  destruct negative.
  - simpl app. change (ord "-" =? 45) with true. exact Hbody.
  - destruct ip as [| i ip]; [congruence |].
    assert ((ord (digit_char i) =? 45) = false) as Hminus.
    { apply Z.eqb_neq.
      pose proof (digit_char_is_digit i) as Hdigit.
      unfold is_decimal_digit in Hdigit.
      apply andb_true_iff in Hdigit as [Hlo _]. apply Z.leb_le in Hlo. lia. }
    change (([] : list ascii)
            ++ map digit_char (i :: ip) ++ "."%char :: map digit_char fp)
      with (digit_char i
            :: (map digit_char ip ++ "."%char :: map digit_char fp)).
    cbv iota beta zeta. rewrite Hminus. exact Hbody.
Qed.

Lemma fixed_parts_nonempty (ds : list Z) (decpt : Z) :
  ds <> [] ->
  fst (fixed_parts ds decpt) <> [] /\ snd (fixed_parts ds decpt) <> [].
Proof.
  intros Hds. unfold fixed_parts.
  destruct (decpt <=? 0) eqn:Hneg.
  - simpl. split; [discriminate |].
    intros Happ. apply app_eq_nil in Happ as [_ Happ]. exact (Hds Happ).
  - apply Z.leb_gt in Hneg.
    destruct (decpt <? Z.of_nat (length ds)) eqn:Hin.
    + apply Z.ltb_lt in Hin. simpl. split.
      * intros Hnil. apply (f_equal (@length Z)) in Hnil.
        rewrite List.length_firstn in Hnil. simpl in Hnil. lia.
      * intros Hnil. apply (f_equal (@length Z)) in Hnil.
        rewrite List.length_skipn in Hnil. simpl in Hnil. lia.
    + simpl. split; [| discriminate].
      intros Happ. apply app_eq_nil in Happ as [Happ _]. exact (Hds Happ).
Qed.

Lemma shortest_digits_nonempty (m : positive) (e : Z) :
  fst (shortest_digits m e) <> [].
Proof.
  unfold shortest_digits.
  destruct (shortest_from _ _ _ _ _ _ _) as [c s]. cbn [fst].
  destruct (drop_trailing_zeros (decimal_digits c)); discriminate.
Qed.

Lemma positional_finite (s : bool) (m : positive) (e : Z) :
  positional (S754_finite s m e)
  = negb ((snd (shortest_digits m e) <=? -4) || (16 <? snd (shortest_digits m e))).
Proof. reflexivity. Qed.

Lemma float_repr_finite (s : bool) (m : positive) (e : Z) :
  float_repr (S754_finite s m e)
  = string_of_list_ascii
      ((if s then ["-"%char] else [])
       ++ (if (snd (shortest_digits m e) <=? -4) || (16 <? snd (shortest_digits m e))
           then render_exponent (fst (shortest_digits m e)) (snd (shortest_digits m e))
           else render_fixed (fst (shortest_digits m e)) (snd (shortest_digits m e)))).
Proof. unfold float_repr. destruct (shortest_digits m e). reflexivity. Qed.

(** In positional notation the text is a plain decimal number. *)
Lemma float_repr_plain_decimal (x : float64) :
  positional x = true -> plain_decimal (float_repr x) = true.
Proof.
  destruct x as [s | s | | s m e].
  - intros _. destruct s; reflexivity.
  - intros Hpos. discriminate Hpos.
  - intros Hpos. discriminate Hpos.
  - intros Hpos. rewrite positional_finite in Hpos.
    apply negb_true_iff in Hpos.
    rewrite float_repr_finite, Hpos. unfold render_fixed.
    pose proof (fixed_parts_nonempty _ (snd (shortest_digits m e))
                  (shortest_digits_nonempty m e)) as [Hip Hfp].
    destruct (fixed_parts _ _) as [ip fp].
    apply plain_decimal_parts; assumption.
Qed.

(** Texts of [str]: 250.0, 0.1 and 0.0001 in positional notation, 0.00001
    and 10^16 in exponent notation, which is not a plain decimal number. *)
Example float_repr_examples :
  float_repr (S754_finite false 8796093022208000 (-45)) = "250.0"
  /\ float_repr (S754_finite false 7205759403792794 (-56)) = "0.1"
  /\ float_repr (S754_finite false 7378697629483821 (-66)) = "0.0001"
  /\ float_repr (S754_finite false 5902958103587057 (-69)) = "1e-05"
  /\ float_repr (S754_finite false 5000000000000000 1) = "1e+16"
  /\ positional (S754_finite false 7378697629483821 (-66)) = true
  /\ positional (S754_finite false 5902958103587057 (-69)) = false
  /\ plain_decimal "0.0001" = true
  /\ plain_decimal "1e-05" = false /\ plain_decimal "1e+16" = false
  /\ plain_decimal "inf" = false /\ plain_decimal "nan" = false.
Proof. vm_compute. repeat split. Qed.

(** ** The measurement job *)

Section MeasurementJob.
Context {N : Type} `{Measure.Host N}.
Import Measure.

(** C8, amended. On a host whose [str] is Python's, started with a command
    line that gives the target as [--url], the job issues exactly one GET,
    to that target and with the timeout 30. When the request returns a
    response whose status is not an error status (4xx or 5xx, what
    [raise_for_status] rejects; a 1xx or 3xx status counts as a success),
    the job prints exactly one entry on the output stream, the text [str]
    gives for the elapsed time [(end - start) * 1000]; that text holds no
    line boundary, and it is a plain decimal number whenever the elapsed
    time is written in positional notation (zero, or a decimal point
    position in -3..16); the job prints nothing on the error stream and
    exits with status 0. When the request raises or the status is an error
    status, the job prints nothing on the output stream, one diagnostic
    ["Error: ..."] on the error stream, and exits with status 1. *)
Theorem measurement_job_contract (argv : list string) (url : string) (p : Process N) :
  (forall x, float_str x = float_repr x) ->
  parse_args argv = Namespace url ->
  let '(start_time, h1) := monotonic (host p) in
  let '(response, h2) := requests_get url 30 h1 in
  let '(end_time, _) := monotonic h2 in
  let elapsed_ms :=
    SFmul prec64 emax64 (SFsub prec64 emax64 end_time start_time) (float_of_int 1000) in
  let '(status, p') := main argv p in
  let success :=
    status = 0
    /\ stdout p' = stdout p ++ [float_repr elapsed_ms]
    /\ single_line (float_repr elapsed_ms) = true
    /\ (positional elapsed_ms = true -> plain_decimal (float_repr elapsed_ms) = true)
    /\ stderr p' = stderr p in
  let failure :=
    status = 1 /\ status <> 0 /\ stdout p' = stdout p
    /\ exists e, stderr p' = stderr p ++ ["Error: " +:+ exn_str e] in
  gets p' = gets p ++ [(url, 30)]
  /\ match response with
     | Returns r =>
         if (400 <=? status_code r) && (status_code r <? 600)
         then failure else success
     | Raises e => failure
     end.
Proof.
  intros Hstr Hargs. unfold main, measure_response_time. rewrite Hargs.
  destruct (monotonic (host p)) as [start_time h1].
  destruct (requests_get url 30 h1) as [response h2].
  destruct (monotonic h2) as [end_time h3].
  destruct response as [r|e].
  2: { simpl. repeat split; try discriminate. exists e. reflexivity. }
  unfold raise_for_status.
  destruct ((400 <=? status_code r) && (status_code r <? 500)) eqn:Hclient.
  - assert (Herr : (400 <=? status_code r) && (status_code r <? 600) = true) by lia.
    rewrite Herr. simpl. repeat split; try discriminate.
    eexists (Exception (LibraryError "HTTPError") _). reflexivity.
  - destruct ((500 <=? status_code r) && (status_code r <? 600)) eqn:Hserver.
    + assert (Herr : (400 <=? status_code r) && (status_code r <? 600) = true) by lia.
      rewrite Herr. simpl. repeat split; try discriminate.
      eexists (Exception (LibraryError "HTTPError") _). reflexivity.
    + assert (Herr : (400 <=? status_code r) && (status_code r <? 600) = false) by lia.
      rewrite Herr. simpl. rewrite Hstr.
      split; [reflexivity |]. split; [reflexivity |]. split; [reflexivity |].
      split; [apply float_repr_single_line |].
      split; [apply float_repr_plain_decimal | reflexivity].
Qed.
End MeasurementJob.

(** C8 as the specification words it fails on two hosts whose [str] is
    Python's. A server that answers 304, which is not a success status,
    is taken for a success: the job prints a time, no diagnostic, and exits
    with status 0. And when the two readings of the clock lie a nanosecond
    apart, the one line printed is in exponent notation, not a plain
    decimal number. *)
Lemma non_success_status_exits_zero_and_tiny_time_prints_exponent :
  (let '(status, p') :=
     Measure.main (H := Measure.repr_host 304 4) ["--url"; "https://a.example"]
                  Measure.fresh in
   status = 0 /\ Measure.stdout p' = ["250.0"] /\ Measure.stderr p' = [])
  /\ (let '(status, p') :=
        Measure.main (H := Measure.repr_host 200 1000000000)
                     ["--url"; "https://a.example"] Measure.fresh in
      status = 0 /\ Measure.stdout p' = ["1.0000000000000002e-06"]
      /\ plain_decimal "1.0000000000000002e-06" = false).
Proof. vm_compute. repeat split. Qed.

(** C8 on a host whose network answers 200 a quarter of a second after the
    request, and on one that answers 503. *)
Lemma measurement_job_contract_witness :
  (let '(status, p') :=
     Measure.main (H := Measure.repr_host 200 4) ["--url"; "https://a.example"]
                  Measure.fresh in
   Measure.gets p' = [("https://a.example", 30)]
   /\ status = 0 /\ Measure.stdout p' = ["250.0"]
   /\ single_line "250.0" = true /\ plain_decimal "250.0" = true
   /\ Measure.stderr p' = [])
  /\ (let '(status, p') :=
        Measure.main (H := Measure.repr_host 503 4) ["--url"; "https://a.example"]
                     Measure.fresh in
      status = 1 /\ Measure.stdout p' = []
      /\ Measure.stderr p'
         = ["Error: 503 Server Error:  for url: https://a.example"]).
Proof.
  split.
  - pose proof (measurement_job_contract (H := Measure.repr_host 200 4)
                  ["--url"; "https://a.example"] "https://a.example" Measure.fresh
                  (fun x => eq_refl) eq_refl) as C.
    vm_compute in C |- *.
    destruct C as [Hgets [Hstatus [Hout [Hline [Hplain Herr]]]]].
    repeat split; auto.
  - pose proof (measurement_job_contract (H := Measure.repr_host 503 4)
                  ["--url"; "https://a.example"] "https://a.example" Measure.fresh
                  (fun x => eq_refl) eq_refl) as C.
    vm_compute in C |- *.
    destruct C as [_ [Hstatus [_ [Hout _]]]].
    repeat split; auto.
Defined.

(** ** The cycle on the scripted backend *)

Section Timestamp.
Context {B : Type} `{Platform B}.

(** Line 213 never yields a timestamp: the name [datetime] is the class,
    which has no attribute [datetime]. *)
Lemma utc_timestamp_raises (w : State B) :
  utc_timestamp w
  = (Raise (Exception AttributeError
              "type object 'datetime.datetime' has no attribute 'datetime'"), w).
Proof. reflexivity. Qed.
End Timestamp.

(** C1, at the end-to-end scenario of the specification: both jobs are
    created, seen Terminated at their second poll, their logs fetched once
    and the jobs deleted, and the cycle returns; the logs parse to 42.0
    (5910974510923776 * 2^-47) and 58.3 (8204995571115622 * 2^-47); but each
    of the two values is lost at line 213, whose [AttributeError] the
    handler of line 220 logs, and the gauge ends with no sample at all. *)
Theorem end_to_end_gauge_stays_empty :
  let '(r, w) := cycle end_to_end in
  r = Ok tt
  /\ gauge w = ∅
  /\ count is_create (calls w) = 2%nat
  /\ count is_get (calls w) = 4%nat
  /\ count is_list_logs (calls w) = 2%nat
  /\ deleted (calls w) = ["measure-00000000"; "measure-00000001"]
  /\ first_float (splitlines "42.0") = Some (S754_finite false 5910974510923776 (-47))
  /\ first_float (splitlines "memory warning
58.3") = Some (S754_finite false 8204995571115622 (-47))
  /\ log w
     = [(ERROR, "Error running measurement for https://a.example from region eastus: type object 'datetime.datetime' has no attribute 'datetime'");
        (ERROR, "Error running measurement for https://b.example from region westus: type object 'datetime.datetime' has no attribute 'datetime'")].
Proof. vm_compute. repeat split. Qed.

(** C2, where the backend rejects the first of two submissions: the cycle
    issues one create call and no delete call, and ends there with the
    [UnboundLocalError] of line 227; the second target is never probed. *)
Theorem rejected_submission_one_create_no_delete :
  let '(r, w) := cycle (failing "https://a.example" submit) in
  r = Raise unbound_container_group_name
  /\ count is_create (calls w) = 1%nat
  /\ count is_delete (calls w) = 0%nat.
Proof. vm_compute. repeat split. Qed.

(** C5, where the backend rejects the first submission: the exception of the
    backend is caught and logged at line 221, but the cleanup of that same
    target raises [UnboundLocalError] from the handler of line 227; the
    error leaves the iteration, the cycle, and the loop of [main]. *)
Theorem rejected_submission_aborts_cycle_and_process :
  let unbound := unbound_container_group_name in
  let platform := mock (failing "https://a.example" submit) in
  fst (@for_body Mock platform scenario_globals "https://a.example" (boot cold))
  = Raise unbound
  /\ fst (@run_measurement_cycle Mock platform scenario_globals (boot cold))
     = Raise unbound
  /\ (forall cycles,
         fst (@main_loop Mock platform (S cycles) scenario_globals (boot cold))
         = Raise unbound)
  /\ log (snd (@run_measurement_cycle Mock platform scenario_globals (boot cold)))
     = [(ERROR, "Error running measurement for https://a.example from region eastus: Service unavailable")].
Proof.
  split; [vm_compute; reflexivity|]. split; [vm_compute; reflexivity|]. split.
  - intros cycles. cbn [main_loop]. unfold mbind, M_bind.
    cbn [logger enabled]. cbv beta iota.
    change (boot cold) with
      {| platform := cold; clock := 0; calls := []; gauge := ∅; log := [];
         container_group_name := None |}.
    cbn [AciPong.platform clock calls gauge log container_group_name].
    change {| platform := cold; clock := 0; calls := []; gauge := ∅; log := [];
              container_group_name := None |} with (boot cold).
    destruct (@run_measurement_cycle Mock (mock (failing "https://a.example" submit))
                scenario_globals (boot cold)) as [r w] eqn:E.
    assert (R : r = Raise unbound_container_group_name).
    { change r with (fst (r, w)). rewrite <- E. vm_compute. reflexivity. }
    rewrite R. reflexivity.
  - vm_compute. reflexivity.
Qed.

(** C9, at its two cases. When the first submission of the cycle is
    rejected no delete call is issued, and the unbound name is not caught and
    logged: the handler of line 227 raises it again, no cleanup record is
    logged and the error leaves the cycle. When the second submission is
    rejected after the first succeeded, the cleanup of the second target
    deletes the job of the first once more, and the cycle returns. *)
Theorem rejected_submission_cleanup :
  (let '(r, w) := cycle (failing "https://a.example" submit) in
   deleted (calls w) = []
   /\ r = Raise unbound_container_group_name
   /\ log w = [(ERROR, "Error running measurement for https://a.example from region eastus: Service unavailable")])
  /\ (let '(r, w) := cycle (failing "https://b.example" submit) in
      r = Ok tt
      /\ count is_create (calls w) = 2%nat
      /\ deleted (calls w) = ["measure-00000000"; "measure-00000000"]
      /\ container_group_name w = Some "measure-00000000").
Proof. vm_compute. repeat split. Qed.

(** ** The wait for the job *)

Section Wait.
Context {B : Type} `{Platform B}.
Variables (g : Globals) (group_name : string).

Lemma poll_calls_S (n : nat) (t : Z) (b : B) :
  poll_calls g group_name (S n) t b
  = (t, Get (AZURE_RESOURCE_GROUP g) group_name)
      :: poll_calls g group_name n
           (t + Z.of_N (elapsed (poll g group_name b)) + 5)
           (after (poll g group_name b)).
Proof.
  unfold poll_calls. cbn [seq map poll_instant]. f_equal.
  rewrite <- seq_shift, map_map. reflexivity.
Qed.

Lemma poll_instant_lower (k : nat) (t : Z) (b : B) :
  t + 5 * Z.of_nat k <= poll_instant g group_name k t b.
Proof.
  revert t b. induction k as [|k IH]; intros t b; cbn [poll_instant]; [lia|].
  specialize (IH (t + Z.of_N (elapsed (poll g group_name b)) + 5)
                 (after (poll g group_name b))).
  lia.
Qed.

(** One turn of the loop of lines 136-143. *)
Lemma wait_loop_turn (fuel : nat) (start_time : Z) (w : State B) :
  wait_loop (S fuel) g start_time group_name w
  = if clock w - start_time <? ACR_TIMEOUT g then
      let w1 := snd (invoke (Get (AZURE_RESOURCE_GROUP g) group_name)
                            (poll g group_name) w) in
      match observed g group_name 0 (platform w) with
      | Returns s =>
          if terminal s then (Ok true, w1)
          else wait_loop fuel g start_time group_name (snd (time_sleep 5 w1))
      | Raises e => (Raise e, w1)
      end
    else (Ok false, w).
Proof.
  cbn [wait_loop]. destruct (clock w - start_time <? ACR_TIMEOUT g); [|reflexivity].
  unfold observed, poll, mbind, M_bind, invoke. cbn [poll_backend snd].
  destruct (answer (container_groups_get (AZURE_RESOURCE_GROUP g) group_name (platform w)))
    as [cg|e]; [|reflexivity].
  unfold lift. destruct (container_state_of cg) as [s|e]; [|reflexivity].
  unfold mret, M_ret, logger. cbn [enabled].
  destruct (terminal s); reflexivity.
Qed.

(** The run of the loop from the state [w], its start at [start_time]:
    the number [n] of polls it makes, its outcome and its final state. *)
Lemma wait_loop_run (fuel : nat) (start_time : Z) (w : State B) :
  (Z.to_nat (ACR_TIMEOUT g - (clock w - start_time)) <= fuel)%nat ->
  exists (n : nat) (r : result bool) (w' : State B),
    wait_loop fuel g start_time group_name w = (r, w')
    /\ calls w' = calls w ++ poll_calls g group_name n (clock w) (platform w)
    /\ gauge w' = gauge w /\ log w' = log w
    /\ container_group_name w' = container_group_name w
    /\ clock w <= clock w'
    /\ (forall k, (k < n)%nat ->
                  poll_instant g group_name k (clock w) (platform w) - start_time
                  < ACR_TIMEOUT g)
    /\ (forall k, (S k < n)%nat ->
                  exists s, observed g group_name k (platform w) = Returns s
                            /\ terminal s = false)
    /\ match r with
       | Ok true =>
           exists m s, n = S m
                       /\ observed g group_name m (platform w) = Returns s
                       /\ terminal s = true
       | Ok false =>
           (forall k, (k < n)%nat ->
                      exists s, observed g group_name k (platform w) = Returns s
                                /\ terminal s = false)
           /\ clock w' = poll_instant g group_name n (clock w) (platform w)
           /\ platform w' = poll_backend g group_name n (platform w)
           /\ ACR_TIMEOUT g <= clock w' - start_time
       | Raise e =>
           exists m, n = S m /\ observed g group_name m (platform w) = Raises e
       | OutOfFuel => False
       end.
Proof.
  revert w. induction fuel as [|fuel IH]; intros w Hfuel.
  - exists O, (Ok false), w. cbn [wait_loop].
    assert (Hout : (clock w - start_time <? ACR_TIMEOUT g) = false) by lia.
    rewrite Hout. unfold poll_calls. cbn [seq map poll_instant poll_backend].
    rewrite app_nil_r. repeat split; try lia; intros k Hk; lia.
  - rewrite wait_loop_turn.
    destruct (clock w - start_time <? ACR_TIMEOUT g) eqn:Hin.
    2:{ exists O, (Ok false), w. unfold poll_calls.
        cbn [seq map poll_instant poll_backend]. rewrite app_nil_r.
        repeat split; try lia; intros k Hk; lia. }
    cbv zeta.
    set (w1 := snd (invoke (Get (AZURE_RESOURCE_GROUP g) group_name)
                           (poll g group_name) w)).
    assert (Hw1 : calls w1 = calls w ++ [(clock w, Get (AZURE_RESOURCE_GROUP g) group_name)]
                  /\ gauge w1 = gauge w /\ log w1 = log w
                  /\ container_group_name w1 = container_group_name w
                  /\ clock w1 = clock w + Z.of_N (elapsed (poll g group_name (platform w)))
                  /\ platform w1 = after (poll g group_name (platform w))).
    { subst w1. unfold invoke. cbn. repeat split. }
    destruct Hw1 as (Hc1 & Hg1 & Hl1 & Hn1 & Ht1 & Hp1).
    destruct (observed g group_name 0 (platform w)) as [s|e] eqn:Hobs.
    2:{ exists 1%nat, (Raise e), w1. rewrite poll_calls_S. unfold poll_calls.
        cbn [seq map].
        split; [reflexivity|]. split; [assumption|]. split; [assumption|].
        split; [assumption|]. split; [assumption|]. split; [lia|].
        split; [intros k Hk; assert (k = O) by lia; subst k; cbn [poll_instant]; lia|].
        split; [intros k Hk; lia|].
        exists O. split; [reflexivity | assumption]. }
    destruct (terminal s) eqn:Hterm.
    { exists 1%nat, (Ok true), w1. rewrite poll_calls_S. unfold poll_calls.
      cbn [seq map].
      split; [reflexivity|]. split; [assumption|]. split; [assumption|].
      split; [assumption|]. split; [assumption|]. split; [lia|].
      split; [intros k Hk; assert (k = O) by lia; subst k; cbn [poll_instant]; lia|].
      split; [intros k Hk; lia|].
      exists O, s. repeat split; assumption. }
    set (w2 := snd (time_sleep 5 w1)).
    assert (Hw2 : calls w2 = calls w1 /\ gauge w2 = gauge w1 /\ log w2 = log w1
                  /\ container_group_name w2 = container_group_name w1
                  /\ clock w2 = clock w1 + 5 /\ platform w2 = platform w1).
    { subst w2. unfold time_sleep. cbn. repeat split. }
    destruct Hw2 as (Hc2 & Hg2 & Hl2 & Hn2 & Ht2 & Hp2).
    destruct (IH w2) as (n & r & w' & Hrun & Hc & Hg & Hl & Hn & Ht & Hin' & Hpre & Hr).
    { rewrite Ht2, Ht1. lia. }
    rewrite Hc2, Hc1, Ht2, Ht1, Hp2, Hp1 in Hc.
    rewrite Ht2, Ht1, Hp2, Hp1 in Hin'.
    rewrite Hp2, Hp1 in Hpre.
    exists (S n), r, w'. rewrite poll_calls_S, Hrun.
    split; [reflexivity|].
    split; [rewrite Hc, <- app_assoc; reflexivity|].
    split; [congruence|]. split; [congruence|]. split; [congruence|].
    split; [lia|].
    split.
    { intros [|k] Hk; cbn [poll_instant]; [lia | apply Hin'; lia]. }
    split.
    { intros [|k] Hk; [exists s; split; assumption | apply Hpre; lia]. }
    destruct r as [[|]|e|].
    + destruct Hr as (m & s' & -> & Ho & Hts). exists (S m), s'.
      rewrite Hp2, Hp1 in Ho. repeat split; assumption.
    + destruct Hr as (Hall & Hclk & Hplat & Hto).
      rewrite Ht2, Ht1, Hp2, Hp1 in Hclk. rewrite Hp2, Hp1 in Hplat, Hall.
      repeat split; try assumption.
      intros [|k] Hk; [exists s; split; assumption | apply Hall; lia].
    + destruct Hr as (m & -> & Ho). exists (S m). rewrite Hp2, Hp1 in Ho.
      split; [reflexivity | assumption].
    + contradiction.
Qed.
End Wait.

Section Completion.
Context {B : Type} `{Platform B}.
Variables (g : Globals) (group_name : string).

Lemma poll_instant_succ (k : nat) (t : Z) (b : B) :
  poll_instant g group_name (S k) t b
  = poll_instant g group_name k t b
    + Z.of_N (elapsed (poll g group_name (poll_backend g group_name k b))) + 5.
Proof.
  revert t b. induction k as [|k IH]; intros t b; [reflexivity|].
  change (poll_instant g group_name (S (S k)) t b)
    with (poll_instant g group_name (S k)
            (t + Z.of_N (elapsed (poll g group_name b)) + 5)
            (after (poll g group_name b))).
  rewrite IH. reflexivity.
Qed.

Lemma poll_instant_mono (k k' : nat) (t : Z) (b : B) :
  (k <= k')%nat ->
  poll_instant g group_name k t b <= poll_instant g group_name k' t b.
Proof.
  induction 1 as [|k' Hle IH]; [lia|]. rewrite poll_instant_succ. lia.
Qed.

(** When the polls take no time, poll [k] is issued [5 * k] time units after
    the first. *)
Lemma poll_instant_instantaneous (t : Z) (b : B) :
  (forall k, elapsed (poll g group_name (poll_backend g group_name k b)) = 0%N) ->
  forall k, poll_instant g group_name k t b = t + 5 * Z.of_nat k.
Proof.
  intros Hzero k. induction k as [|k IH]; [cbn [poll_instant]; lia|].
  rewrite poll_instant_succ, IH, Hzero. lia.
Qed.

(** With enough fuel, more fuel changes nothing. *)
Lemma wait_loop_more_fuel (fuel : nat) (start_time : Z) (w : State B) :
  (Z.to_nat (ACR_TIMEOUT g - (clock w - start_time)) <= fuel)%nat ->
  wait_loop (S fuel) g start_time group_name w
  = wait_loop fuel g start_time group_name w.
Proof.
  revert w. induction fuel as [|fuel IH]; intros w Hfuel.
  - rewrite wait_loop_turn. cbn [wait_loop].
    assert (Hout : (clock w - start_time <? ACR_TIMEOUT g) = false) by lia.
    rewrite Hout. reflexivity.
  - rewrite (wait_loop_turn g group_name (S fuel)), (wait_loop_turn g group_name fuel).
    destruct (clock w - start_time <? ACR_TIMEOUT g) eqn:Hin; [|reflexivity].
    cbv zeta. destruct (observed g group_name 0 (platform w)) as [s|e]; [|reflexivity].
    destruct (terminal s); [reflexivity|]. apply IH.
    unfold time_sleep, invoke. cbn [snd clock]. lia.
Qed.

Lemma wait_loop_fuel_irrelevant (fuel : nat) (w : State B) :
  (poll_fuel g <= fuel)%nat ->
  wait_loop fuel g (clock w) group_name w
  = wait_for_container_completion g group_name w.
Proof.
  intros Hle. unfold wait_for_container_completion, mbind, M_bind, time_time.
  induction Hle as [|fuel Hle IH]; [reflexivity|].
  rewrite wait_loop_more_fuel; [exact IH|]. unfold poll_fuel in Hle. lia.
Qed.

(** The run of one wait, the budget counted from its start. *)
Lemma wait_run (w : State B) :
  exists (n : nat) (r : result bool) (w' : State B),
    wait_for_container_completion g group_name w = (r, w')
    /\ calls w' = calls w ++ poll_calls g group_name n (clock w) (platform w)
    /\ gauge w' = gauge w /\ log w' = log w
    /\ container_group_name w' = container_group_name w
    /\ clock w <= clock w'
    /\ (forall k, (k < n)%nat ->
                  poll_instant g group_name k (clock w) (platform w) - clock w
                  < ACR_TIMEOUT g)
    /\ (forall k, (S k < n)%nat ->
                  exists s, observed g group_name k (platform w) = Returns s
                            /\ terminal s = false)
    /\ match r with
       | Ok true =>
           exists m s, n = S m
                       /\ observed g group_name m (platform w) = Returns s
                       /\ terminal s = true
       | Ok false =>
           (forall k, (k < n)%nat ->
                      exists s, observed g group_name k (platform w) = Returns s
                                /\ terminal s = false)
           /\ clock w' = poll_instant g group_name n (clock w) (platform w)
           /\ platform w' = poll_backend g group_name n (platform w)
           /\ ACR_TIMEOUT g <= clock w' - clock w
       | Raise e =>
           exists m, n = S m /\ observed g group_name m (platform w) = Raises e
       | OutOfFuel => False
       end.
Proof.
  unfold wait_for_container_completion, mbind, M_bind, time_time.
  apply wait_loop_run. unfold poll_fuel. lia.
Qed.

(** The unrolling of [wait_for_container_completion] is long enough on
    every backend: the wait returns or raises. *)
Lemma wait_never_out_of_fuel (w : State B) :
  fst (wait_for_container_completion g group_name w) <> OutOfFuel.
Proof.
  destruct (wait_run w) as (n & r & w' & Hrun & _ & _ & _ & _ & _ & _ & _ & Hr).
  rewrite Hrun. cbn [fst]. intros ->. exact Hr.
Qed.

(** C7. In any environment in which the module loads, a wait whose polls
    all report a state returns: it makes [n <= 36] polls and no other call,
    the first at its start and each next one 5 time units after the
    previous poll returned (every 5 time units when the polls take no
    time), all of them less than 180 time units after the start. It returns
    [True] exactly when some poll inside the budget sees "terminated" or
    "exited", and then the poll that sees it is the last one and the first
    to see such a state; it returns [False] otherwise, and then 180 time
    units or more have passed since the start. *)
Theorem wait_for_container_completion_terminates
  (environ : gmap string string) (w : State B) :
  module_init environ = Ok g ->
  (forall k, exists s, observed g group_name k (platform w) = Returns s) ->
  exists (n : nat) (completed : bool) (w' : State B),
    wait_for_container_completion g group_name w = (Ok completed, w')
    /\ (n <= 36)%nat
    /\ calls w' = calls w ++ poll_calls g group_name n (clock w) (platform w)
    /\ (forall k,
           poll_instant g group_name (S k) (clock w) (platform w)
           = poll_instant g group_name k (clock w) (platform w)
             + Z.of_N (elapsed (poll g group_name
                                     (poll_backend g group_name k (platform w))))
             + 5)
    /\ ((forall k, elapsed (poll g group_name
                                  (poll_backend g group_name k (platform w))) = 0%N) ->
        forall k, poll_instant g group_name k (clock w) (platform w)
                  = clock w + 5 * Z.of_nat k)
    /\ (forall k, (k < n)%nat ->
                  poll_instant g group_name k (clock w) (platform w) - clock w < 180)
    /\ (completed = true <->
        exists m s,
          poll_instant g group_name m (clock w) (platform w) - clock w < 180
          /\ observed g group_name m (platform w) = Returns s
          /\ terminal s = true)
    /\ (completed = true ->
        (0 < n)%nat
        /\ (exists s, observed g group_name (pred n) (platform w) = Returns s
                      /\ terminal s = true)
        /\ (forall k, (k < pred n)%nat ->
                      exists s, observed g group_name k (platform w) = Returns s
                                /\ terminal s = false))
    /\ (completed = false ->
        180 <= clock w' - clock w
        /\ clock w' = poll_instant g group_name n (clock w) (platform w)).
Proof.
  intros Hload Hstates.
  assert (HT : ACR_TIMEOUT g = 180).
  { apply module_init_loaded in Hload as (id & _ & _ & Hg). rewrite Hg. reflexivity. }
  destruct (wait_run w)
    as (n & r & w' & Hrun & Hcalls & _ & _ & _ & _ & Hin & Hpre & Hr).
  rewrite HT in Hin.
  assert (Hn : (n <= 36)%nat).
  { destruct n as [|n]; [lia|].
    pose proof (Hin n (Nat.lt_succ_diag_r n)) as Hlast.
    pose proof (poll_instant_lower g group_name n (clock w) (platform w)). lia. }
  destruct r as [completed|e|].
  - exists n, completed, w'. split; [exact Hrun|]. split; [exact Hn|].
    split; [exact Hcalls|]. split; [intros k; apply poll_instant_succ|].
    split; [apply poll_instant_instantaneous|].
    split; [exact Hin|].
    destruct completed.
    + destruct Hr as (m & s & -> & Hobs & Hterm).
      split; [|split].
      * split; [intros _|reflexivity]. exists m, s.
        split; [apply Hin; lia|]. split; assumption.
      * intros _. split; [lia|]. cbn [pred].
        split; [exists s; split; assumption|]. intros k Hk. apply Hpre. lia.
      * discriminate.
    + destruct Hr as (Hall & Hclock & _ & Hout). rewrite HT in Hout.
      split; [|split].
      * split; [discriminate|]. intros (m & s & Hm & Hobs & Hterm).
        assert (Hlt : (m < n)%nat).
        { destruct (Nat.lt_ge_cases m n) as [Hlt|Hge]; [exact Hlt|].
          pose proof (poll_instant_mono n m (clock w) (platform w) Hge). lia. }
        destruct (Hall m Hlt) as (s' & Hobs' & Hterm'). congruence.
      * discriminate.
      * intros _. split; assumption.
  - destruct Hr as (m & _ & Hobs). destruct (Hstates m) as (s & Hs). congruence.
  - contradiction.
Qed.

(** C10. A poll inside the budget that returns a group whose first
    container has no instance view is read as the state [""], which is not
    terminal: the loop sleeps and goes on to its next turn, and nothing is
    raised. When no poll ever shows an instance view the wait returns
    [False], after polls that extend over the whole budget: it ends only
    because [ACR_TIMEOUT], 180 in every environment, has elapsed. *)
Theorem missing_instance_view_is_not_terminal :
  (forall cg c rest,
      containers cg = c :: rest -> instance_view c = None ->
      container_state_of cg = Returns "" /\ terminal "" = false)
  /\ (forall fuel start_time (w : State B) cg c rest,
         clock w - start_time < ACR_TIMEOUT g ->
         answer (poll g group_name (platform w)) = Returns cg ->
         containers cg = c :: rest -> instance_view c = None ->
         wait_loop (S fuel) g start_time group_name w
         = wait_loop fuel g start_time group_name
             (snd (time_sleep 5
                     (snd (invoke (Get (AZURE_RESOURCE_GROUP g) group_name)
                                  (poll g group_name) w)))))
  /\ (forall (w : State B),
         (forall k, exists cg c rest,
               answer (poll g group_name (poll_backend g group_name k (platform w)))
               = Returns cg
               /\ containers cg = c :: rest /\ instance_view c = None) ->
         exists (n : nat) (w' : State B),
           wait_for_container_completion g group_name w = (Ok false, w')
           /\ calls w' = calls w ++ poll_calls g group_name n (clock w) (platform w)
           /\ (forall k, (k < n)%nat ->
                         observed g group_name k (platform w) = Returns "")
           /\ clock w' = poll_instant g group_name n (clock w) (platform w)
           /\ ACR_TIMEOUT g <= clock w' - clock w)
  /\ (forall environ, module_init environ = Ok g -> ACR_TIMEOUT g = 180).
Proof.
  assert (Hstate : forall cg c rest,
             containers cg = c :: rest -> instance_view c = None ->
             container_state_of cg = Returns "").
  { intros cg c rest Hc Hv. unfold container_state_of. rewrite Hc, Hv. reflexivity. }
  split; [|split; [|split]].
  - intros cg c rest Hc Hv. split; [eapply Hstate; eassumption | reflexivity].
  - intros fuel start_time w cg c rest Hin Hpoll Hc Hv.
    rewrite wait_loop_turn.
    assert (Hlt : (clock w - start_time <? ACR_TIMEOUT g) = true) by lia.
    rewrite Hlt. cbv zeta. unfold observed. cbn [poll_backend].
    rewrite Hpoll, (Hstate cg c rest Hc Hv). reflexivity.
  - intros w Hnever.
    assert (Hobs : forall k, observed g group_name k (platform w) = Returns "").
    { intros k. destruct (Hnever k) as (cg & c & rest & Hpoll & Hc & Hv).
      unfold observed. rewrite Hpoll. eapply Hstate; eassumption. }
    destruct (wait_run w)
      as (n & r & w' & Hrun & Hcalls & _ & _ & _ & _ & _ & _ & Hr).
    destruct r as [[|]|e|].
    + destruct Hr as (m & s & _ & Hm & Hterm). rewrite Hobs in Hm.
      injection Hm as <-. discriminate.
    + destruct Hr as (_ & Hclock & _ & Hout). exists n, w'.
      split; [exact Hrun|]. split; [exact Hcalls|].
      split; [intros k _; apply Hobs|]. split; assumption.
    + destruct Hr as (m & _ & Hm). rewrite Hobs in Hm. discriminate.
    + contradiction.
  - intros environ Hload.
    apply module_init_loaded in Hload as (id & _ & _ & Hg). rewrite Hg. reflexivity.
Qed.
End Completion.

(** ** One turn of the loop over the targets *)

Section Iteration.
Context {B : Type} `{Platform B}.

Lemma run_bind_ok {A C : Type} (m : M A) (k : A -> M C) (w w1 : State B) (a : A) :
  m w = (Ok a, w1) -> (m ≫= k) w = k a w1.
Proof. intros E. unfold mbind, M_bind. rewrite E. reflexivity. Qed.

Lemma run_bind_raise {A C : Type} (m : M A) (k : A -> M C) (w w1 : State B) (e : exn) :
  m w = (Raise e, w1) -> (m ≫= k) w = (Raise e, w1).
Proof. intros E. unfold mbind, M_bind. rewrite E. reflexivity. Qed.

Lemma run_try_except_ok {A : Type} (body : M A) (handler : exn -> M A)
  (w w1 : State B) (a : A) :
  body w = (Ok a, w1) -> try_except body handler w = (Ok a, w1).
Proof. intros E. unfold try_except. rewrite E. reflexivity. Qed.

Lemma run_try_except_raise {A : Type} (body : M A) (handler : exn -> M A)
  (w w1 : State B) (e : exn) :
  body w = (Raise e, w1) -> try_except body handler w = handler e w1.
Proof. intros E. unfold try_except. rewrite E. reflexivity. Qed.

Lemma run_try_finally_ok {A : Type} (body : M A) (cleanup : M unit)
  (w w1 w2 : State B) (a : A) :
  body w = (Ok a, w1) -> cleanup w1 = (Ok tt, w2) ->
  try_finally body cleanup w = (Ok a, w2).
Proof. intros E F. unfold try_finally. rewrite E, F. reflexivity. Qed.

Lemma run_try_finally_raise {A : Type} (body : M A) (cleanup : M unit)
  (w w1 w2 : State B) (a : A) (e : exn) :
  body w = (Ok a, w1) -> cleanup w1 = (Raise e, w2) ->
  try_finally body cleanup w = (Raise e, w2).
Proof. intros E F. unfold try_finally. rewrite E, F. reflexivity. Qed.

(** The region is drawn without a call, and is one of the seven. *)
Lemma random_choice_region (w : State B) :
  exists region w1,
    random_choice AZURE_REGIONS w = (Ok region, w1)
    /\ In region AZURE_REGIONS
    /\ calls w1 = calls w /\ gauge w1 = gauge w /\ log w1 = log w
    /\ container_group_name w1 = container_group_name w
    /\ clock w1 = clock w.
Proof.
  unfold random_choice, AZURE_REGIONS, mbind, M_bind, draw.
  destruct (random_below _ (platform w)) as [i b].
  eexists. eexists. split; [reflexivity|]. split; [|repeat split].
  apply nth_In. apply Nat.mod_upper_bound. discriminate.
Qed.

(** A submission is one create call, whether the backend accepts it or
    raises. *)
Lemma create_container_group_run (g : Globals) (region url : string) (w : State B) :
  exists group_name group w1,
    (create_container_group g region url w = (Ok group_name, w1)
     \/ exists e, create_container_group g region url w = (Raise e, w1))
    /\ calls w1
       = calls w ++ [(clock w, CreateOrUpdate (AZURE_RESOURCE_GROUP g) group_name group)]
    /\ gauge w1 = gauge w /\ log w1 = log w
    /\ container_group_name w1 = container_group_name w
    /\ clock w <= clock w1.
Proof.
  unfold create_container_group, mbind, M_bind, draw, logger, invoke, mret, M_ret.
  cbn [enabled].
  destruct (uuid4_hex (platform w)) as [hex b].
  cbn [platform clock calls gauge log container_group_name].
  match goal with
  | |- context [answer ?r] => destruct (answer r) as [[]|e] eqn:E; set (reply := r) in *
  end.
  - eexists. eexists. eexists. split; [left; reflexivity|].
    cbn [platform clock calls gauge log container_group_name].
    repeat split. lia.
  - eexists. eexists. eexists. split; [right; exists e; reflexivity|].
    cbn [platform clock calls gauge log container_group_name].
    repeat split. lia.
Qed.

(** A deletion is one delete call and never raises. *)
Lemma delete_container_group_run (g : Globals) (group_name : string) (w : State B) :
  exists w1,
    delete_container_group g group_name w = (Ok tt, w1)
    /\ calls w1 = calls w ++ [(clock w, Delete (AZURE_RESOURCE_GROUP g) group_name)]
    /\ gauge w1 = gauge w
    /\ container_group_name w1 = container_group_name w
    /\ clock w <= clock w1.
Proof.
  unfold delete_container_group, try_except, mbind, M_bind, logger, invoke.
  cbn [enabled].
  destruct (answer (begin_delete (AZURE_RESOURCE_GROUP g) group_name (platform w)))
    as [[]|e].
  - eexists. split; [reflexivity|].
    cbn [platform clock calls gauge log container_group_name]. repeat split. lia.
  - eexists. split; [reflexivity|].
    cbn [platform clock calls gauge log container_group_name]. repeat split. lia.
Qed.

(** Fetching the log is one call, which returns or raises. *)
Lemma get_container_logs_run (g : Globals) (group_name : string) (w : State B) :
  exists w1,
    ((exists text, get_container_logs g group_name w = (Ok text, w1))
     \/ exists e, get_container_logs g group_name w = (Raise e, w1))
    /\ calls w1
       = calls w ++ [(clock w, ListLogs (AZURE_RESOURCE_GROUP g) group_name "measure")]
    /\ gauge w1 = gauge w
    /\ container_group_name w1 = container_group_name w.
Proof.
  unfold get_container_logs, mbind, M_bind, invoke, mret, M_ret.
  destruct (answer (list_logs (AZURE_RESOURCE_GROUP g) group_name "measure" (platform w)))
    as [logs|e].
  - eexists. split; [left; eexists; reflexivity|]. repeat split.
  - eexists. split; [right; eexists; reflexivity|]. repeat split.
Qed.

(** Parsing makes no call and never raises. *)
Lemma parse_response_time_run (log_content : option string) (w : State B) :
  exists value w1,
    parse_response_time log_content w = (Ok value, w1)
    /\ calls w1 = calls w /\ gauge w1 = gauge w
    /\ container_group_name w1 = container_group_name w.
Proof.
  destruct log_content as [text|]; eexists; eexists; (split; [reflexivity|]);
    repeat split.
Qed.

(** The cleanup when the name is bound: the deletion of the job it names. *)
Lemma finally_clause_bound (g : Globals) (group_name : string) (w : State B) :
  container_group_name w = Some group_name ->
  finally_clause g w = delete_container_group g group_name w.
Proof.
  intros Hbound. unfold finally_clause, try_except.
  assert (Hload : load_container_group_name w = (Ok group_name, w)).
  { unfold load_container_group_name. rewrite Hbound. reflexivity. }
  rewrite (run_bind_ok _ _ _ _ _ Hload).
  destruct (delete_container_group_run g group_name w) as (w1 & -> & _). reflexivity.
Qed.

(** The cleanup when the name is unbound: the call of line 225 raises
    before it reaches the backend, line 226 catches the error, and line 227
    raises it again; no call is made and nothing is logged. *)
Lemma finally_clause_unbound (g : Globals) (w : State B) :
  container_group_name w = None ->
  finally_clause g w = (Raise unbound_container_group_name, w).
Proof.
  intros Hunbound. unfold finally_clause, try_except.
  assert (Hload : load_container_group_name w = (Raise unbound_container_group_name, w)).
  { unfold load_container_group_name. rewrite Hunbound. reflexivity. }
  rewrite !(run_bind_raise _ _ _ _ _ Hload). reflexivity.
Qed.

Lemma poll_calls_read_job (g : Globals) (group_name : string) (n : nat) (t : Z) (b : B) :
  Forall reads_job (poll_calls g group_name n t b).
Proof.
  unfold poll_calls. apply List.Forall_forall. intros c Hc.
  apply in_map_iff in Hc as (k & <- & _). split; reflexivity.
Qed.

(** The [try] block when the backend rejects the submission. *)
Lemma try_clause_rejected (g : Globals) (region url : string) (w w1 : State B) (e : exn) :
  create_container_group g region url w = (Raise e, w1) ->
  try_clause g region url w = (Raise e, w1).
Proof. intros Hc. unfold try_clause. apply run_bind_raise. exact Hc. Qed.

(** The [try] block when the job never gets to a terminal state in time:
    the polls are its only calls, and the timeout is logged. *)
Lemma try_clause_timed_out (g : Globals) (region url group_name : string)
  (w w1 w2 : State B) :
  create_container_group g region url w = (Ok group_name, w1) ->
  wait_for_container_completion g group_name
    (snd (store_container_group_name group_name w1)) = (Ok false, w2) ->
  try_clause g region url w
  = logger ERROR ("Timeout waiting for container group " +:+ group_name
                  +:+ " to finish.") w2.
Proof.
  intros Hc Hw. unfold try_clause.
  rewrite (run_bind_ok _ _ _ _ _ Hc).
  rewrite (run_bind_ok _ _ w1 (snd (store_container_group_name group_name w1)) tt eq_refl).
  rewrite (run_bind_ok _ _ _ _ _ Hw). reflexivity.
Qed.

(** The [try] block once the job is created: it returns or raises, the
    name is bound, the gauge is as before, and its further calls neither
    create nor delete a job. *)
Lemma try_clause_created (g : Globals) (region url group_name : string)
  (w w1 : State B) :
  create_container_group g region url w = (Ok group_name, w1) ->
  exists mid w2,
    (try_clause g region url w = (Ok tt, w2)
     \/ exists e, try_clause g region url w = (Raise e, w2))
    /\ calls w2 = calls w1 ++ mid /\ Forall reads_job mid
    /\ gauge w2 = gauge w1
    /\ container_group_name w2 = Some group_name.
Proof.
  intros Hc. unfold try_clause.
  rewrite (run_bind_ok _ _ _ _ _ Hc).
  rewrite (run_bind_ok _ _ w1 (snd (store_container_group_name group_name w1)) tt eq_refl).
  set (w1' := snd (store_container_group_name group_name w1)).
  destruct (wait_run g group_name w1')
    as (n & r & w2 & Hrun & Hcalls & Hgauge & _ & Hname & _ & _ & _ & Hr).
  change (calls w1') with (calls w1) in Hcalls.
  change (gauge w1') with (gauge w1) in Hgauge.
  change (container_group_name w1') with (Some group_name) in Hname.
  change (clock w1') with (clock w1) in Hcalls.
  change (platform w1') with (platform w1) in Hcalls.
  pose proof (poll_calls_read_job g group_name n (clock w1) (platform w1)) as Hpolls.
  destruct r as [[|]|e|]; [| | |contradiction].
  - rewrite (run_bind_ok _ _ _ _ _ Hrun). cbn [negb].
    destruct (get_container_logs_run g group_name w2)
      as (w3 & Hlogs & Hcalls3 & Hgauge3 & Hname3).
    assert (Hmid : Forall reads_job
              (poll_calls g group_name n (clock w1) (platform w1)
               ++ [(clock w2, ListLogs (AZURE_RESOURCE_GROUP g) group_name "measure")])).
    { apply Forall_app. split; [exact Hpolls|]. constructor; [|constructor].
      split; reflexivity. }
    assert (Hcalls' : calls w3 = calls w1 ++
              (poll_calls g group_name n (clock w1) (platform w1)
               ++ [(clock w2, ListLogs (AZURE_RESOURCE_GROUP g) group_name "measure")])).
    { rewrite Hcalls3, Hcalls, <- app_assoc. reflexivity. }
    destruct Hlogs as [(text & Hlogs)|(e & Hlogs)].
    + rewrite (run_bind_ok _ _ _ _ _ Hlogs).
      destruct (parse_response_time_run text w3)
        as (value & w4 & Hparse & Hcalls4 & Hgauge4 & Hname4).
      rewrite (run_bind_ok _ _ _ _ _ Hparse).
      destruct value as [value|].
      * rewrite (run_bind_raise _ _ _ _ _ (utc_timestamp_raises w4)).
        eexists. exists w4. split; [right; eexists; reflexivity|].
        split; [rewrite Hcalls4; exact Hcalls'|]. split; [exact Hmid|].
        split; congruence.
      * eexists. eexists. split; [left; reflexivity|].
        cbn [logger snd calls gauge container_group_name].
        split; [rewrite Hcalls4; exact Hcalls'|]. split; [exact Hmid|].
        split; congruence.
    + rewrite (run_bind_raise _ _ _ _ _ Hlogs).
      eexists. exists w3. split; [right; eexists; reflexivity|].
      split; [exact Hcalls'|]. split; [exact Hmid|]. split; congruence.
  - rewrite (run_bind_ok _ _ _ _ _ Hrun). cbn [negb].
    eexists. eexists. split; [left; reflexivity|].
    cbn [logger snd calls gauge container_group_name].
    split; [exact Hcalls|]. split; [exact Hpolls|]. split; assumption.
  - rewrite (run_bind_raise _ _ _ _ _ Hrun).
    eexists. exists w2. split; [right; eexists; reflexivity|].
    split; [exact Hcalls|]. split; [exact Hpolls|]. split; assumption.
Qed.

(** A turn of the loop whose submission is accepted: it returns, the job
    it created is deleted at its end, and in between no job is created or
    deleted; the gauge is as before. *)
Lemma for_body_created (g : Globals) (url region group_name : string)
  (w w0 w1 : State B) :
  random_choice AZURE_REGIONS w = (Ok region, w0) ->
  create_container_group g region url w0 = (Ok group_name, w1) ->
  exists (mid : list (Z * Call)) (w2 w3 : State B),
    for_body g url w = (Ok tt, w3)
    /\ calls w2 = calls w1 ++ mid /\ Forall reads_job mid
    /\ calls w3 = calls w2 ++ [(clock w2, Delete (AZURE_RESOURCE_GROUP g) group_name)]
    /\ gauge w3 = gauge w1
    /\ container_group_name w3 = Some group_name.
Proof.
  intros Hregion Hcreate. unfold for_body.
  rewrite (run_bind_ok _ _ _ _ _ Hregion).
  destruct (try_clause_created g region url group_name w0 w1 Hcreate)
    as (mid & w2 & Htry & Hcalls & Hmid & Hgauge & Hname).
  destruct Htry as [Htry|(e & Htry)].
  - pose proof (run_try_except_ok _ (except_clause region url) _ _ _ Htry) as Hguard.
    destruct (delete_container_group_run g group_name w2)
      as (w3 & Hdel & Hcalls3 & Hgauge3 & Hname3 & _).
    rewrite <- (finally_clause_bound g group_name w2 Hname) in Hdel.
    rewrite (run_try_finally_ok _ _ _ _ _ _ Hguard Hdel).
    exists mid, w2, w3. split; [reflexivity|]. split; [exact Hcalls|].
    split; [exact Hmid|]. split; [exact Hcalls3|]. split; congruence.
  - pose proof (run_try_except_raise _ (except_clause region url) _ _ _ Htry) as Hguard.
    set (w2' := snd (except_clause region url e w2)).
    assert (Hlogged : except_clause region url e w2 = (Ok tt, w2')) by reflexivity.
    rewrite Hlogged in Hguard.
    destruct (delete_container_group_run g group_name w2')
      as (w3 & Hdel & Hcalls3 & Hgauge3 & Hname3 & _).
    rewrite <- (finally_clause_bound g group_name w2' Hname) in Hdel.
    rewrite (run_try_finally_ok _ _ _ _ _ _ Hguard Hdel).
    exists mid, w2', w3. split; [reflexivity|]. split; [exact Hcalls|].
    split; [exact Hmid|]. split; [exact Hcalls3|].
    split; [rewrite Hgauge3; exact Hgauge | rewrite Hname3; exact Hname].
Qed.

(** A turn of the loop whose submission is rejected while the name is
    bound to the job of an earlier turn: that job is deleted again. *)
Lemma for_body_rejected_bound (g : Globals) (url region earlier : string)
  (w w0 w1 : State B) (e : exn) :
  random_choice AZURE_REGIONS w = (Ok region, w0) ->
  create_container_group g region url w0 = (Raise e, w1) ->
  container_group_name w1 = Some earlier ->
  exists w3,
    for_body g url w = (Ok tt, w3)
    /\ calls w3 = calls w1 ++ [(clock w1, Delete (AZURE_RESOURCE_GROUP g) earlier)]
    /\ gauge w3 = gauge w1
    /\ container_group_name w3 = Some earlier.
Proof.
  intros Hregion Hcreate Hname. unfold for_body.
  rewrite (run_bind_ok _ _ _ _ _ Hregion).
  pose proof (run_try_except_raise _ (except_clause region url) _ _ _
                (try_clause_rejected g region url w0 w1 e Hcreate)) as Hguard.
  set (w2 := snd (except_clause region url e w1)).
  assert (Hlogged : except_clause region url e w1 = (Ok tt, w2)) by reflexivity.
  rewrite Hlogged in Hguard.
  destruct (delete_container_group_run g earlier w2)
    as (w3 & Hdel & Hcalls3 & Hgauge3 & Hname3 & _).
  rewrite <- (finally_clause_bound g earlier w2 Hname) in Hdel.
  rewrite (run_try_finally_ok _ _ _ _ _ _ Hguard Hdel).
  exists w3. split; [reflexivity|]. split; [exact Hcalls3|].
  split; [exact Hgauge3 | rewrite Hname3; exact Hname].
Qed.

(** A turn of the loop whose submission is rejected while the name is
    unbound: no delete call is made, the error of the backend is logged,
    and the unbound name ends the turn with an exception. *)
Lemma for_body_rejected_unbound (g : Globals) (url region : string)
  (w w0 w1 : State B) (e : exn) :
  random_choice AZURE_REGIONS w = (Ok region, w0) ->
  create_container_group g region url w0 = (Raise e, w1) ->
  container_group_name w1 = None ->
  exists w2,
    for_body g url w = (Raise unbound_container_group_name, w2)
    /\ calls w2 = calls w1
    /\ gauge w2 = gauge w1
    /\ log w2 = log w1 ++ [(ERROR, "Error running measurement for " +:+ url
                                   +:+ " from region " +:+ region +:+ ": "
                                   +:+ exn_str e)].
Proof.
  intros Hregion Hcreate Hname. unfold for_body.
  rewrite (run_bind_ok _ _ _ _ _ Hregion).
  pose proof (run_try_except_raise _ (except_clause region url) _ _ _
                (try_clause_rejected g region url w0 w1 e Hcreate)) as Hguard.
  set (w2 := snd (except_clause region url e w1)).
  assert (Hlogged : except_clause region url e w1 = (Ok tt, w2)) by reflexivity.
  rewrite Hlogged in Hguard.
  rewrite (run_try_finally_raise _ _ _ _ _ _ _ Hguard
             (finally_clause_unbound g w2 Hname)).
  exists w2. repeat split.
Qed.

(** C3. Take a turn of the loop in which the job is created, and in which
    every poll issued less than 180 time units after the wait began saw a
    state that is not terminal. The turn returns without an exception and
    leaves the gauge as it was; after the create call it makes [n] polls,
    which extend over 180 time units or more, then logs the timeout, makes
    no call for the log, and as its last call deletes the job it created.
    The loop then goes on with the next target. *)
Theorem timed_out_probe_is_cleaned_up
  (environ : gmap string string) (g : Globals) (url region group_name : string)
  (w w0 w1 : State B) :
  module_init environ = Ok g ->
  random_choice AZURE_REGIONS w = (Ok region, w0) ->
  create_container_group g region url w0 = (Ok group_name, w1) ->
  (forall k,
      poll_instant g group_name k (clock w1) (platform w1) - clock w1 < 180 ->
      exists s, observed g group_name k (platform w1) = Returns s
                /\ terminal s = false) ->
  exists (n : nat) (group : ContainerGroup) (w2 w3 : State B),
    for_body g url w = (Ok tt, w3)
    /\ gauge w3 = gauge w
    /\ calls w3
       = calls w
         ++ (clock w, CreateOrUpdate (AZURE_RESOURCE_GROUP g) group_name group)
         :: poll_calls g group_name n (clock w1) (platform w1)
         ++ [(clock w2, Delete (AZURE_RESOURCE_GROUP g) group_name)]
    /\ count is_list_logs
         (poll_calls g group_name n (clock w1) (platform w1)
          ++ [(clock w2, Delete (AZURE_RESOURCE_GROUP g) group_name)]) = O
    /\ 180 <= clock w2 - clock w1
    /\ log w2 = log w ++ [(ERROR, "Timeout waiting for container group "
                                  +:+ group_name +:+ " to finish.")]
    /\ forall rest, for_webpages g (url :: rest) w = for_webpages g rest w3.
Proof.
  intros Hload Hregion Hcreate Hnever.
  assert (HT : ACR_TIMEOUT g = 180).
  { apply module_init_loaded in Hload as (id & _ & _ & Hg). rewrite Hg. reflexivity. }
  destruct (random_choice_region w)
    as (region' & w0' & Hregion' & _ & Hc0 & Hg0 & Hl0 & _ & Ht0).
  rewrite Hregion in Hregion'. injection Hregion' as <- <-.
  destruct (create_container_group_run g region url w0)
    as (name' & group & w1' & Hcreate' & Hc1 & Hg1 & Hl1 & _ & _).
  rewrite Hcreate in Hcreate'.
  destruct Hcreate' as [Hcreate'|(e & Hcreate')]; [|discriminate].
  injection Hcreate' as <- <-.
  set (w1s := snd (store_container_group_name group_name w1)).
  destruct (wait_run g group_name w1s)
    as (n & r & w2' & Hrun & Hcalls & Hgauge & Hlog & Hname & _ & Hin & _ & Hr).
  change (calls w1s) with (calls w1) in Hcalls.
  change (gauge w1s) with (gauge w1) in Hgauge.
  change (log w1s) with (log w1) in Hlog.
  change (container_group_name w1s) with (Some group_name) in Hname.
  change (clock w1s) with (clock w1) in Hcalls, Hin, Hr.
  change (platform w1s) with (platform w1) in Hcalls, Hin, Hr.
  rewrite HT in Hin, Hr.
  assert (Hfalse : r = Ok false).
  { destruct r as [[|]|e|].
    - destruct Hr as (m & s & -> & Hobs & Hterm).
      destruct (Hnever m (Hin m (Nat.lt_succ_diag_r m))) as (s' & Hobs' & Hterm').
      congruence.
    - reflexivity.
    - destruct Hr as (m & -> & Hobs).
      destruct (Hnever m (Hin m (Nat.lt_succ_diag_r m))) as (s' & Hobs' & _).
      congruence.
    - contradiction. }
  subst r. destruct Hr as (_ & _ & _ & Hout).
  pose proof (try_clause_timed_out g region url group_name w0 w1 w2' Hcreate Hrun)
    as Htry.
  set (w2 := snd (logger ERROR ("Timeout waiting for container group " +:+ group_name
                                +:+ " to finish.") w2')) in *.
  assert (Htry' : try_clause g region url w0 = (Ok tt, w2)) by exact Htry.
  pose proof (run_try_except_ok _ (except_clause region url) _ _ _ Htry') as Hguard.
  assert (Hname2 : container_group_name w2 = Some group_name) by exact Hname.
  destruct (delete_container_group_run g group_name w2)
    as (w3 & Hdel & Hcalls3 & Hgauge3 & _ & _).
  rewrite <- (finally_clause_bound g group_name w2 Hname2) in Hdel.
  assert (Hbody : for_body g url w = (Ok tt, w3)).
  { unfold for_body. rewrite (run_bind_ok _ _ _ _ _ Hregion).
    apply (run_try_finally_ok _ _ _ _ _ _ Hguard Hdel). }
  exists n, group, w2, w3.
  split; [exact Hbody|].
  split; [change (gauge w2) with (gauge w2') in Hgauge3; congruence|].
  split.
  { rewrite Hcalls3. change (calls w2) with (calls w2').
    rewrite Hcalls, Hc1, Hc0, Ht0, <- !app_assoc. reflexivity. }
  split.
  { unfold count. rewrite List.filter_app, List.length_app.
    assert (Hpolls : forall m t b,
               List.filter (fun c => is_list_logs (snd c))
                           (poll_calls g group_name m t b) = []).
    { intros m t b. unfold poll_calls. induction (seq 0 m) as [|k ks IH];
        [reflexivity | exact IH]. }
    rewrite Hpolls. reflexivity. }
  split; [change (clock w2) with (clock w2'); exact Hout|].
  split; [change (log w2) with (log w2' ++ [(ERROR, "Timeout waiting for container group "
                                   +:+ group_name +:+ " to finish.")]); congruence|].
  intros rest. cbn [for_webpages]. rewrite (run_bind_ok _ _ _ _ _ Hbody). reflexivity.
Qed.
End Iteration.

(** ** A whole cycle *)

Section Cycle.
Context {B : Type} `{Platform B}.

Lemma count_app (kind : Call -> bool) (l1 l2 : list (Z * Call)) :
  count kind (l1 ++ l2) = (count kind l1 + count kind l2)%nat.
Proof. unfold count. rewrite List.filter_app, List.length_app. reflexivity. Qed.

Lemma count_reads_job (mid : list (Z * Call)) :
  Forall reads_job mid -> count is_create mid = O /\ count is_delete mid = O.
Proof.
  unfold count. induction 1 as [|c mid [Hcreate Hdelete] _ [IHc IHd]];
    [split; reflexivity|].
  cbn [List.filter]. rewrite Hcreate, Hdelete. split; assumption.
Qed.

(** Once the name is bound, every turn of the loop returns and makes one
    create call and one delete call. *)
Lemma for_webpages_bound (g : Globals) (webpages : list string) :
  forall (w : State B) (earlier : string),
    container_group_name w = Some earlier ->
    exists (new : list (Z * Call)) (w' : State B),
      for_webpages g webpages w = (Ok tt, w')
      /\ calls w' = calls w ++ new
      /\ count is_create new = length webpages
      /\ count is_delete new = length webpages
      /\ gauge w' = gauge w.
Proof.
  induction webpages as [|url rest IH]; intros w earlier Hbound.
  - exists [], w. rewrite app_nil_r. repeat split.
  - destruct (random_choice_region w)
      as (region & w0 & Hregion & _ & Hc0 & Hg0 & _ & Hn0 & Ht0).
    destruct (create_container_group_run g region url w0)
      as (group_name & group & w1 & Hcreate & Hc1 & Hg1 & _ & Hn1 & _).
    destruct Hcreate as [Hcreate|(e & Hcreate)].
    + destruct (for_body_created g url region group_name w w0 w1 Hregion Hcreate)
        as (mid & w2 & w3 & Hbody & Hc2 & Hmid & Hc3 & Hg3 & Hn3).
      destruct (IH w3 group_name Hn3) as (new & w' & Hrest & Hc' & Hnc & Hnd & Hg').
      destruct (count_reads_job mid Hmid) as [Hmc Hmd].
      eexists. exists w'. cbn [for_webpages].
      rewrite (run_bind_ok _ _ _ _ _ Hbody).
      split; [exact Hrest|].
      split; [rewrite Hc', Hc3, Hc2, Hc1, Hc0, <- !app_assoc; reflexivity|].
      rewrite !count_app, Hmc, Hmd, Hnc, Hnd.
      split; [reflexivity|]. split; [reflexivity | congruence].
    + assert (Hn1' : container_group_name w1 = Some earlier) by congruence.
      destruct (for_body_rejected_bound g url region earlier w w0 w1 e
                  Hregion Hcreate Hn1')
        as (w3 & Hbody & Hc3 & Hg3 & Hn3).
      destruct (IH w3 earlier Hn3) as (new & w' & Hrest & Hc' & Hnc & Hnd & Hg').
      eexists. exists w'. cbn [for_webpages].
      rewrite (run_bind_ok _ _ _ _ _ Hbody).
      split; [exact Hrest|].
      split; [rewrite Hc', Hc3, Hc1, Hc0, <- !app_assoc; reflexivity|].
      rewrite !count_app, Hnc, Hnd.
      split; [reflexivity|]. split; [reflexivity | congruence].
Qed.

(** The loop from a fresh frame. When the first submission is accepted,
    the loop returns after as many create calls and as many delete calls as
    there are targets. When it is rejected, the loop ends at once with the
    unbound name: one create call, no delete call. *)
Lemma for_webpages_fresh (g : Globals) (url : string) (rest : list string)
  (w : State B) :
  container_group_name w = None ->
  exists (region : string) (w0 w1 : State B) (new : list (Z * Call)) (w' : State B),
    random_choice AZURE_REGIONS w = (Ok region, w0)
    /\ calls w' = calls w ++ new
    /\ gauge w' = gauge w
    /\ ((exists group_name,
            create_container_group g region url w0 = (Ok group_name, w1)
            /\ for_webpages g (url :: rest) w = (Ok tt, w')
            /\ count is_create new = S (length rest)
            /\ count is_delete new = S (length rest))
        \/ (exists e,
               create_container_group g region url w0 = (Raise e, w1)
               /\ for_webpages g (url :: rest) w
                  = (Raise unbound_container_group_name, w')
               /\ count is_create new = 1%nat
               /\ count is_delete new = O)).
Proof.
  intros Hfresh.
  destruct (random_choice_region w)
    as (region & w0 & Hregion & _ & Hc0 & Hg0 & _ & Hn0 & Ht0).
  destruct (create_container_group_run g region url w0)
    as (group_name & group & w1 & Hcreate & Hc1 & Hg1 & _ & Hn1 & _).
  exists region, w0, w1.
  destruct Hcreate as [Hcreate|(e & Hcreate)].
  - destruct (for_body_created g url region group_name w w0 w1 Hregion Hcreate)
      as (mid & w2 & w3 & Hbody & Hc2 & Hmid & Hc3 & Hg3 & Hn3).
    destruct (for_webpages_bound g rest w3 group_name Hn3)
      as (new & w' & Hrest & Hc' & Hnc & Hnd & Hg').
    destruct (count_reads_job mid Hmid) as [Hmc Hmd].
    eexists. exists w'. split; [exact Hregion|].
    split; [rewrite Hc', Hc3, Hc2, Hc1, Hc0, <- !app_assoc; reflexivity|].
    split; [congruence|].
    left. exists group_name. split; [exact Hcreate|].
    cbn [for_webpages]. rewrite (run_bind_ok _ _ _ _ _ Hbody).
    split; [exact Hrest|].
    rewrite !count_app, Hmc, Hmd, Hnc, Hnd. split; reflexivity.
  - assert (Hn1' : container_group_name w1 = None) by congruence.
    destruct (for_body_rejected_unbound g url region w w0 w1 e Hregion Hcreate Hn1')
      as (w2 & Hbody & Hc2 & Hg2 & _).
    eexists. exists w2. split; [exact Hregion|].
    split; [rewrite Hc2, Hc1, Hc0; reflexivity|].
    split; [congruence|].
    right. exists e. split; [exact Hcreate|].
    cbn [for_webpages]. rewrite (run_bind_raise _ _ _ _ _ Hbody).
    repeat split.
Qed.

(** What reading the target file gives, at the start of a cycle. *)
Lemma read_webpages_run (path : string) (w : State B) :
  exists (webpages : list string) (w' : State B),
    read_webpages path w = (Ok webpages, w')
    /\ calls w' = calls w /\ gauge w' = gauge w
    /\ container_group_name w' = container_group_name w.
Proof.
  unfold read_webpages. destruct (open_readlines path (platform w)) as [lines|e].
  - eexists. eexists. split; [reflexivity|]. repeat split.
  - eexists. eexists. split; [reflexivity|]. repeat split.
Qed.

(** X14. Whatever the backend does, a cycle records no sample: every value
    parsed from a log is lost at line 213. *)
Theorem cycle_records_no_sample (g : Globals) (w : State B) :
  gauge (snd (run_measurement_cycle g w)) = gauge w.
Proof.
  unfold run_measurement_cycle.
  rewrite (run_bind_ok _ _ w (snd (enter_frame w)) tt eq_refl).
  destruct (read_webpages_run (WEBPAGES_CONFIG_PATH g) (snd (enter_frame w)))
    as (webpages & w0 & Hread & _ & Hg0 & Hn0).
  rewrite (run_bind_ok _ _ _ _ _ Hread).
  change (gauge (snd (enter_frame w))) with (gauge w) in Hg0.
  change (container_group_name (snd (enter_frame w))) with (@None string) in Hn0.
  destruct webpages as [|url rest]; [exact Hg0|].
  destruct (for_webpages_fresh g url rest w0 Hn0)
    as (region & w1 & w2 & new & w' & _ & _ & Hg' & Hrun).
  destruct Hrun as [(group_name & _ & -> & _)|(e & _ & -> & _)]; cbn [snd]; congruence.
Qed.

(** X13. The calls of a cycle over the targets [url :: rest]: as many create
    calls and delete calls as targets when the backend accepts the first
    submission; one create call, no delete call and the exception of line
    227 when it rejects it. *)
Theorem cycle_creates_and_deletes (g : Globals) (url : string) (rest : list string)
  (w w0 : State B) :
  read_webpages (WEBPAGES_CONFIG_PATH g) (snd (enter_frame w))
  = (Ok (url :: rest), w0) ->
  exists (region : string) (w1 w2 : State B) (new : list (Z * Call)),
    random_choice AZURE_REGIONS w0 = (Ok region, w1)
    /\ calls (snd (run_measurement_cycle g w)) = calls w ++ new
    /\ ((exists group_name,
            create_container_group g region url w1 = (Ok group_name, w2)
            /\ fst (run_measurement_cycle g w) = Ok tt
            /\ count is_create new = S (length rest)
            /\ count is_delete new = S (length rest))
        \/ (exists e,
               create_container_group g region url w1 = (Raise e, w2)
               /\ fst (run_measurement_cycle g w)
                  = Raise unbound_container_group_name
               /\ count is_create new = 1%nat
               /\ count is_delete new = O)).
Proof.
  intros Hread. unfold run_measurement_cycle.
  rewrite (run_bind_ok _ _ w (snd (enter_frame w)) tt eq_refl).
  rewrite (run_bind_ok _ _ _ _ _ Hread).
  destruct (read_webpages_run (WEBPAGES_CONFIG_PATH g) (snd (enter_frame w)))
    as (webpages & w0' & Hread' & Hc0 & _ & Hn0).
  rewrite Hread in Hread'. injection Hread' as <- <-.
  change (calls (snd (enter_frame w))) with (calls w) in Hc0.
  change (container_group_name (snd (enter_frame w))) with (@None string) in Hn0.
  destruct (for_webpages_fresh g url rest w0 Hn0)
    as (region & w1 & w2 & new & w' & Hregion & Hc' & _ & Hrun).
  exists region, w1, w2, new. split; [exact Hregion|].
  destruct Hrun as [(group_name & Hcreate & Hloop & Hnc & Hnd)
                   |(e & Hcreate & Hloop & Hnc & Hnd)]; rewrite Hloop; cbn [fst snd].
  - split; [congruence|]. left. exists group_name. repeat split; assumption.
  - split; [congruence|]. right. exists e. repeat split; assumption.
Qed.
End Cycle.

(** ** Instances on a backend whose answers never change *)

Lemma constant_observed (seen text : option string) (g : Globals) (group_name : string)
  (k : nat) (b : unit) :
  @observed unit (constant_backend seen text) g group_name k b
  = Returns (match seen with Some s => lower s | None => "" end).
Proof.
  revert b. induction k as [|k IH]; intros b.
  - destruct seen; reflexivity.
  - exact (IH b).
Qed.

(** C7 on a backend that shows Terminated at the first poll. *)
Lemma wait_for_container_completion_terminates_witness :
  exists (n : nat) (w' : State unit),
    @wait_for_container_completion unit (constant_backend (Some "Terminated") None)
      scenario_globals "measure-00000000" (boot tt) = (Ok true, w')
    /\ (n <= 36)%nat.
Proof.
  destruct (wait_for_container_completion_terminates
              (H := constant_backend (Some "Terminated") None)
              scenario_globals "measure-00000000" scenario_environ (boot tt))
    as (n & completed & w' & Hrun & Hn & _ & _ & _ & _ & Hiff & _).
  - vm_compute. reflexivity.
  - intros k. eexists. apply constant_observed.
  - assert (Hdone : completed = true).
    { apply Hiff. exists O, "terminated".
      split; [cbn; lia|]. split; [apply constant_observed | reflexivity]. }
    rewrite Hdone in Hrun. exists n, w'. split; assumption.
Defined.

(** C10 on a backend that never shows an instance view. *)
Lemma missing_instance_view_is_not_terminal_witness :
  exists (n : nat) (w' : State unit),
    @wait_for_container_completion unit (constant_backend None None)
      scenario_globals "measure-00000000" (boot tt) = (Ok false, w')
    /\ 180 <= clock w'.
Proof.
  destruct (missing_instance_view_is_not_terminal
              (H := constant_backend None None) scenario_globals "measure-00000000")
    as (_ & _ & Hnever & Hbudget).
  destruct (Hnever (boot tt)) as (n & w' & Hrun & _ & _ & _ & Hout).
  - intros k. exists (constant_group None). eexists. exists []. repeat split.
  - exists n, w'. split; [exact Hrun|].
    rewrite (Hbudget scenario_environ) in Hout by (vm_compute; reflexivity).
    cbn in Hout. lia.
Defined.

(** C3 on a backend that shows Running at every poll. *)
Lemma timed_out_probe_is_cleaned_up_witness :
  exists (w3 : State unit),
    @for_body unit (constant_backend (Some "Running") None) scenario_globals
      "https://a.example" (boot tt) = (Ok tt, w3)
    /\ gauge w3 = ∅
    /\ count is_list_logs (calls w3) = O
    /\ deleted (calls w3) = ["measure-00000000"].
Proof.
  pose (P := constant_backend (Some "Running") None).
  pose (w0 := snd (@random_choice unit P AZURE_REGIONS (boot tt))).
  pose (w1 := snd (@create_container_group unit P scenario_globals "eastus"
                     "https://a.example" w0)).
  destruct (timed_out_probe_is_cleaned_up (H := P) scenario_environ scenario_globals
              "https://a.example" "eastus" "measure-00000000" (boot tt) w0 w1)
    as (n & group & w2 & w3 & Hbody & Hgauge & Hcalls & Hlogs & _).
  - vm_compute. reflexivity.
  - vm_compute. reflexivity.
  - vm_compute. reflexivity.
  - intros k _. exists "running". split; [apply constant_observed | reflexivity].
  - exists w3. split; [exact Hbody|]. split; [exact Hgauge|].
    rewrite Hcalls. cbn [boot calls app].
    change ((clock (boot tt),
             CreateOrUpdate (AZURE_RESOURCE_GROUP scenario_globals) "measure-00000000" group)
            :: poll_calls scenario_globals "measure-00000000" n (clock w1) (platform w1)
            ++ [(clock w2, Delete (AZURE_RESOURCE_GROUP scenario_globals) "measure-00000000")])
      with ([(clock (boot tt),
              CreateOrUpdate (AZURE_RESOURCE_GROUP scenario_globals) "measure-00000000" group)]
            ++ (poll_calls scenario_globals "measure-00000000" n (clock w1) (platform w1)
            ++ [(clock w2, Delete (AZURE_RESOURCE_GROUP scenario_globals) "measure-00000000")])).
    split.
    + rewrite count_app, Hlogs. reflexivity.
    + unfold deleted. rewrite !flat_map_app. cbn [flat_map snd app].
      assert (Hpolls : forall m t b,
                 flat_map (fun c : Z * Call =>
                             match snd c with Delete _ name => [name] | _ => [] end)
                          (@poll_calls unit P scenario_globals "measure-00000000" m t b)
                 = []).
      { intros m t b. unfold poll_calls. induction (seq 0 m) as [|j js IH];
          [reflexivity | exact IH]. }
      rewrite Hpolls. reflexivity.
Defined.

(** ** Trimming *)

Lemma rstrip_idempotent (s : string) : rstrip (rstrip s) = rstrip s.
Proof.
  induction s as [|c rest IH]; [reflexivity|].
  cbn [rstrip]. destruct (rstrip rest) as [|d kept] eqn:E.
  - destruct (isspace c) eqn:Hc; [reflexivity|]. cbn [rstrip]. rewrite Hc. reflexivity.
  - change (rstrip (String c (String d kept)))
      with (match rstrip (String d kept) with
            | EmptyString => if isspace c then EmptyString else String c EmptyString
            | kept' => String c kept'
            end).
    rewrite IH. reflexivity.
Qed.

Lemma lstrip_head (s : string) :
  lstrip s = EmptyString
  \/ exists c rest, lstrip s = String c rest /\ isspace c = false.
Proof.
  induction s as [|c rest IH]; [left; reflexivity|].
  cbn [lstrip]. destruct (isspace c) eqn:Hc; [exact IH|].
  right. exists c, rest. split; [reflexivity | exact Hc].
Qed.

Lemma rstrip_keeps_head (c : ascii) (rest : string) :
  isspace c = false -> exists kept, rstrip (String c rest) = String c kept.
Proof.
  intros Hc. cbn [rstrip]. destruct (rstrip rest) as [|d kept].
  - rewrite Hc. exists EmptyString. reflexivity.
  - exists (String d kept). reflexivity.
Qed.

Lemma strip_idempotent (s : string) : strip (strip s) = strip s.
Proof.
  unfold strip. destruct (lstrip_head s) as [E|(c & rest & E & Hc)]; rewrite E.
  - reflexivity.
  - destruct (rstrip_keeps_head c rest Hc) as (kept & Ek). rewrite Ek.
    cbn [lstrip]. rewrite Hc, <- Ek. apply rstrip_idempotent.
Qed.

(** ** Reading the targets and starting up *)

Section Targets.
Context {B : Type} `{Platform B}.

(** X1. When the target file can be read, [read_webpages] returns without a
    change of state the trimmed lines that are not blank, in the order of
    the file and as often as the file holds them: the targets are the list
    of the trimmed lines from which the empty texts are removed. So every
    target is non-empty and carries no white space at its ends, a text is a
    target exactly when it is the trimmed form of a line and is not empty,
    there are no more targets than lines, and a file without a blank line
    gives one target for each line. *)
Theorem read_webpages_targets_are_trimmed
  (config_path : string) (lines : list string) (w : State B) :
  open_readlines config_path (platform w) = Returns lines ->
  exists targets : list string,
    read_webpages config_path w = (Ok targets, w)
    /\ targets = List.filter (fun t => negb (t =? "")%string) (map strip lines)
    /\ Forall (fun t => t <> "" /\ trimmed t) targets
    /\ (forall t, In t targets <-> t <> "" /\ exists line, In line lines /\ strip line = t)
    /\ (length targets <= length lines)%nat
    /\ (Forall (fun line => strip line <> "") lines -> targets = map strip lines).
Proof.
  intros Hfile. unfold read_webpages. rewrite Hfile.
  eexists. split; [reflexivity|].
  assert (Hin : forall t,
             In t (map strip (List.filter (fun line => negb (strip line =? "")%string) lines))
             <-> t <> "" /\ exists line, In line lines /\ strip line = t).
  { intros t. rewrite in_map_iff. split.
    - intros (line & <- & Hline). apply List.filter_In in Hline as [Hline Hkeep].
      split; [|exists line; split; [exact Hline | reflexivity]].
      destruct (String.eqb_spec (strip line) ""); [discriminate | assumption].
    - intros (Hne & line & Hline & <-). exists line. split; [reflexivity|].
      apply List.filter_In. split; [exact Hline|].
      destruct (String.eqb_spec (strip line) ""); [contradiction | reflexivity]. }
  split; [|split; [|split; [exact Hin|split]]].
  - clear Hfile Hin. induction lines as [|line rest IH]; [reflexivity|].
    cbn [List.filter map]. destruct (negb (strip line =? "")%string).
    + cbn [map]. rewrite IH. reflexivity.
    + exact IH.
  - apply List.Forall_forall. intros t Ht. apply Hin in Ht as (Hne & line & _ & <-).
    split; [exact Hne | apply strip_idempotent].
  - rewrite List.length_map. apply List.filter_length_le.
  - intros Hall. f_equal. clear Hfile Hin.
    induction Hall as [|line rest Hline _ IH]; [reflexivity|].
    cbn [List.filter]. destruct (String.eqb_spec (strip line) ""); [contradiction|].
    cbn [negb]. rewrite IH. reflexivity.
Qed.

(** X2. When the target file cannot be read or holds blank lines only, a
    cycle returns normally without any call to the backend, without drawing
    a region or a name and without passing time; it logs the reading error,
    if there is one, and then that no webpage is defined. *)
Theorem cycle_without_targets_calls_nothing (g : Globals) (w : State B) :
  targetless (open_readlines (WEBPAGES_CONFIG_PATH g) (platform w)) ->
  exists w' : State B,
    run_measurement_cycle g w = (Ok tt, w')
    /\ calls w' = calls w /\ gauge w' = gauge w
    /\ platform w' = platform w /\ clock w' = clock w
    /\ log w'
       = log w
         ++ match open_readlines (WEBPAGES_CONFIG_PATH g) (platform w) with
            | Returns _ => []
            | Raises e =>
                [(ERROR, "Error reading " +:+ WEBPAGES_CONFIG_PATH g +:+ ": "
                         +:+ exn_str e)]
            end
         ++ [(ERROR, "No webpages defined to monitor.")].
Proof.
  intros Hnone. unfold run_measurement_cycle.
  rewrite (run_bind_ok _ _ w (snd (enter_frame w)) tt eq_refl).
  unfold mbind at 1, M_bind at 1. unfold read_webpages.
  change (platform (snd (enter_frame w))) with (platform w).
  destruct (open_readlines (WEBPAGES_CONFIG_PATH g) (platform w)) as [lines|e].
  - assert (Hempty : List.filter (fun line => negb (strip line =? "")%string) lines = []).
    { induction Hnone as [|line rest Hline _ IH]; [reflexivity|].
      cbn [List.filter]. rewrite Hline. exact IH. }
    rewrite Hempty. eexists. split; [reflexivity|]. cbn. repeat split.
  - eexists. split; [reflexivity|]. cbn. rewrite <- app_assoc. repeat split.
Qed.

(** X3. With such a target file the loop of [main] goes on: its first [n]
    turns return, make no call to the backend, and take [n] times the cycle
    interval. *)
Theorem main_without_targets_keeps_running (g : Globals) (n : nat) (w : State B) :
  targetless (open_readlines (WEBPAGES_CONFIG_PATH g) (platform w)) ->
  exists w' : State B,
    main_loop n g w = (Ok tt, w')
    /\ calls w' = calls w /\ gauge w' = gauge w
    /\ platform w' = platform w
    /\ clock w' = clock w + Z.of_nat n * MEASUREMENT_INTERVAL g.
Proof.
  revert w. induction n as [|n IH]; intros w Hnone.
  - exists w. repeat split. lia.
  - destruct (cycle_without_targets_calls_nothing g w Hnone)
      as (w1 & Hcycle & Hc1 & Hg1 & Hp1 & Ht1 & _).
    set (w2 := snd (time_sleep (MEASUREMENT_INTERVAL g) w1)).
    destruct (IH w2) as (w' & Hrest & Hc' & Hg' & Hp' & Ht').
    { change (platform w2) with (platform w1). rewrite Hp1. exact Hnone. }
    exists w'. split.
    + cbn [main_loop].
      rewrite (run_bind_ok _ _ w w tt).
      2:{ unfold logger. cbn [enabled]. destruct w. reflexivity. }
      rewrite (run_bind_ok _ _ _ _ _ Hcycle).
      rewrite (run_bind_ok _ _ w1 w1 tt).
      2:{ unfold logger. cbn [enabled]. destruct w1. reflexivity. }
      rewrite (run_bind_ok (time_sleep (MEASUREMENT_INTERVAL g)) _ w1 w2 tt eq_refl).
      exact Hrest.
    + change (calls w2) with (calls w1) in Hc'.
      change (gauge w2) with (gauge w1) in Hg'.
      change (platform w2) with (platform w1) in Hp'.
      change (clock w2) with (clock w1 + MEASUREMENT_INTERVAL g) in Ht'.
      repeat split; try congruence. rewrite Ht', Ht1. lia.
Qed.

(** X4. [delete_container_group] never raises: it makes one delete call for
    the group, and when the backend raises it logs the error, with the name
    of the group, instead of passing it on. *)
Theorem delete_failure_is_logged_not_raised
  (g : Globals) (group_name : string) (w : State B) :
  exists w' : State B,
    delete_container_group g group_name w = (Ok tt, w')
    /\ calls w' = calls w ++ [(clock w, Delete (AZURE_RESOURCE_GROUP g) group_name)]
    /\ gauge w' = gauge w
    /\ container_group_name w' = container_group_name w
    /\ log w'
       = log w
         ++ match answer (begin_delete (AZURE_RESOURCE_GROUP g) group_name (platform w)) with
            | Returns _ => []
            | Raises e =>
                [(ERROR, "Error deleting container group " +:+ group_name +:+ ": "
                         +:+ exn_str e)]
            end.
Proof.
  unfold delete_container_group, try_except, mbind, M_bind, logger, invoke.
  cbn [enabled].
  destruct (answer (begin_delete (AZURE_RESOURCE_GROUP g) group_name (platform w)))
    as [[]|e].
  - eexists. split; [reflexivity|].
    cbn [platform clock calls gauge log container_group_name].
    rewrite app_nil_r. repeat split.
  - eexists. split; [reflexivity|].
    cbn [platform clock calls gauge log container_group_name]. repeat split.
Qed.
End Targets.

(** X5. The module loads exactly when the subscription identifier is in the
    environment with a value that is not empty: an empty value is rejected
    like a missing one. The three other variables fall back to their
    defaults only when they are missing; an empty value is kept. *)
Theorem module_loads_iff_subscription_id_is_set (environ : gmap string string) :
  ((exists g, module_init environ = Ok g)
   <-> exists id, environ !! "AZURE_SUBSCRIPTION_ID" = Some id /\ id <> "")
  /\ (environ !! "AZURE_SUBSCRIPTION_ID" = Some "" ->
      module_init environ
      = Raise (Exception ValueError
                 "AZURE_SUBSCRIPTION_ID environment variable is not set"))
  /\ (forall g,
         module_init environ = Ok g ->
         environ !! "AZURE_SUBSCRIPTION_ID" = Some (AZURE_SUBSCRIPTION_ID g)
         /\ (forall v, environ !! "AZURE_RESOURCE_GROUP" = Some v ->
                       AZURE_RESOURCE_GROUP g = v)
         /\ (forall v, environ !! "MEASURE_IMAGE" = Some v -> MEASURE_IMAGE g = v)
         /\ (forall v, environ !! "WEBPAGES_CONFIG_PATH" = Some v ->
                       WEBPAGES_CONFIG_PATH g = v)).
Proof.
  split; [split|split].
  - intros (g & Hload). apply module_init_loaded in Hload as (id & Hid & Hne & _).
    exists id. split; assumption.
  - intros (id & Hid & Hne). unfold module_init. rewrite Hid.
    destruct (String.eqb_spec id ""); [contradiction|]. eexists. reflexivity.
  - intros Hid. unfold module_init. rewrite Hid. reflexivity.
  - intros g Hload. apply module_init_loaded in Hload as (id & Hid & _ & ->).
    unfold environ_get. cbn.
    split; [exact Hid|].
    split; [|split]; intros v Hv; rewrite Hv; reflexivity.
Qed.

(** X5 on the environment of the scenarios with an empty subscription
    identifier, and with an empty resource group. *)
Lemma module_loads_iff_subscription_id_is_set_witness :
  module_init (<["AZURE_SUBSCRIPTION_ID" := ""]> scenario_environ)
  = Raise (Exception ValueError "AZURE_SUBSCRIPTION_ID environment variable is not set")
  /\ (forall g,
         module_init (<["AZURE_RESOURCE_GROUP" := ""]> scenario_environ) = Ok g ->
         AZURE_RESOURCE_GROUP g = "").
Proof.
  split.
  - apply (proj1 (proj2 (module_loads_iff_subscription_id_is_set
                           (<["AZURE_SUBSCRIPTION_ID" := ""]> scenario_environ)))).
    vm_compute. reflexivity.
  - intros g Hload.
    apply (proj2 (proj2 (module_loads_iff_subscription_id_is_set
                           (<["AZURE_RESOURCE_GROUP" := ""]> scenario_environ))) g Hload).
    vm_compute. reflexivity.
Defined.

(** X1 on a target file that holds a blank line and one target twice. *)
Lemma read_webpages_targets_are_trimmed_witness :
  exists targets : list string,
    @read_webpages Mock (mock spaced_file) "/etc/webpages/webpages.txt" (boot cold)
    = (Ok targets, boot cold)
    /\ targets = ["https://b.example"; "https://a.example"; "https://b.example"].
Proof.
  destruct (read_webpages_targets_are_trimmed (H := mock spaced_file)
              "/etc/webpages/webpages.txt"
              ["  https://b.example
"; "
"; "https://a.example
"; "https://b.example"] (boot cold) eq_refl)
    as (targets & Hread & Horder & _).
  exists targets. split; [exact Hread|]. rewrite Horder. vm_compute. reflexivity.
Defined.

(** X2 on a backend without a readable target file. *)
Lemma cycle_without_targets_calls_nothing_witness :
  exists w' : State Mock,
    cycle unreadable_file = (Ok tt, w') /\ calls w' = [] /\ clock w' = 0.
Proof.
  destruct (cycle_without_targets_calls_nothing (H := mock unreadable_file)
              scenario_globals (boot cold) I)
    as (w' & Hcycle & Hcalls & _ & _ & Hclock & _).
  exists w'. split; [exact Hcycle|]. split; assumption.
Defined.

(** X3 on a backend whose target file holds blank lines only. *)
Lemma main_without_targets_keeps_running_witness :
  exists w' : State Mock,
    @main_loop Mock (mock blank_file) 3 scenario_globals (boot cold) = (Ok tt, w')
    /\ calls w' = [] /\ clock w' = 45.
Proof.
  destruct (main_without_targets_keeps_running (H := mock blank_file)
              scenario_globals 3 (boot cold))
    as (w' & Hmain & Hcalls & _ & _ & Hclock).
  - repeat constructor.
  - exists w'. split; [exact Hmain|]. split; assumption.
Defined.

(** ** The paths of one turn once the job is created *)

Section Probe.
Context {B : Type} `{Platform B}.

(** The state in which a created job leaves the run. *)
Lemma created_state (g : Globals) (url region group_name : string) (w w0 w1 : State B) :
  random_choice AZURE_REGIONS w = (Ok region, w0) ->
  create_container_group g region url w0 = (Ok group_name, w1) ->
  exists group : ContainerGroup,
    calls w1
    = calls w ++ [(clock w, CreateOrUpdate (AZURE_RESOURCE_GROUP g) group_name group)]
    /\ gauge w1 = gauge w /\ log w1 = log w.
Proof.
  intros Hregion Hcreate.
  destruct (random_choice_region w)
    as (region' & w0' & Hregion' & _ & Hc0 & Hg0 & Hl0 & _ & Ht0).
  rewrite Hregion in Hregion'. injection Hregion' as <- <-.
  destruct (create_container_group_run g region url w0)
    as (name' & group & w1' & Hcreate' & Hc1 & Hg1 & Hl1 & _ & _).
  rewrite Hcreate in Hcreate'.
  destruct Hcreate' as [Hcreate'|(e & Hcreate')]; [|discriminate].
  injection Hcreate' as <- <-.
  exists group. rewrite Hc1, Hc0, Ht0. repeat split; congruence.
Qed.

(** What a wait leaves unchanged, whatever its outcome. *)
Lemma wait_frame (g : Globals) (group_name : string) (w w' : State B)
  (r : result bool) :
  wait_for_container_completion g group_name w = (r, w') ->
  gauge w' = gauge w /\ log w' = log w
  /\ container_group_name w' = container_group_name w.
Proof.
  intros Hwait.
  destruct (wait_run g group_name w)
    as (n & r' & w'' & Hrun & _ & Hg & Hl & Hn & _).
  rewrite Hwait in Hrun. injection Hrun as <- <-. repeat split; assumption.
Qed.

(** X6. Once the backend has accepted the submission of a turn, the turn
    returns normally whatever the polls, the log and its parsing do: after
    the create call it neither creates nor deletes a job until its last
    call, which deletes the job it created; the name of that job stays
    bound, and the gauge is as before. *)
Theorem created_job_is_deleted_last (g : Globals) (url region group_name : string)
  (w w0 w1 : State B) :
  random_choice AZURE_REGIONS w = (Ok region, w0) ->
  create_container_group g region url w0 = (Ok group_name, w1) ->
  exists (group : ContainerGroup) (mid : list (Z * Call)) (w2 w3 : State B),
    for_body g url w = (Ok tt, w3)
    /\ calls w3
       = calls w
         ++ (clock w, CreateOrUpdate (AZURE_RESOURCE_GROUP g) group_name group)
         :: mid ++ [(clock w2, Delete (AZURE_RESOURCE_GROUP g) group_name)]
    /\ Forall reads_job mid
    /\ count is_create (calls w3) = S (count is_create (calls w))
    /\ count is_delete (calls w3) = S (count is_delete (calls w))
    /\ gauge w3 = gauge w
    /\ container_group_name w3 = Some group_name.
Proof.
  intros Hregion Hcreate.
  destruct (created_state g url region group_name w w0 w1 Hregion Hcreate)
    as (group & Hc1 & Hg1 & _).
  destruct (for_body_created g url region group_name w w0 w1 Hregion Hcreate)
    as (mid & w2 & w3 & Hbody & Hc2 & Hmid & Hc3 & Hg3 & Hn3).
  destruct (count_reads_job mid Hmid) as [Hmc Hmd].
  assert (Hcalls : calls w3
            = calls w
              ++ ([(clock w, CreateOrUpdate (AZURE_RESOURCE_GROUP g) group_name group)]
                  ++ mid ++ [(clock w2, Delete (AZURE_RESOURCE_GROUP g) group_name)])).
  { rewrite Hc3, Hc2, Hc1, <- !app_assoc. reflexivity. }
  exists group, mid, w2, w3. split; [exact Hbody|]. split; [exact Hcalls|].
  split; [exact Hmid|].
  rewrite Hcalls, !count_app, Hmc, Hmd.
  split; [unfold count; cbn; lia|]. split; [unfold count; cbn; lia|].
  split; congruence.
Qed.

(** A deletion logs the refusal of the backend, and nothing else. *)
Lemma delete_container_group_log (g : Globals) (group_name : string) (w : State B) :
  log (snd (delete_container_group g group_name w))
  = log w ++ deletion_log g group_name (platform w).
Proof.
  unfold delete_container_group, deletion_log, try_except, mbind, M_bind, logger,
    invoke.
  cbn [enabled].
  destruct (answer (begin_delete (AZURE_RESOURCE_GROUP g) group_name (platform w)))
    as [[]|e].
  - cbn [snd log]. rewrite app_nil_r. reflexivity.
  - reflexivity.
Qed.

(** The state at the end of a turn whose [try] block returns, the name
    being bound: the job is deleted, and the log grows by what the deletion
    logs. *)
Lemma turn_log_after_return (g : Globals) (url region group_name : string)
  (w w0 w2 : State B) :
  random_choice AZURE_REGIONS w = (Ok region, w0) ->
  try_clause g region url w0 = (Ok tt, w2) ->
  container_group_name w2 = Some group_name ->
  exists w3 : State B,
    for_body g url w = (Ok tt, w3)
    /\ calls w3 = calls w2 ++ [(clock w2, Delete (AZURE_RESOURCE_GROUP g) group_name)]
    /\ gauge w3 = gauge w2
    /\ log w3 = log w2 ++ deletion_log g group_name (platform w2).
Proof.
  intros Hregion Htry Hname.
  pose proof (run_try_except_ok _ (except_clause region url) _ _ _ Htry) as Hguard.
  destruct (delete_container_group_run g group_name w2)
    as (w3 & Hdel & Hcalls3 & Hgauge3 & _ & _).
  pose proof (delete_container_group_log g group_name w2) as Hlog3.
  rewrite Hdel in Hlog3. cbn [snd] in Hlog3.
  rewrite <- (finally_clause_bound g group_name w2 Hname) in Hdel.
  exists w3. split; [|split; [assumption | split; assumption]].
  unfold for_body. rewrite (run_bind_ok _ _ _ _ _ Hregion).
  apply (run_try_finally_ok _ _ _ _ _ _ Hguard Hdel).
Qed.

(** The state at the end of a turn whose [try] block raises, the name being
    bound: the handler of line 221 logs the exception, the job is deleted,
    and the deletion logs what it has to. *)
Lemma turn_log_after_exception (g : Globals) (url region group_name : string)
  (w w0 w2 : State B) (e : exn) :
  random_choice AZURE_REGIONS w = (Ok region, w0) ->
  try_clause g region url w0 = (Raise e, w2) ->
  container_group_name w2 = Some group_name ->
  exists w3 : State B,
    for_body g url w = (Ok tt, w3)
    /\ calls w3 = calls w2 ++ [(clock w2, Delete (AZURE_RESOURCE_GROUP g) group_name)]
    /\ gauge w3 = gauge w2
    /\ log w3
       = log w2
         ++ (ERROR, "Error running measurement for " +:+ url +:+ " from region "
                    +:+ region +:+ ": " +:+ exn_str e)
         :: deletion_log g group_name (platform w2).
Proof.
  intros Hregion Htry Hname.
  pose proof (run_try_except_raise _ (except_clause region url) _ _ _ Htry) as Hguard.
  set (w2' := snd (except_clause region url e w2)).
  assert (Hlogged : except_clause region url e w2 = (Ok tt, w2')) by reflexivity.
  rewrite Hlogged in Hguard.
  destruct (delete_container_group_run g group_name w2')
    as (w3 & Hdel & Hcalls3 & Hgauge3 & _ & _).
  pose proof (delete_container_group_log g group_name w2') as Hlog3.
  rewrite Hdel in Hlog3. cbn [snd] in Hlog3.
  rewrite <- (finally_clause_bound g group_name w2' Hname) in Hdel.
  exists w3. split.
  { unfold for_body. rewrite (run_bind_ok _ _ _ _ _ Hregion).
    apply (run_try_finally_ok _ _ _ _ _ _ Hguard Hdel). }
  split; [exact Hcalls3|]. split; [exact Hgauge3|].
  rewrite Hlog3. change (platform w2') with (platform w2).
  change (log w2')
    with (log w2 ++ [(ERROR, "Error running measurement for " +:+ url
                             +:+ " from region " +:+ region +:+ ": "
                             +:+ exn_str e)]).
  rewrite <- app_assoc. reflexivity.
Qed.

(** X7. When the first poll of a created job raises, or returns a group
    whose state cannot be read, the wait does not poll again: the turn
    fetches no log, deletes the job and returns. Its calls are the create,
    that one poll, and the delete issued when the poll has answered; it
    leaves the gauge as it was, and in the log the exception, under
    ["Error running measurement for ..."], followed by what the deletion
    logs. *)
Theorem first_poll_error_is_contained
  (environ : gmap string string) (g : Globals) (url region group_name : string)
  (w w0 w1 : State B) (e : exn) :
  module_init environ = Ok g ->
  random_choice AZURE_REGIONS w = (Ok region, w0) ->
  create_container_group g region url w0 = (Ok group_name, w1) ->
  observed g group_name 0 (platform w1) = Raises e ->
  exists (group : ContainerGroup) (w3 : State B),
    for_body g url w = (Ok tt, w3)
    /\ gauge w3 = gauge w
    /\ calls w3
       = calls w
         ++ [(clock w, CreateOrUpdate (AZURE_RESOURCE_GROUP g) group_name group);
             (clock w1, Get (AZURE_RESOURCE_GROUP g) group_name);
             (clock w1 + Z.of_N (elapsed (poll g group_name (platform w1))),
              Delete (AZURE_RESOURCE_GROUP g) group_name)]
    /\ log w3
       = log w
         ++ (ERROR, "Error running measurement for " +:+ url +:+ " from region "
                    +:+ region +:+ ": " +:+ exn_str e)
         :: deletion_log g group_name (after (poll g group_name (platform w1))).
Proof.
  intros Hload Hregion Hcreate Hpoll.
  assert (HT : ACR_TIMEOUT g = 180).
  { apply module_init_loaded in Hload as (id & _ & _ & Hg). rewrite Hg. reflexivity. }
  destruct (created_state g url region group_name w w0 w1 Hregion Hcreate)
    as (group & Hc1 & Hg1 & Hl1).
  set (w1s := snd (store_container_group_name group_name w1)).
  set (wp := snd (invoke (Get (AZURE_RESOURCE_GROUP g) group_name)
                         (poll g group_name) w1s)).
  assert (Hwait : wait_for_container_completion g group_name w1s = (Raise e, wp)).
  { unfold wait_for_container_completion.
    rewrite (run_bind_ok time_time _ w1s w1s (clock w1s) eq_refl).
    unfold poll_fuel. rewrite wait_loop_turn.
    assert (Hin : (clock w1s - clock w1s <? ACR_TIMEOUT g) = true) by lia.
    rewrite Hin. cbv zeta. change (platform w1s) with (platform w1).
    rewrite Hpoll. reflexivity. }
  assert (Htry : try_clause g region url w0 = (Raise e, wp)).
  { unfold try_clause. rewrite (run_bind_ok _ _ _ _ _ Hcreate).
    rewrite (run_bind_ok (store_container_group_name group_name) _ w1 w1s tt eq_refl).
    apply run_bind_raise. exact Hwait. }
  destruct (turn_log_after_exception g url region group_name w w0 wp e
              Hregion Htry eq_refl)
    as (w3 & Hbody & Hc3 & Hg3 & Hl3).
  exists group, w3. split; [exact Hbody|].
  split; [rewrite Hg3; exact Hg1|].
  split.
  - rewrite Hc3.
    change (calls wp)
      with (calls w1 ++ [(clock w1, Get (AZURE_RESOURCE_GROUP g) group_name)]).
    change (clock wp)
      with (clock w1 + Z.of_N (elapsed (poll g group_name (platform w1)))).
    rewrite Hc1, <- !app_assoc. reflexivity.
  - rewrite Hl3. change (log wp) with (log w1).
    change (platform wp) with (after (poll g group_name (platform w1))).
    rewrite Hl1. reflexivity.
Qed.

(** X8. When the job completes and fetching its log raises, the turn
    records no sample, deletes the job and returns; the fetch and the
    delete, issued when the fetch has answered, are its last two calls.
    It leaves in the log the exception, under
    ["Error running measurement for ..."], followed by what the deletion
    logs. *)
Theorem log_fetch_error_is_contained
  (g : Globals) (url region group_name : string) (w w0 w1 w2 : State B) (e : exn) :
  random_choice AZURE_REGIONS w = (Ok region, w0) ->
  create_container_group g region url w0 = (Ok group_name, w1) ->
  wait_for_container_completion g group_name
    (snd (store_container_group_name group_name w1)) = (Ok true, w2) ->
  answer (list_logs (AZURE_RESOURCE_GROUP g) group_name "measure" (platform w2))
  = Raises e ->
  exists w4 : State B,
    for_body g url w = (Ok tt, w4)
    /\ gauge w4 = gauge w
    /\ calls w4
       = calls w2
         ++ [(clock w2, ListLogs (AZURE_RESOURCE_GROUP g) group_name "measure");
             (clock w2
              + Z.of_N (elapsed (list_logs (AZURE_RESOURCE_GROUP g) group_name
                                   "measure" (platform w2))),
              Delete (AZURE_RESOURCE_GROUP g) group_name)]
    /\ log w4
       = log w
         ++ (ERROR, "Error running measurement for " +:+ url +:+ " from region "
                    +:+ region +:+ ": " +:+ exn_str e)
         :: deletion_log g group_name
              (after (list_logs (AZURE_RESOURCE_GROUP g) group_name "measure"
                        (platform w2))).
Proof.
  intros Hregion Hcreate Hwait Hlogs.
  destruct (created_state g url region group_name w w0 w1 Hregion Hcreate)
    as (group & _ & Hg1 & Hl1).
  destruct (wait_frame g group_name _ _ _ Hwait) as (Hg2 & Hl2 & Hn2).
  cbn [store_container_group_name snd gauge log container_group_name] in Hg2, Hl2, Hn2.
  set (wl := snd (invoke (ListLogs (AZURE_RESOURCE_GROUP g) group_name "measure")
                         (list_logs (AZURE_RESOURCE_GROUP g) group_name "measure") w2)).
  assert (Hfetch : get_container_logs g group_name w2 = (Raise e, wl)).
  { unfold get_container_logs. apply run_bind_raise.
    unfold invoke. rewrite Hlogs. reflexivity. }
  assert (Htry : try_clause g region url w0 = (Raise e, wl)).
  { unfold try_clause. rewrite (run_bind_ok _ _ _ _ _ Hcreate).
    rewrite (run_bind_ok _ _ w1 (snd (store_container_group_name group_name w1)) tt
               eq_refl).
    rewrite (run_bind_ok _ _ _ _ _ Hwait). cbn [negb].
    apply run_bind_raise. exact Hfetch. }
  destruct (turn_log_after_exception g url region group_name w w0 wl e
              Hregion Htry Hn2)
    as (w4 & Hbody & Hc4 & Hg4 & Hl4).
  exists w4. split; [exact Hbody|].
  split; [rewrite Hg4; change (gauge wl) with (gauge w2); congruence|].
  split.
  - rewrite Hc4.
    change (calls wl) with (calls w2 ++ [(clock w2,
      ListLogs (AZURE_RESOURCE_GROUP g) group_name "measure")]).
    rewrite <- app_assoc. reflexivity.
  - rewrite Hl4. change (log wl) with (log w2). rewrite Hl2, Hl1. reflexivity.
Qed.

(** Running the [try] block up to the parsing of the fetched log. *)
Ltac reach_parsing Hcreate Hwait Hfetch :=
  unfold try_clause;
  rewrite (run_bind_ok _ _ _ _ _ Hcreate);
  match type of Hwait with
  | wait_for_container_completion _ ?name (snd (store_container_group_name _ ?w1)) = _ =>
      rewrite (run_bind_ok (store_container_group_name name) _ w1
                 (snd (store_container_group_name name w1)) tt eq_refl)
  end;
  rewrite (run_bind_ok _ _ _ _ _ Hwait); cbn [negb];
  rewrite (run_bind_ok _ _ _ _ _ Hfetch).

(** X9. When the job completes and its log is fetched, the turn deletes the
    job and returns without a sample in each case; the fetch and the
    delete, issued when the fetch has answered, are its last two calls.
    What it leaves in the log tells the cases apart: a log without text
    gives a parsing error and the unparsable message, a text without a
    line that parses as a float gives the unparsable message, and a text
    with such a line runs into the [AttributeError] of line 213, which the
    handler of line 221 logs; what the deletion logs comes last. *)
Theorem completed_probe_outcomes
  (g : Globals) (url region group_name : string) (w w0 w1 w2 : State B) (logs : Logs) :
  random_choice AZURE_REGIONS w = (Ok region, w0) ->
  create_container_group g region url w0 = (Ok group_name, w1) ->
  wait_for_container_completion g group_name
    (snd (store_container_group_name group_name w1)) = (Ok true, w2) ->
  answer (list_logs (AZURE_RESOURCE_GROUP g) group_name "measure" (platform w2))
  = Returns logs ->
  exists w4 : State B,
    for_body g url w = (Ok tt, w4)
    /\ gauge w4 = gauge w
    /\ calls w4
       = calls w2
         ++ [(clock w2, ListLogs (AZURE_RESOURCE_GROUP g) group_name "measure");
             (clock w2
              + Z.of_N (elapsed (list_logs (AZURE_RESOURCE_GROUP g) group_name
                                   "measure" (platform w2))),
              Delete (AZURE_RESOURCE_GROUP g) group_name)]
    /\ log w4
       = log w
         ++ match content logs with
            | None =>
                [(ERROR, "Error parsing log content: 'NoneType' object has no attribute 'splitlines'");
                 (ERROR, "Could not parse response time for " +:+ url
                         +:+ " in container group " +:+ group_name)]
            | Some text =>
                match first_float (splitlines text) with
                | None =>
                    [(ERROR, "Could not parse response time for " +:+ url
                             +:+ " in container group " +:+ group_name)]
                | Some _ =>
                    [(ERROR, "Error running measurement for " +:+ url
                             +:+ " from region " +:+ region
                             +:+ ": type object 'datetime.datetime' has no attribute 'datetime'")]
                end
            end
         ++ deletion_log g group_name
              (after (list_logs (AZURE_RESOURCE_GROUP g) group_name "measure"
                        (platform w2))).
Proof.
  intros Hregion Hcreate Hwait Hlogs.
  destruct (created_state g url region group_name w w0 w1 Hregion Hcreate)
    as (group & _ & Hg1 & Hl1).
  destruct (wait_frame g group_name _ _ _ Hwait) as (Hg2 & Hl2 & Hn2).
  cbn [store_container_group_name snd gauge log container_group_name] in Hg2, Hl2, Hn2.
  set (wl := snd (invoke (ListLogs (AZURE_RESOURCE_GROUP g) group_name "measure")
                         (list_logs (AZURE_RESOURCE_GROUP g) group_name "measure") w2)).
  assert (Hfetch : get_container_logs g group_name w2 = (Ok (content logs), wl)).
  { unfold get_container_logs, mbind, M_bind, invoke. rewrite Hlogs. reflexivity. }
  assert (Hcl : calls wl = calls w2 ++ [(clock w2,
             ListLogs (AZURE_RESOURCE_GROUP g) group_name "measure")]) by reflexivity.
  destruct (content logs) as [text|] eqn:Hcontent.
  - destruct (first_float (splitlines text)) as [value|] eqn:Hfloat.
    + assert (Htry : try_clause g region url w0
                     = (Raise (Exception AttributeError
                                 "type object 'datetime.datetime' has no attribute 'datetime'"),
                        wl)).
      { reach_parsing Hcreate Hwait Hfetch.
        rewrite (run_bind_ok (parse_response_time (Some text)) _ wl wl
                   (first_float (splitlines text)) eq_refl).
        rewrite Hfloat. apply run_bind_raise. apply utc_timestamp_raises. }
      destruct (turn_log_after_exception g url region group_name w w0 wl _
                  Hregion Htry Hn2)
        as (w4 & Hbody & Hc4 & Hg4 & Hl4).
      exists w4. split; [exact Hbody|].
      split; [rewrite Hg4; change (gauge wl) with (gauge w2); congruence|].
      split; [rewrite Hc4, Hcl, <- app_assoc; reflexivity|].
      rewrite Hl4. change (log wl) with (log w2). rewrite Hl2, Hl1. reflexivity.
    + set (w3 := snd (logger ERROR ("Could not parse response time for " +:+ url
                                    +:+ " in container group " +:+ group_name) wl)).
      assert (Htry : try_clause g region url w0 = (Ok tt, w3)).
      { reach_parsing Hcreate Hwait Hfetch.
        rewrite (run_bind_ok (parse_response_time (Some text)) _ wl wl
                   (first_float (splitlines text)) eq_refl).
        rewrite Hfloat. reflexivity. }
      destruct (turn_log_after_return g url region group_name w w0 w3
                  Hregion Htry Hn2)
        as (w4 & Hbody & Hc4 & Hg4 & Hl4).
      exists w4. split; [exact Hbody|].
      split; [rewrite Hg4; change (gauge w3) with (gauge w2); congruence|].
      split; [rewrite Hc4; change (calls w3) with (calls wl);
              rewrite Hcl, <- app_assoc; reflexivity|].
      rewrite Hl4.
      change (log w3) with (log w2 ++ [(ERROR, "Could not parse response time for "
                                        +:+ url +:+ " in container group "
                                        +:+ group_name)]).
      rewrite Hl2, Hl1, <- app_assoc. reflexivity.
  - set (wq := snd (parse_response_time None wl)).
    set (w3 := snd (logger ERROR ("Could not parse response time for " +:+ url
                                  +:+ " in container group " +:+ group_name) wq)).
    assert (Htry : try_clause g region url w0 = (Ok tt, w3)).
    { reach_parsing Hcreate Hwait Hfetch.
      rewrite (run_bind_ok (parse_response_time None) _ wl wq None eq_refl).
      reflexivity. }
    destruct (turn_log_after_return g url region group_name w w0 w3
                Hregion Htry Hn2)
      as (w4 & Hbody & Hc4 & Hg4 & Hl4).
    exists w4. split; [exact Hbody|].
    split; [rewrite Hg4; change (gauge w3) with (gauge w2); congruence|].
    split; [rewrite Hc4; change (calls w3) with (calls wl);
            rewrite Hcl, <- app_assoc; reflexivity|].
    rewrite Hl4.
    change (log w3)
      with ((log w2 ++ [(ERROR, "Error parsing log content: " +:+ "'NoneType' object has no attribute 'splitlines'")])
            ++ [(ERROR, "Could not parse response time for " +:+ url
                        +:+ " in container group " +:+ group_name)]).
    rewrite Hl2, Hl1, <- !app_assoc. reflexivity.
Qed.

(** X10. A job whose first poll shows a terminal state, in whatever letter
    case the backend writes it, ends the wait at once: [True] after that
    one call, without any sleep. "Terminated" and "EXITED" are terminal;
    "Succeeded", "Failed", "Stopped" and "Running" are not. *)
Theorem terminated_job_is_seen_at_first_poll
  (environ : gmap string string) (g : Globals) (group_name : string) (w : State B)
  (cg : ContainerGroup) (c : Container) (others : list Container) (s : string) :
  module_init environ = Ok g ->
  answer (poll g group_name (platform w)) = Returns cg ->
  containers cg = c :: others ->
  instance_view c = Some {| current_state := Some {| state := Some s |} |} ->
  terminal (lower s) = true ->
  (exists w' : State B,
      wait_for_container_completion g group_name w = (Ok true, w')
      /\ calls w' = calls w ++ [(clock w, Get (AZURE_RESOURCE_GROUP g) group_name)]
      /\ clock w' = clock w + Z.of_N (elapsed (poll g group_name (platform w))))
  /\ terminal (lower "Terminated") = true /\ terminal (lower "EXITED") = true
  /\ terminal (lower "Succeeded") = false /\ terminal (lower "Failed") = false
  /\ terminal (lower "Stopped") = false /\ terminal (lower "Running") = false.
Proof.
  intros Hload Hpoll Hc Hview Hterm.
  assert (HT : ACR_TIMEOUT g = 180).
  { apply module_init_loaded in Hload as (id & _ & _ & Hg). rewrite Hg. reflexivity. }
  split; [|repeat split].
  exists (snd (invoke (Get (AZURE_RESOURCE_GROUP g) group_name) (poll g group_name) w)).
  split; [|split; reflexivity].
  unfold wait_for_container_completion.
  rewrite (run_bind_ok time_time _ w w (clock w) eq_refl).
  unfold poll_fuel. rewrite wait_loop_turn.
  assert (Hin : (clock w - clock w <? ACR_TIMEOUT g) = true) by lia.
  rewrite Hin. cbv zeta. unfold observed. cbn [poll_backend].
  rewrite Hpoll. unfold container_state_of. rewrite Hc, Hview. cbn [current_state state].
  rewrite Hterm. reflexivity.
Qed.

(** The first eight characters of a name have at most eight characters. *)
Lemma length_substring_le (n : nat) (s : string) :
  (String.length (substring 0 n s) <= n)%nat.
Proof.
  revert s. induction n as [|n IH]; intros [|c s]; cbn; try lia.
  specialize (IH s). lia.
Qed.

(** The region of a turn is the entry of [AZURE_REGIONS] at the index the
    random generator draws. *)
Lemma random_choice_draw (w : State B) :
  random_choice AZURE_REGIONS w
  = (Ok (nth (fst (random_below (length AZURE_REGIONS) (platform w))
              mod length AZURE_REGIONS)%nat AZURE_REGIONS "eastus"),
     {| platform := snd (random_below (length AZURE_REGIONS) (platform w));
        clock := clock w; calls := calls w; gauge := gauge w; log := log w;
        container_group_name := container_group_name w |}).
Proof.
  unfold random_choice, AZURE_REGIONS, mbind, M_bind, draw.
  cbn [length].
  destruct (random_below 7%nat (platform w)) as [i b]. reflexivity.
Qed.

(** The request of a submission: the name is made from the identifier that
    [uuid.uuid4] gives, the group is the one of lines 101-118. *)
Lemma create_container_group_request (g : Globals) (region url : string)
  (w : State B) :
  let group_name := "measure-" +:+ substring 0 8 (fst (uuid4_hex (platform w))) in
  let half := S754_finite false 4503599627370496 (-53) in
  let group :=
    {| location := region;
       containers :=
         [{| name := "measure"; image := MEASURE_IMAGE g;
             command := ["python"; "/app/measure.py"; "--url"; url];
             resources := {| requests := {| memory_in_gb := half; cpu := half |} |};
             instance_view := None |}];
       os_type := linux; restart_policy := never |} in
  exists (w1 : State B),
    (create_container_group g region url w = (Ok group_name, w1)
     \/ exists e, create_container_group g region url w = (Raise e, w1))
    /\ calls w1
       = calls w ++ [(clock w, CreateOrUpdate (AZURE_RESOURCE_GROUP g) group_name group)].
Proof.
  unfold create_container_group, mbind, M_bind, draw, logger, invoke, mret, M_ret.
  cbn [enabled].
  destruct (uuid4_hex (platform w)) as [hex b].
  cbn [platform clock calls gauge log container_group_name fst].
  match goal with
  | |- context [answer ?r] => destruct (answer r) as [[]|e] eqn:E
  end.
  - eexists. split; [left; reflexivity | reflexivity].
  - eexists. split; [right; exists e; reflexivity | reflexivity].
Qed.

(** X11. Every turn of the loop makes exactly one create call, its first
    call, and deletes at most one job. The region of the job is the entry
    of [AZURE_REGIONS] at the index the random generator draws, one of the
    seven; its name is [measure-] followed by the first eight characters of
    the identifier that [uuid.uuid4] gives next, sixteen characters at
    most; the group holds the single container [measure], which runs the
    configured image on [python /app/measure.py --url] and the target with
    half a GB of memory and half a CPU, is never restarted, and runs on
    Linux. *)
Theorem each_turn_submits_one_job (g : Globals) (url : string) (w : State B) :
  let pick := random_below (length AZURE_REGIONS) (platform w) in
  let region := nth (fst pick mod length AZURE_REGIONS)%nat AZURE_REGIONS "eastus" in
  let group_name := "measure-" +:+ substring 0 8 (fst (uuid4_hex (snd pick))) in
  let half := S754_finite false 4503599627370496 (-53) in
  let group :=
    {| location := region;
       containers :=
         [{| name := "measure"; image := MEASURE_IMAGE g;
             command := ["python"; "/app/measure.py"; "--url"; url];
             resources := {| requests := {| memory_in_gb := half; cpu := half |} |};
             instance_view := None |}];
       os_type := linux; restart_policy := never |} in
  In region AZURE_REGIONS
  /\ (String.length group_name <= 16)%nat
  /\ exists (later : list (Z * Call)) (r : result unit) (w' : State B),
       for_body g url w = (r, w')
       /\ calls w'
          = calls w
            ++ (clock w, CreateOrUpdate (AZURE_RESOURCE_GROUP g) group_name group)
            :: later
       /\ count is_create later = O
       /\ (count is_delete later <= 1)%nat.
Proof.
  intros pick region group_name half group.
  split.
  { apply nth_In. apply Nat.mod_upper_bound. discriminate. }
  split.
  { unfold group_name.
    change (String.length ("measure-" +:+ substring 0 8 (fst (uuid4_hex (snd pick)))))
      with (8 + String.length (substring 0 8 (fst (uuid4_hex (snd pick)))))%nat.
    pose proof (length_substring_le 8 (fst (uuid4_hex (snd pick)))). lia. }
  pose proof (random_choice_draw w) as Hregion.
  fold pick in Hregion. fold region in Hregion.
  set (w0 := {| platform := snd pick; clock := clock w; calls := calls w;
                gauge := gauge w; log := log w;
                container_group_name := container_group_name w |}) in Hregion.
  destruct (create_container_group_request g region url w0) as (w1 & Hcreate & Hc1).
  change (platform w0) with (snd pick) in Hcreate, Hc1.
  change (calls w0) with (calls w) in Hc1. change (clock w0) with (clock w) in Hc1.
  fold half in Hcreate, Hc1. fold group_name in Hcreate, Hc1. fold group in Hc1.
  destruct Hcreate as [Hcreate|(e & Hcreate)].
  - destruct (for_body_created g url region group_name w w0 w1 Hregion Hcreate)
      as (mid & w2 & w3 & Hbody & Hc2 & Hmid & Hc3 & _).
    destruct (count_reads_job mid Hmid) as [Hmc Hmd].
    exists (mid ++ [(clock w2, Delete (AZURE_RESOURCE_GROUP g) group_name)]),
      (Ok tt), w3.
    split; [exact Hbody|].
    split; [rewrite Hc3, Hc2, Hc1, <- !app_assoc; reflexivity|].
    rewrite !count_app, Hmc, Hmd.
    split; [reflexivity | unfold count; cbn; lia].
  - destruct (container_group_name w1) as [earlier|] eqn:Hn1.
    + destruct (for_body_rejected_bound g url region earlier w w0 w1 e
                  Hregion Hcreate Hn1)
        as (w3 & Hbody & Hc3 & _).
      exists [(clock w1, Delete (AZURE_RESOURCE_GROUP g) earlier)], (Ok tt), w3.
      split; [exact Hbody|].
      split; [rewrite Hc3, Hc1, <- !app_assoc; reflexivity|].
      split; [reflexivity | unfold count; cbn; lia].
    + destruct (for_body_rejected_unbound g url region w w0 w1 e Hregion Hcreate Hn1)
        as (w2 & Hbody & Hc2 & _).
      exists [], (Raise unbound_container_group_name), w2.
      split; [exact Hbody|].
      split; [rewrite Hc2, Hc1; reflexivity|].
      split; [reflexivity | unfold count; cbn; lia].
Qed.
End Probe.

(** ** The job's output read back by the orchestrator *)

Lemma splitlines_single_line (s : string) :
  single_line s = true -> splitlines (s +:+ String (chr 10) EmptyString) = [s].
Proof.
  induction s as [|c rest IH]; intros Hs; [reflexivity|].
  cbn [single_line] in Hs. apply andb_true_iff in Hs as [Hc Hrest].
  apply negb_true_iff in Hc.
  change (String c rest +:+ String (chr 10) EmptyString)
    with (String c (rest +:+ String (chr 10) EmptyString)).
  cbn [splitlines]. rewrite Hc, (IH Hrest). reflexivity.
Qed.

Lemma float_strip (s : string) : float (strip s) = float s.
Proof. unfold float. rewrite strip_idempotent. reflexivity. Qed.

Section Pipeline.
Context {N : Type} `{Measure.Host N} {B : Type}.

Lemma measure_response_time_keeps_stdout (url : string) (p : Measure.Process N) :
  Measure.stdout (snd (Measure.measure_response_time url p)) = Measure.stdout p.
Proof.
  unfold Measure.measure_response_time.
  destruct (Measure.monotonic (Measure.host p)) as [start_time h1].
  destruct (Measure.requests_get url 30 h1) as [[r|e] h2]; [|reflexivity].
  destruct (Measure.raise_for_status url r); [|reflexivity].
  destruct (Measure.monotonic h2). reflexivity.
Qed.

(** X12. What a successful job prints is what the orchestrator reads: when
    the measurement gives the elapsed time [x], the job exits with status 0
    and the text of its output stream, handed to [parse_response_time] as
    the log, yields [x] again, provided the text [str] gives for [x] is one
    line that [float] reads back as [x]. *)
Theorem job_output_parses_back
  (argv : list string) (url : string) (p p1 : Measure.Process N) (x : float64)
  (w : State B) :
  Measure.parse_args argv = Measure.Namespace url ->
  Measure.stdout p = [] ->
  Measure.measure_response_time url p = (Some x, p1) ->
  single_line (Measure.float_str x) = true ->
  float (Measure.float_str x) = Some x ->
  exists p' : Measure.Process N,
    Measure.main argv p = (0, p')
    /\ Measure.stream_text (Measure.stdout p')
       = Measure.float_str x +:+ String (chr 10) EmptyString
    /\ parse_response_time (Some (Measure.stream_text (Measure.stdout p'))) w
       = (Ok (Some x), w).
Proof.
  intros Hargs Hout Hmeasure Hline Hback.
  pose proof (measure_response_time_keeps_stdout url p) as Hkeep.
  rewrite Hmeasure, Hout in Hkeep. cbn [snd] in Hkeep.
  unfold Measure.main. rewrite Hargs, Hmeasure.
  eexists. split; [reflexivity|].
  cbn [Measure.stdout]. rewrite Hkeep. cbn [app Measure.stream_text].
  split; [reflexivity|].
  unfold parse_response_time, mret, M_ret.
  rewrite (splitlines_single_line _ Hline). cbn [first_float].
  rewrite float_strip, Hback. reflexivity.
Qed.
End Pipeline.

(** X12 on a host that answers 200 a quarter of a second after the request. *)
Lemma job_output_parses_back_witness :
  exists p' : Measure.Process nat,
    Measure.main (H := Measure.plain_host 200) ["--url"; "https://a.example"]
                 Measure.fresh = (0, p')
    /\ @parse_response_time unit (Some (Measure.stream_text (Measure.stdout p')))
         (boot tt)
       = (Ok (Some (S754_finite false 8796093022208000 (-45))), boot tt).
Proof.
  destruct (job_output_parses_back (H := Measure.plain_host 200) (B := unit)
              ["--url"; "https://a.example"] "https://a.example" Measure.fresh
              (snd (Measure.measure_response_time (H := Measure.plain_host 200)
                      "https://a.example" Measure.fresh))
              (S754_finite false 8796093022208000 (-45)) (boot tt))
    as (p' & Hmain & _ & Hparse).
  - reflexivity.
  - reflexivity.
  - vm_compute. reflexivity.
  - vm_compute. reflexivity.
  - vm_compute. reflexivity.
  - exists p'. split; assumption.
Defined.

(** ** Instances on the scripted backend *)

(** X6 on the first target of the end-to-end scenario. *)
Lemma created_job_is_deleted_last_witness :
  exists w3 : State Mock,
    @for_body Mock (mock end_to_end) scenario_globals "https://a.example" (boot cold)
    = (Ok tt, w3)
    /\ count is_create (calls w3) = 1%nat
    /\ count is_delete (calls w3) = 1%nat
    /\ container_group_name w3 = Some "measure-00000000".
Proof.
  pose (P := mock end_to_end).
  pose (w0 := snd (@random_choice Mock P AZURE_REGIONS (boot cold))).
  pose (w1 := snd (@create_container_group Mock P scenario_globals "eastus"
                     "https://a.example" w0)).
  destruct (created_job_is_deleted_last (H := P) scenario_globals "https://a.example"
              "eastus" "measure-00000000" (boot cold) w0 w1)
    as (group & mid & w2 & w3 & Hbody & _ & _ & Hcreates & Hdeletes & _ & Hname).
  - vm_compute. reflexivity.
  - vm_compute. reflexivity.
  - exists w3. split; [exact Hbody|]. split; [exact Hcreates|].
    split; [exact Hdeletes | exact Hname].
Defined.

(** X7 on a backend that raises at every poll of the first target. *)
Lemma first_poll_error_is_contained_witness :
  exists w3 : State Mock,
    @for_body Mock (mock (failing "https://a.example" polling)) scenario_globals
      "https://a.example" (boot cold) = (Ok tt, w3)
    /\ gauge w3 = ∅
    /\ deleted (calls w3) = ["measure-00000000"]
    /\ count is_get (calls w3) = 1%nat
    /\ log w3
       = [(ERROR, "Error running measurement for https://a.example from region eastus: "
                  +:+ exn_str backend_error)].
Proof.
  pose (P := mock (failing "https://a.example" polling)).
  pose (w0 := snd (@random_choice Mock P AZURE_REGIONS (boot cold))).
  pose (w1 := snd (@create_container_group Mock P scenario_globals "eastus"
                     "https://a.example" w0)).
  destruct (first_poll_error_is_contained (H := P) scenario_environ scenario_globals
              "https://a.example" "eastus" "measure-00000000" (boot cold) w0 w1
              backend_error)
    as (group & w3 & Hbody & Hgauge & Hcalls & Hlog).
  - vm_compute. reflexivity.
  - vm_compute. reflexivity.
  - vm_compute. reflexivity.
  - vm_compute. reflexivity.
  - exists w3. split; [exact Hbody|]. split; [exact Hgauge|].
    rewrite Hcalls, Hlog. split; [reflexivity|]. split; [reflexivity|].
    vm_compute. reflexivity.
Defined.

(** X8 on a backend that raises when the log of the first target is fetched. *)
Lemma log_fetch_error_is_contained_witness :
  exists w4 : State Mock,
    @for_body Mock (mock (failing "https://a.example" fetch_log)) scenario_globals
      "https://a.example" (boot cold) = (Ok tt, w4)
    /\ gauge w4 = ∅
    /\ deleted (calls w4) = ["measure-00000000"]
    /\ log w4
       = [(ERROR, "Error running measurement for https://a.example from region eastus: "
                  +:+ exn_str backend_error)].
Proof.
  pose (P := mock (failing "https://a.example" fetch_log)).
  pose (w0 := snd (@random_choice Mock P AZURE_REGIONS (boot cold))).
  pose (w1 := snd (@create_container_group Mock P scenario_globals "eastus"
                     "https://a.example" w0)).
  pose (w2 := snd (@wait_for_container_completion Mock P scenario_globals
                     "measure-00000000"
                     (snd (@store_container_group_name Mock "measure-00000000" w1)))).
  destruct (log_fetch_error_is_contained (H := P) scenario_globals
              "https://a.example" "eastus" "measure-00000000" (boot cold) w0 w1 w2
              backend_error)
    as (w4 & Hbody & Hgauge & Hcalls & Hlog).
  - vm_compute. reflexivity.
  - vm_compute. reflexivity.
  - vm_compute. reflexivity.
  - vm_compute. reflexivity.
  - exists w4. split; [exact Hbody|]. split; [exact Hgauge|].
    rewrite Hcalls, Hlog. split; vm_compute; reflexivity.
Defined.

(** X9 on the first target of the end-to-end scenario. *)
Lemma completed_probe_outcomes_witness :
  exists w4 : State Mock,
    @for_body Mock (mock end_to_end) scenario_globals "https://a.example" (boot cold)
    = (Ok tt, w4)
    /\ gauge w4 = ∅
    /\ deleted (calls w4) = ["measure-00000000"]
    /\ count is_list_logs (calls w4) = 1%nat
    /\ log w4
       = [(ERROR, "Error running measurement for https://a.example from region eastus: type object 'datetime.datetime' has no attribute 'datetime'")].
Proof.
  pose (P := mock end_to_end).
  pose (w0 := snd (@random_choice Mock P AZURE_REGIONS (boot cold))).
  pose (w1 := snd (@create_container_group Mock P scenario_globals "eastus"
                     "https://a.example" w0)).
  pose (w2 := snd (@wait_for_container_completion Mock P scenario_globals
                     "measure-00000000"
                     (snd (@store_container_group_name Mock "measure-00000000" w1)))).
  destruct (completed_probe_outcomes (H := P) scenario_globals
              "https://a.example" "eastus" "measure-00000000" (boot cold) w0 w1 w2
              {| content := Some "42.0" |})
    as (w4 & Hbody & Hgauge & Hcalls & Hlog).
  - vm_compute. reflexivity.
  - vm_compute. reflexivity.
  - vm_compute. reflexivity.
  - vm_compute. reflexivity.
  - exists w4. split; [exact Hbody|]. split; [exact Hgauge|].
    rewrite Hcalls, Hlog. vm_compute. repeat split; reflexivity.
Defined.

(** X10 on a backend that shows Terminated at every poll. *)
Lemma terminated_job_is_seen_at_first_poll_witness :
  exists w' : State unit,
    @wait_for_container_completion unit (constant_backend (Some "Terminated") None)
      scenario_globals "measure-00000000" (boot tt) = (Ok true, w')
    /\ calls w' = [(0, Get "my-resource-group" "measure-00000000")]
    /\ clock w' = 0.
Proof.
  destruct (terminated_job_is_seen_at_first_poll
              (H := constant_backend (Some "Terminated") None)
              scenario_environ scenario_globals "measure-00000000" (boot tt)
              (constant_group (Some "Terminated"))
              {| name := "measure"; image := ""; command := [];
                 resources :=
                   {| requests :=
                       {| memory_in_gb := S754_finite false 4503599627370496 (-53);
                          cpu := S754_finite false 4503599627370496 (-53) |} |};
                 instance_view :=
                   Some {| current_state := Some {| state := Some "Terminated" |} |} |}
              [] "Terminated")
    as ((w' & Hwait & Hcalls & Hclock) & _).
  - vm_compute. reflexivity.
  - reflexivity.
  - reflexivity.
  - reflexivity.
  - reflexivity.
  - exists w'. split; [exact Hwait|]. split; [exact Hcalls | exact Hclock].
Defined.

(** X13 on the end-to-end scenario, and on the one whose first submission is
    rejected. *)
Lemma cycle_creates_and_deletes_witness :
  (count is_create (calls (snd (cycle end_to_end))) = 2%nat
   /\ count is_delete (calls (snd (cycle end_to_end))) = 2%nat)
  /\ fst (cycle (failing "https://a.example" submit))
     = Raise unbound_container_group_name.
Proof.
  split.
  - pose (P := mock end_to_end).
    pose (w0 := snd (@read_webpages Mock P (WEBPAGES_CONFIG_PATH scenario_globals)
                       (snd (@enter_frame Mock (boot cold))))).
    destruct (cycle_creates_and_deletes (H := P) scenario_globals "https://a.example"
                ["https://b.example"] (boot cold) w0)
      as (region & w1 & w2 & new & Hregion & Hcalls & Hrun).
    + vm_compute. reflexivity.
    + unfold cycle. fold P. rewrite Hcalls. cbn [boot calls app].
      destruct Hrun as [(group_name & _ & _ & Hcreates & Hdeletes)
                       |(e & Hcreate & _)].
      * split; assumption.
      * exfalso. vm_compute in Hregion. injection Hregion as <- <-.
        vm_compute in Hcreate. discriminate.
  - pose (P := mock (failing "https://a.example" submit)).
    pose (w0 := snd (@read_webpages Mock P (WEBPAGES_CONFIG_PATH scenario_globals)
                       (snd (@enter_frame Mock (boot cold))))).
    destruct (cycle_creates_and_deletes (H := P) scenario_globals "https://a.example"
                ["https://b.example"] (boot cold) w0)
      as (region & w1 & w2 & new & Hregion & Hcalls & Hrun).
    + vm_compute. reflexivity.
    + destruct Hrun as [(group_name & Hcreate & _)|(e & _ & Hraise & _)].
      * exfalso. vm_compute in Hregion. injection Hregion as <- <-.
        vm_compute in Hcreate. discriminate.
      * exact Hraise.
Defined.
